(** * Shallow embedding of circus' configuration reader ([circus/config.py]),
    its pub/sub consumer ([circus/consumer.py]) and the Windows [os_open]
    shim ([circus/share.py]). *)

From Stdlib Require Import String Ascii List ZArith Bool Lia Floats Sorting Permutation.
Import ListNotations.
Open Scope string_scope.
Open Scope Z_scope.
Set Warnings "-register-all".

(** ** Python values and exceptions *)

(** A Python object as the configuration code handles it.  Dictionaries are
    association lists in insertion order, as Python dicts iterate. *)
Inductive pyval : Type :=
| PNone
| PBool (b : bool)
| PInt (z : Z)
| PFloat (f : float)
| PStr (s : string)
| PList (l : list pyval)
| PDict (d : list (string * pyval)).

Definition dict := list (string * pyval).

(** The exceptions the modelled code raises or lets through. *)
Inductive exn : Type :=
| ValueError (msg : string)
| UnicodeDecodeError          (** a subclass of [ValueError] *)
| KeyError (key : string)
| TypeError
| OSError (winerror : Z)
| ZMQError (errno : Z).

Definition is_value_error (e : exn) : bool :=
  match e with ValueError _ | UnicodeDecodeError => true | _ => false end.

Inductive result (A : Type) : Type :=
| Ok (a : A)
| Err (e : exn).
Arguments Ok {A} a.
Arguments Err {A} e.

Definition bind {A B} (m : result A) (f : A -> result B) : result B :=
  match m with Ok a => f a | Err e => Err e end.

Notation "x <- m ;; k" := (bind m (fun x => k))
  (at level 61, m at next level, right associativity).

Fixpoint mfold_left {A B} (f : A -> B -> result A) (l : list B) (a : A)
  : result A :=
  match l with
  | [] => Ok a
  | b :: l' => a' <- f a b ;; mfold_left f l' a'
  end.

(** ** Dictionaries *)

Fixpoint dict_get {A} (k : string) (d : list (string * A)) : option A :=
  match d with
  | [] => None
  | (k', v) :: d' => if String.eqb k k' then Some v else dict_get k d'
  end.

(** [d[k] = v]: overwrite in place, or append a new key. *)
Fixpoint dict_set {A} (k : string) (v : A) (d : list (string * A))
  : list (string * A) :=
  match d with
  | [] => [(k, v)]
  | (k', v') :: d' =>
      if String.eqb k k' then (k, v) :: d' else (k', v') :: dict_set k v d'
  end.

(** The keys of a dict after [d[k] = v]. *)
Fixpoint set_keys (k : string) (ks : list string) : list string :=
  match ks with
  | [] => [k]
  | k' :: ks' => if String.eqb k k' then k :: ks' else k' :: set_keys k ks'
  end.

(** [d.update(d2)] *)
Definition dict_update {A} (d d2 : list (string * A)) : list (string * A) :=
  fold_left (fun acc kv => dict_set (fst kv) (snd kv) acc) d2 d.

(** [dict(pairs)] *)
Definition dict_of {A} (l : list (string * A)) : list (string * A) :=
  dict_update [] l.

Definition dict_mem {A} (k : string) (d : list (string * A)) : bool :=
  match dict_get k d with Some _ => true | None => false end.

(** ** Python string methods *)

Definition startswith (prefix s : string) : bool := String.prefix prefix s.

Definition drop (n : nat) (s : string) : string :=
  substring n (String.length s - n) s.

Fixpoint split_fuel (fuel : nat) (sep s : string) : list string :=
  match fuel with
  | O => [s]
  | S f =>
      match String.index 0 sep s with
      | None => [s]
      | Some i => substring 0 i s
                    :: split_fuel f sep (drop (i + String.length sep) s)
      end
  end.

(** [s.split(sep)] for a non-empty [sep]. *)
Definition py_split (sep s : string) : list string :=
  split_fuel (S (String.length s)) sep s.

(** [s.split(sep, 1)] *)
Definition py_split1 (sep s : string) : list string := split_fuel 1 sep s.

Fixpoint last_or (d : string) (l : list string) : string :=
  match l with [] => d | [x] => x | _ :: l' => last_or d l' end.

Definition is_space (c : ascii) : bool :=
  match c with
  | " "%char | "009"%char | "010"%char | "011"%char | "012"%char
  | "013"%char => true
  | _ => false
  end.

Fixpoint lstrip (s : string) : string :=
  match s with
  | EmptyString => EmptyString
  | String c s' => if is_space c then lstrip s' else s
  end.

Definition rev_string (s : string) : string :=
  string_of_list_ascii (rev (list_ascii_of_string s)).

(** [s.strip()] *)
Definition strip (s : string) : string := rev_string (lstrip (rev_string (lstrip s))).

Definition lower_ascii (c : ascii) : ascii :=
  let n := nat_of_ascii c in
  if (65 <=? n)%nat && (n <=? 90)%nat then ascii_of_nat (n + 32) else c.

(** [s.lower()] on ASCII text. *)
Fixpoint lower (s : string) : string :=
  match s with
  | EmptyString => EmptyString
  | String c s' => String (lower_ascii c) (lower s')
  end.

(** ** [int(s, base)] for bases up to 10 *)

Definition digit_val (c : ascii) : option Z :=
  let n := nat_of_ascii c in
  if (48 <=? n)%nat && (n <=? 57)%nat then Some (Z.of_nat n - 48) else None.

(** Digits with single underscores between them, as Python accepts them. *)
Fixpoint parse_digits (base acc : Z) (prev_digit : bool) (s : string)
  : option Z :=
  match s with
  | EmptyString => if prev_digit then Some acc else None
  | String "_" s' => if prev_digit then
                       match s' with
                       | EmptyString => None
                       | _ => parse_digits base acc false s'
                       end
                     else None
  | String c s' =>
      match digit_val c with
      | Some d => if d <? base then parse_digits base (acc * base + d) true s'
                  else None
      | None => None
      end
  end.

(** The [0b]/[0o] prefix [int(s, base)] accepts for base 2 and 8, which may
    be followed by one underscore. *)
Definition base_prefix (base : Z) (c : ascii) : bool :=
  ((base =? 2) && (Ascii.eqb c "b" || Ascii.eqb c "B")) ||
  ((base =? 8) && (Ascii.eqb c "o" || Ascii.eqb c "O")).

Definition parse_body (base : Z) (u : string) : option Z :=
  match u with
  | String "0" (String c rest) =>
      if base_prefix base c then
        match rest with
        | String "_" rest' => parse_digits base 0 false rest'
        | _ => parse_digits base 0 false rest
        end
      else parse_digits base 0 false u
  | _ => parse_digits base 0 false u
  end.

Definition py_int_base (base : Z) (s : string) : result Z :=
  let t := strip s in
  let r := match t with
           | String "-" t' => option_map Z.opp (parse_body base t')
           | String "+" t' => parse_body base t'
           | _ => parse_body base t
           end in
  match r with
  | Some z => Ok z
  | None => Err (ValueError "invalid literal for int()")
  end.

(** [int(s)] *)
Definition py_int (s : string) : result Z := py_int_base 10 s.

(** ** [expand_vars] and its collaborator [replace_gnu_args] *)

Definition env_t := list (string * string).

(** Modelled from the spec: [circus.util.replace_gnu_args] is not part of the
    sources.  Spec, section 4.1: occurrences of [$(NAME)] are substituted with
    [NAME] from the merged environment, missing variables with the empty
    string.  A [$(] without a closing parenthesis is kept as it is. *)
Fixpoint replace_fuel (fuel : nat) (env : env_t) (s : string) : string :=
  match fuel with
  | O => s
  | S f =>
      match s with
      | EmptyString => EmptyString
      | String "$" (String "(" rest) =>
          match String.index 0 ")" rest with
          | Some i =>
              let name := substring 0 i rest in
              let v := match dict_get name env with Some v => v | None => "" end in
              v ++ replace_fuel f env (drop (S i) rest)
          | None => s
          end
      | String c s' => String c (replace_fuel f env s')
      end
  end.

Definition replace_gnu_args (data : string) (env : env_t) : string :=
  replace_fuel (S (String.length data)) env data.

(** [expand_vars(value, env)] *)
Fixpoint expand_vars (value : pyval) (env : env_t) : pyval :=
  match value with
  | PStr s => PStr (replace_gnu_args s env)
  | PDict d => PDict (map (fun kv => (fst kv, expand_vars (snd kv) env)) d)
  | PList l => PList (map (fun v => expand_vars v env) l)
  | v => v
  end.

(** ** [circus/config.py] *)

Module Config.

(** The collaborators of [get_config] that live outside the sources:
    [circus.util] ([to_bool], [to_signum], the default endpoints, [papa]),
    Python's [float()], [fnmatch], and the platform's [resource] module. *)
Record util : Type := {
  to_bool : string -> option bool;          (** [None]: raises [ValueError] *)
  py_float : string -> option float;
  to_signum : string -> option Z;
  fnmatch : string -> string -> bool;
  resource_present : bool;                  (** [resource is not None] *)
  RLIM_INFINITY : Z;
  papa_present : bool;
  DEFAULT_ENDPOINT_DEALER : string;
  DEFAULT_ENDPOINT_SUB : string;
  DEFAULT_ENDPOINT_MULTICAST : string;
  DEFAULT_ENDPOINT_STATS : string
}.

Definition SIGTERM : Z := 15.

(** The parsed configuration files: sections in file order, each with its
    options as the parser returns them (raw, before [$(...)] expansion). *)
Definition section := (string * list (string * string))%type.
Definition cfgparser := list section.

Section GetConfig.

Variable U : util.

Definition sections (cfg : cfgparser) : list string := map fst cfg.

Definition raw_items (cfg : cfgparser) (sec : string) : list (string * string) :=
  match dict_get sec cfg with Some it => it | None => [] end.

Definition has_option (cfg : cfgparser) (sec opt : string) : bool :=
  match dict_get sec cfg with Some it => dict_mem opt it | None => false end.

(** [DefaultConfigParser.items(section)], expanded with the parser's [_env]. *)
Definition items (cfg : cfgparser) (penv : env_t) (sec : string)
  : list (string * string) :=
  map (fun kv => (fst kv, replace_gnu_args (snd kv) penv)) (raw_items cfg sec).

(** [DefaultConfigParser.get] *)
Definition get (cfg : cfgparser) (penv : env_t) (sec opt : string) : string :=
  match dict_get opt (raw_items cfg sec) with
  | Some v => replace_gnu_args v penv
  | None => ""
  end.

Inductive ptype := TStr | TInt | TBool | TFloat.

(** [DefaultConfigParser._dget] on a string value. *)
Definition _dget (value : string) (ty : ptype) : result pyval :=
  match ty with
  | TStr => Ok (PStr value)
  | TInt => z <- py_int value ;; Ok (PInt z)
  | TBool => match to_bool U value with
             | Some b => Ok (PBool b)
             | None => Err (ValueError "not a boolean")
             end
  | TFloat => match py_float U value with
              | Some f => Ok (PFloat f)
              | None => Err (ValueError "could not convert string to float")
              end
  end.

(** [DefaultConfigParser.dget] *)
Definition dget (cfg : cfgparser) (penv : env_t) (sec opt : string)
  (default : pyval) (ty : ptype) : result pyval :=
  if negb (has_option cfg sec opt) then Ok default
  else _dget (get cfg penv sec opt) ty.

(** [watcher_defaults()] *)
Definition watcher_defaults : dict :=
  [("name", PStr ""); ("cmd", PStr ""); ("args", PStr "");
   ("numprocesses", PInt 1); ("warmup_delay", PInt 0);
   ("executable", PNone); ("working_dir", PNone); ("shell", PBool false);
   ("uid", PNone); ("gid", PNone); ("send_hup", PBool false);
   ("stop_signal", PInt SIGTERM); ("stop_children", PBool false);
   ("max_retry", PInt 5); ("graceful_timeout", PInt 30);
   ("rlimits", PDict []); ("stderr_stream", PDict []);
   ("stdout_stream", PDict []); ("priority", PInt 0);
   ("use_sockets", PBool false); ("singleton", PBool false);
   ("copy_env", PBool false); ("copy_path", PBool false);
   ("hooks", PDict []); ("respawn", PBool true); ("autostart", PBool true);
   ("use_papa", PBool false)].

(** [rlimit_value(val)] *)
Definition rlimit_value (val : string) : result Z :=
  if resource_present U && (String.length val =? 0)%nat then Ok (RLIM_INFINITY U)
  else py_int val.

(** Python truthiness of the values stored in [config]. *)
Definition truthy (v : pyval) : bool :=
  match v with
  | PNone => false
  | PBool b => b
  | PInt z => negb (z =? 0)
  | PFloat _ => true
  | PStr s => negb (String.eqb s "")
  | PList l => match l with [] => false | _ => true end
  | PDict d => match d with [] => false | _ => true end
  end.

Definition env_dict (e : env_t) : pyval := PDict (map (fun kv => (fst kv, PStr (snd kv))) e).

(** The string entries of a watcher's [env] dict, as [env.update] sees them. *)
Definition env_of (v : option pyval) : env_t :=
  match v with
  | Some (PDict d) =>
      flat_map (fun kv => match snd kv with PStr s => [(fst kv, s)] | _ => [] end) d
  | _ => []
  end.

(** Lines 157-167: [global_env] and [local_env]. *)
Definition environments (environ : env_t) (cfg : cfgparser) : env_t * env_t :=
  if existsb (String.eqb "env") (sections cfg) then
    let local_env := dict_update [] (dict_of (items cfg environ "env")) in
    (dict_update (dict_of environ) local_env, local_env)
  else (dict_of environ, []).

Definition cget (k : string) (c : dict) : pyval :=
  match dict_get k c with Some v => v | None => PNone end.

(** [config[k] = <value>] *)
Definition put (k : string) (m : result pyval) (c : dict) : result dict :=
  v <- m ;; Ok (dict_set k v c).

(** Lines 169-202: the main circus options, read with the parser's
    environment set to [global_env]. *)
Definition main_options (cfg : cfgparser) (genv : env_t) : result dict :=
  let dg := dget cfg genv "circus" in
  c <- put "check_delay" (dg "check_delay" (PFloat 5%float) TFloat) [] ;;
  c <- put "endpoint" (dg "endpoint" (PStr (DEFAULT_ENDPOINT_DEALER U)) TStr) c ;;
  c <- put "endpoint_owner" (dg "endpoint_owner" PNone TStr) c ;;
  c <- put "pubsub_endpoint" (dg "pubsub_endpoint" (PStr (DEFAULT_ENDPOINT_SUB U)) TStr) c ;;
  c <- put "multicast_endpoint"
         (dg "multicast_endpoint" (PStr (DEFAULT_ENDPOINT_MULTICAST U)) TStr) c ;;
  c <- put "stats_endpoint" (dg "stats_endpoint" PNone TStr) c ;;
  c <- put "statsd" (dg "statsd" (PBool false) TBool) c ;;
  c <- put "umask" (dg "umask" PNone TStr) c ;;
  c <- (if truthy (cget "umask" c) then
          match cget "umask" c with
          | PStr s => put "umask" (z <- py_int_base 8 s ;; Ok (PInt z)) c
          | _ => Err TypeError
          end
        else Ok c) ;;
  c <- (match cget "stats_endpoint" c with
        | PNone => Ok (dict_set "stats_endpoint" (PStr (DEFAULT_ENDPOINT_STATS U)) c)
        | _ => if negb (truthy (cget "statsd" c))
               then Ok (dict_set "statsd" (PBool true) c)   (* DeprecationWarning *)
               else Ok c
        end) ;;
  c <- put "warmup_delay" (dg "warmup_delay" (PInt 0) TInt) c ;;
  c <- put "httpd" (dg "httpd" (PBool false) TBool) c ;;
  c <- put "httpd_host" (dg "httpd_host" (PStr "localhost") TStr) c ;;
  c <- put "httpd_port" (dg "httpd_port" (PInt 8080) TInt) c ;;
  c <- put "debug" (dg "debug" (PBool false) TBool) c ;;
  c <- put "debug_gc" (dg "debug_gc" (PBool false) TBool) c ;;
  c <- put "pidfile" (dg "pidfile" PNone TStr) c ;;
  c <- put "loglevel" (dg "loglevel" PNone TStr) c ;;
  c <- put "logoutput" (dg "logoutput" PNone TStr) c ;;
  c <- put "loggerconfig" (dg "loggerconfig" PNone TStr) c ;;
  c <- put "fqdn_prefix" (dg "fqdn_prefix" PNone TStr) c ;;
  put "papa_endpoint" (dg "papa_endpoint" PNone TStr) c.

(** The lists built by the first pass.  [watchers] and [watchers_map] hold the
    same dict objects: the list is kept as the sections' keys into the map, so
    that mutating a watcher through the map is seen through the list. *)
Record pass_state : Type := mkPass {
  watchers : list string;
  watchers_map : list (string * dict);
  plugins : list dict;
  sockets : list dict
}.

(** [list(section_items.keys()) in [[], ['__name__']]] *)
Definition empty_section_keys (ks : list string) : bool :=
  match ks with
  | [] => true
  | [k] => String.eqb k "__name__"
  | _ => false
  end.

(** [dict(cfg.items(section))] *)
Definition section_items (cfg : cfgparser) (penv : env_t) (sec : string) : dict :=
  dict_of (map (fun kv => (fst kv, PStr (snd kv))) (items cfg penv sec)).

(** Lines 210-240: one section of the first pass. *)
Definition first_pass_section (cfg : cfgparser) (genv lenv : env_t)
  (st : pass_state) (sec : string) : result pass_state :=
  let section_items := section_items cfg genv sec in
  if empty_section_keys (map fst section_items) then Ok st   (* skip empty sections *)
  else
    st <- (if startswith "socket:" sec then
             let sock := dict_set "name"
                           (PStr (lower (last_or "" (py_split "socket:" sec))))
                           section_items in
             r <- dget cfg genv sec "so_reuseport" (PBool false) TBool ;;
             let sock := dict_set "so_reuseport" r sock in
             r <- dget cfg genv sec "replace" (PBool false) TBool ;;
             let sock := dict_set "replace" r sock in
             Ok (mkPass (watchers st) (watchers_map st) (plugins st)
                        (sockets st ++ [sock]))
           else Ok st) ;;
    st <- (if startswith "plugin:" sec then
             let plugin := dict_set "name" (PStr sec) section_items in
             plugin <- (match dict_get "priority" plugin with
                        | Some (PStr p) => z <- py_int p ;;
                                           Ok (dict_set "priority" (PInt z) plugin)
                        | Some _ => Err TypeError
                        | None => Ok plugin
                        end) ;;
             Ok (mkPass (watchers st) (watchers_map st) (plugins st ++ [plugin])
                        (sockets st))
           else Ok st) ;;
    (if startswith "watcher:" sec then
       let watcher := dict_set "name" (PStr (nth 1 (py_split1 "watcher:" sec) ""))
                        watcher_defaults in
       ce <- dget cfg genv sec "copy_env" (PBool false) TBool ;;
       let watcher := dict_set "copy_env" ce watcher in
       let watcher := dict_set "env" (if truthy ce then env_dict genv else env_dict lenv)
                        watcher in
       Ok (mkPass (watchers st ++ [sec]) (dict_set sec watcher (watchers_map st))
                  (plugins st) (sockets st))
     else Ok st).

Definition first_pass (cfg : cfgparser) (genv lenv : env_t) : result pass_state :=
  mfold_left (first_pass_section cfg genv lenv) (sections cfg) (mkPass [] [] [] []).

(** Modelled from the spec: [circus.py3compat.sort_by_field] is not part of
    the sources.  Its call sites (lines 242-245, "making sure we return
    consistent lists") call it with the list alone: [sort_by_field(obj,
    field='name')] sorts [obj] in place with [obj.sort(key=lambda item:
    item[field])], a stable sort, ascending, on the dicts' [name].  At the
    three call sites every dict has a string [name] (set by the first pass);
    strings compare by code point, as [String.ltb] does on bytes. *)
Fixpoint insert_asc {A} (key : A -> string) (x : A) (l : list A) : list A :=
  match l with
  | [] => [x]
  | y :: l' => if String.ltb (key x) (key y) then x :: l else y :: insert_asc key x l'
  end.

Definition sort_by_field {A} (key : A -> string) (l : list A) : list A :=
  fold_left (fun acc x => insert_asc key x acc) l [].

(** [item['name']] of a dict whose name is a string. *)
Definition name_of (w : dict) : string :=
  match dict_get "name" w with Some (PStr s) => s | _ => "" end.

Definition watcher_in (m : list (string * dict)) (sec : string) : dict :=
  match dict_get sec m with Some w => w | None => [] end.

(** Lines 242-245: [sort_by_field] on the three lists; the watchers are sorted
    through the dicts the list refers to. *)
Definition sort_lists (st : pass_state) : pass_state :=
  mkPass (sort_by_field (fun sec => name_of (watcher_in (watchers_map st) sec))
            (watchers st))
         (watchers_map st)
         (sort_by_field name_of (plugins st))
         (sort_by_field name_of (sockets st)).

(** [watcher['env'].update(env_items)] *)
Definition update_env (env_items : env_t) (w : dict) : dict :=
  match dict_get "env" w with
  | Some (PDict e) =>
      dict_set "env" (PDict (dict_update e (map (fun kv => (fst kv, PStr (snd kv)))
                                               env_items))) w
  | _ => w
  end.

(** Lines 254-258, for one pattern. *)
Definition env_pattern (env_items : env_t) (ws : list string)
  (m : list (string * dict)) (pattern : string) : list (string * dict) :=
  let match_ := filter (fun sec => fnmatch U (name_of (watcher_in m sec)) pattern) ws in
  fold_left (fun m sec => dict_set sec (update_env env_items (watcher_in m sec)) m)
            match_ m.

(** Lines 247-258: the [env:...] sections. *)
Definition env_pass (cfg : cfgparser) (st : pass_state) : pass_state :=
  let m := fold_left
    (fun m sec =>
       if startswith "env:" sec then
         let section_elements := nth 1 (py_split1 "env:" sec) "" in
         let watcher_patterns := map strip (py_split "," section_elements) in
         let env_items := dict_of (raw_items cfg sec) in
         fold_left (env_pattern env_items (watchers st)) watcher_patterns m
       else m)
    (sections cfg) (watchers_map st) in
  mkPass (watchers st) m (plugins st) (sockets st).

Definition in_list (s : string) (l : list string) : bool :=
  existsb (String.eqb s) l.

(** Lines 269-322: one watcher option.  [raw] is the option's raw value and
    [env] the merged environment of line 265-266. *)
Definition apply_opt (env : env_t) (w : dict) (opt_raw : string * string)
  : result dict :=
  let (opt, raw) := opt_raw in
  let val := replace_gnu_args raw env in    (* expand_vars on a str *)
  if in_list opt ["cmd"; "args"; "working_dir"; "uid"; "gid"] then
    Ok (dict_set opt (PStr val) w)
  else if String.eqb opt "numprocesses" then put "numprocesses" (_dget val TInt) w
  else if String.eqb opt "warmup_delay" then put "warmup_delay" (_dget val TInt) w
  else if String.eqb opt "executable" then put "executable" (_dget val TStr) w
  else if in_list opt ["shell"; "send_hup"; "stop_children"; "close_child_stderr";
                       "use_sockets"; "singleton"; "copy_env"; "copy_path";
                       "close_child_stdout"] then
    put opt (_dget val TBool) w
  else if String.eqb opt "stop_signal" then
    match to_signum U val with
    | Some z => Ok (dict_set "stop_signal" (PInt z) w)
    | None => Err (ValueError "unknown signal")
    end
  else if String.eqb opt "max_retry" then put "max_retry" (_dget val TInt) w
  else if String.eqb opt "graceful_timeout" then
    put "graceful_timeout" (_dget val TInt) w
  else if startswith "stderr_stream" opt || startswith "stdout_stream" opt then
    match py_split1 "." opt with
    | [stream_name; stream_opt] =>
        match dict_get stream_name w with
        | Some (PDict d) =>
            Ok (dict_set stream_name (PDict (dict_set stream_opt (PStr val) d)) w)
        | Some _ => Err TypeError
        | None => Err (KeyError stream_name)
        end
    | _ => Err (ValueError "not enough values to unpack")
    end
  else if startswith "rlimit_" opt then
    let limit := drop 7 opt in
    z <- rlimit_value val ;;
    match dict_get "rlimits" w with
    | Some (PDict d) => Ok (dict_set "rlimits" (PDict (dict_set limit (PInt z) d)) w)
    | Some _ => Err TypeError
    | None => Err (KeyError "rlimits")
    end
  else if String.eqb opt "priority" then put "priority" (_dget val TInt) w
  else
    papa <- (if String.eqb opt "use_papa" then _dget val TBool else Ok (PBool false)) ;;
    if String.eqb opt "use_papa" && truthy papa then
      if papa_present U then Ok (dict_set "use_papa" (PBool true) w)
      else Ok w                                     (* ImportWarning *)
    else if startswith "hooks." opt then
      let hook_name := drop 6 opt in
      hv <- (match map strip (py_split1 "," val) with
             | [target] => Ok (PList [PStr target; PBool false])
             | target :: flag :: _ =>
                 match to_bool U flag with
                 | Some b => Ok (PList [PStr target; PBool b])
                 | None => Err (ValueError "not a boolean")
                 end
             | [] => Ok (PList [])
             end) ;;
      match dict_get "hooks" w with
      | Some (PDict d) => Ok (dict_set "hooks" (PDict (dict_set hook_name hv d)) w)
      | Some _ => Err TypeError
      | None => Err (KeyError "hooks")
      end
    else if in_list opt ["check_flapping"; "respawn"; "autostart";
                         "close_child_stdin"] then
      put opt (_dget val TBool) w
    else Ok (dict_set opt (PStr val) w).                   (* freeform *)

(** Lines 260-322: the second pass over the watcher sections. *)
Definition second_pass_section (cfg : cfgparser) (genv : env_t)
  (m : list (string * dict)) (sec : string) : result (list (string * dict)) :=
  if startswith "watcher:" sec then
    match dict_get sec m with
    | None => Err (KeyError sec)
    | Some watcher =>
        let env := dict_update (dict_of genv) (env_of (dict_get "env" watcher)) in
        watcher <- mfold_left (apply_opt env) (raw_items cfg sec) watcher ;;
        Ok (dict_set sec watcher m)
    end
  else Ok m.

Definition second_pass (cfg : cfgparser) (genv : env_t) (st : pass_state)
  : result pass_state :=
  m <- mfold_left (second_pass_section cfg genv) (sections cfg) (watchers_map st) ;;
  Ok (mkPass (watchers st) m (plugins st) (sockets st)).

(** [get_config(config_file)], from the parsed files on: [environ] is
    [os.environ] and [cfg] the sections [read_config] returned. *)
Definition get_config (environ : env_t) (cfg : cfgparser) : result dict :=
  let (genv, lenv) := environments environ cfg in
  config <- main_options cfg genv ;;
  st <- first_pass cfg genv lenv ;;
  let st := sort_lists st in
  let st := env_pass cfg st in
  st <- second_pass cfg genv st ;;
  let config := dict_set "watchers"
                  (PList (map (fun sec => PDict (watcher_in (watchers_map st) sec))
                              (watchers st))) config in
  let config := dict_set "plugins" (PList (map PDict (plugins st))) config in
  Ok (dict_set "sockets" (PList (map PDict (sockets st))) config).

End GetConfig.

End Config.

(** ** [circus/consumer.py]: [CircusConsumer] *)

Module Consumer.

Definition EINTR : Z := 4.

(** The consumer object and the part of the zmq state it owns: whether its
    SUB socket is closed and whether its context has been terminated. *)
Record consumer : Type := mkConsumer {
  topics : list string;
  keep_context : bool;
  socket_closed : bool;
  context_terminated : bool
}.

(** [CircusConsumer(topics, context=...)]: [context_supplied] tells whether
    the caller passed a context. *)
Definition init (ts : list string) (context_supplied : bool) : consumer :=
  mkConsumer ts context_supplied false false.

(** [stop()].  [destroy] is the outcome of [context.destroy(0)]: [None] when it
    returns, [Some errno] when it raises [ZMQError(errno)].  [destroy] closes
    the context's sockets before terminating the context. *)
Definition stop (destroy : option Z) (c : consumer) : consumer * result unit :=
  if keep_context c then (c, Ok tt)
  else
    match destroy with
    | None => (mkConsumer (topics c) (keep_context c) true true, Ok tt)
    | Some e =>
        (mkConsumer (topics c) (keep_context c) true (context_terminated c),
         if e =? EINTR then Ok tt else Err (ZMQError e))
    end.

(** What one [self.poller.poll(...)] call does. *)
Inductive poll_outcome : Type :=
| PollError (errno : Z)              (** raises [ZMQError(errno)] *)
| PollTimeout                        (** returns no event *)
| PollReady (frames : list string).  (** a message; [recv_multipart] returns it *)

(** How the generator is left. *)
Inductive gen_end : Type :=
| Suspended            (** still polling when the environment script ends *)
| Closed               (** closed by the caller at a [yield] *)
| Raised (e : exn).    (** an exception left the generator *)

(** Leaving [with self:] runs [__exit__], i.e. [stop()]; an exception raised
    by [stop] replaces the one in flight. *)
Definition exit_with (destroy : option Z) (c : consumer) (exc : option exn)
  : consumer * gen_end :=
  let (c', r) := stop destroy c in
  (c', match r, exc with
       | Err e', _ => Raised e'
       | Ok _, Some e => Raised e
       | Ok _, None => Closed
       end).

(** The [while True] loop of [iter_messages]: [script] gives the successive
    poll outcomes and [n] how many more values the caller asks for after the
    current one before closing the generator. *)
Fixpoint loop (destroy : option Z) (script : list poll_outcome) (n : nat)
  (c : consumer) : list (string * string) * consumer * gen_end :=
  match script with
  | [] => ([], c, Suspended)
  | PollError e :: rest =>
      if e =? EINTR then loop destroy rest n c
      else let (c', r) := exit_with destroy c (Some (ZMQError e)) in ([], c', r)
  | PollTimeout :: rest => loop destroy rest n c
  | PollReady frames :: rest =>
      match frames with
      | [topic; message] =>
          match n with
          | O => let (c', r) := exit_with destroy c None in
                 ([(topic, message)], c', r)
          | S n' => let '(ys, c', r) := loop destroy rest n' c in
                    ((topic, message) :: ys, c', r)
          end
      | _ => let (c', r) :=
               exit_with destroy c (Some (ValueError "too many values to unpack")) in
             ([], c', r)
      end
  end.

(** [iter_messages()] driven by a caller that asks for [demand] values and
    then closes the generator; a generator never started runs nothing. *)
Definition iter_messages (destroy : option Z) (script : list poll_outcome)
  (demand : nat) (c : consumer) : list (string * string) * consumer * gen_end :=
  match demand with
  | O => ([], c, Closed)
  | S n => loop destroy script n c
  end.

(** The [(topic, message)] pairs the SUB socket delivers along [script]. *)
Fixpoint received (script : list poll_outcome) : list (string * string) :=
  match script with
  | [] => []
  | PollReady [topic; message] :: rest => (topic, message) :: received rest
  | _ :: rest => received rest
  end.

End Consumer.

(** ** [circus/share.py]: [os_open] on Windows *)

Module Share.

(** The MSVC values of the [os.O_*] flags. *)
Definition O_RDONLY : Z := 0.
Definition O_WRONLY : Z := 1.
Definition O_RDWR : Z := 2.
Definition O_RANDOM : Z := 16.
Definition O_SEQUENTIAL : Z := 32.
Definition O_TEMPORARY : Z := 64.
Definition O_NOINHERIT : Z := 128.
Definition O_CREAT : Z := 256.
Definition O_TRUNC : Z := 512.
Definition O_EXCL : Z := 1024.
Definition O_SHORT_LIVED : Z := 4096.

Definition CREATE_NEW : Z := 1.
Definition CREATE_ALWAYS : Z := 2.
Definition OPEN_EXISTING : Z := 3.
Definition OPEN_ALWAYS : Z := 4.
Definition TRUNCATE_EXISTING : Z := 5.
Definition FILE_SHARE_READ : Z := 1.
Definition FILE_SHARE_WRITE : Z := 2.
Definition FILE_SHARE_DELETE : Z := 4.
Definition FILE_SHARE_VALID_FLAGS : Z := 7.
Definition FILE_ATTRIBUTE_READONLY : Z := 1.
Definition FILE_ATTRIBUTE_NORMAL : Z := 128.
Definition FILE_ATTRIBUTE_TEMPORARY : Z := 256.
Definition FILE_FLAG_DELETE_ON_CLOSE : Z := 67108864.
Definition FILE_FLAG_SEQUENTIAL_SCAN : Z := 134217728.
Definition FILE_FLAG_RANDOM_ACCESS : Z := 268435456.
Definition GENERIC_READ : Z := 2147483648.
Definition GENERIC_WRITE : Z := 1073741824.
Definition DELETE : Z := 65536.
Definition NULL : Z := 0.

Definition _ACCESS_MASK : Z := Z.lor (Z.lor O_RDONLY O_WRONLY) O_RDWR.
Definition _ACCESS_MAP : list (Z * Z) :=
  [(O_RDONLY, GENERIC_READ); (O_WRONLY, GENERIC_WRITE);
   (O_RDWR, Z.lor GENERIC_READ GENERIC_WRITE)].

Definition _CREATE_MASK : Z := Z.lor (Z.lor O_CREAT O_EXCL) O_TRUNC.
Definition _CREATE_MAP : list (Z * Z) :=
  [(0, OPEN_EXISTING);
   (O_EXCL, OPEN_EXISTING);
   (O_CREAT, OPEN_ALWAYS);
   (Z.lor O_CREAT O_EXCL, CREATE_NEW);
   (Z.lor (Z.lor O_CREAT O_TRUNC) O_EXCL, CREATE_NEW);
   (O_TRUNC, TRUNCATE_EXISTING);
   (Z.lor O_TRUNC O_EXCL, TRUNCATE_EXISTING);
   (Z.lor O_CREAT O_TRUNC, CREATE_ALWAYS)].

(** [m[k]] on a dict with integer keys. *)
Fixpoint zget (k : Z) (m : list (Z * Z)) : result Z :=
  match m with
  | [] => Err (KeyError "flags")
  | (k', v) :: m' => if k =? k' then Ok v else zget k m'
  end.

Inductive path : Type :=
| PathStr (s : string)
| PathBytes (b : list Byte.byte).

(** The system side of [os_open]: [os.fsdecode], the Win32 [CreateFileW]
    behind [_winapi.CreateFile], and [msvcrt.open_osfhandle]. *)
Record winapi : Type := {
  fsdecode : list Byte.byte -> result string;
  create_file_w32 : string -> Z -> Z -> Z -> Z -> result Z;
  open_osfhandle : Z -> Z -> result Z
}.

Definition has_nul (s : string) : bool :=
  existsb (fun c => Ascii.eqb c "000"%char) (list_ascii_of_string s).

Section OsOpen.

Variable W : winapi.

(** [_winapi.CreateFile(file, access, share, NULL, create, attrib, NULL)]:
    CPython converts the file name to a wide string, which raises
    [ValueError("embedded null character")] on a NUL, then calls Win32. *)
Definition CreateFile (file : string) (access share create attrib : Z)
  : result Z :=
  if has_nul file then Err (ValueError "embedded null character")
  else create_file_w32 W file access share create attrib.

(** [os_open(file, flags, mode, share_flags)] with integer [flags] and
    [mode], so that the [isinstance] checks of lines 185-189 do not fire. *)
Definition os_open (file : path) (flags mode share_flags : Z) : result Z :=
  if negb (Z.land share_flags (Z.lnot FILE_SHARE_VALID_FLAGS) =? 0) then
    Err (ValueError "bad share_flags")
  else
    file <- (match file with
             | PathBytes b => fsdecode W b      (* DeprecationWarning *)
             | PathStr s => Ok s
             end) ;;
    access_flags <- zget (Z.land flags _ACCESS_MASK) _ACCESS_MAP ;;
    create_flags <- zget (Z.land flags _CREATE_MASK) _CREATE_MAP ;;
    let attrib_flags :=
      if negb (Z.land flags O_CREAT =? 0) && (Z.land mode (Z.lnot 292) =? 0)
      then FILE_ATTRIBUTE_READONLY else FILE_ATTRIBUTE_NORMAL in
    let tmp := negb (Z.land flags O_TEMPORARY =? 0) in
    let share_flags := if tmp then Z.lor share_flags FILE_SHARE_DELETE else share_flags in
    let attrib_flags :=
      if tmp then Z.lor attrib_flags FILE_FLAG_DELETE_ON_CLOSE else attrib_flags in
    let access_flags := if tmp then Z.lor access_flags DELETE else access_flags in
    let attrib_flags := if negb (Z.land flags O_SHORT_LIVED =? 0)
                        then Z.lor attrib_flags FILE_ATTRIBUTE_TEMPORARY
                        else attrib_flags in
    let attrib_flags := if negb (Z.land flags O_SEQUENTIAL =? 0)
                        then Z.lor attrib_flags FILE_FLAG_SEQUENTIAL_SCAN
                        else attrib_flags in
    let attrib_flags := if negb (Z.land flags O_RANDOM =? 0)
                        then Z.lor attrib_flags FILE_FLAG_RANDOM_ACCESS
                        else attrib_flags in
    h <- CreateFile file access_flags share_flags create_flags attrib_flags ;;
    open_osfhandle W h (Z.lor flags O_NOINHERIT).

End OsOpen.

End Share.

(** * Concrete instances *)

(** [circus.util.to_bool] *)
Definition to_bool (s : string) : option bool :=
  let t := lower s in
  if Config.in_list t ["true"; "yes"; "on"; "1"] then Some true
  else if Config.in_list t ["false"; "no"; "off"; "0"] then Some false
  else None.

(** [float(s)] on integer literals below 2**53 only. *)
Definition py_float_int (s : string) : option float :=
  match py_int s with
  | Ok z => if (0 <=? z) && (z <? 2 ^ 53) then Some (PrimFloat.of_uint63 (Uint63.of_Z z))
            else None
  | Err _ => None
  end.

(** [circus.util.to_signum] on numbers and the names of SIGTERM and SIGKILL. *)
Definition to_signum (s : string) : option Z :=
  match py_int s with
  | Ok z => Some z
  | Err _ =>
      if Config.in_list s ["SIGTERM"; "TERM"] then Some 15
      else if Config.in_list s ["SIGKILL"; "KILL"] then Some 9
      else None
  end.

(** [fnmatch] on literal patterns and the pattern [*]. *)
Definition fnmatch (name pattern : string) : bool :=
  String.eqb pattern "*" || String.eqb name pattern.

(** The collaborators of [get_config] on a platform with [resource] whose
    [RLIM_INFINITY] is [rlim_infinity]. *)
Definition posix_util (rlim_infinity : Z) : Config.util :=
  {| Config.to_bool := to_bool;
     Config.py_float := py_float_int;
     Config.to_signum := to_signum;
     Config.fnmatch := fnmatch;
     Config.resource_present := true;
     Config.RLIM_INFINITY := rlim_infinity;
     Config.papa_present := false;
     Config.DEFAULT_ENDPOINT_DEALER := "tcp://127.0.0.1:5555";
     Config.DEFAULT_ENDPOINT_SUB := "tcp://127.0.0.1:5556";
     Config.DEFAULT_ENDPOINT_MULTICAST := "udp://237.219.251.97:12027";
     Config.DEFAULT_ENDPOINT_STATS := "tcp://127.0.0.1:5557" |}.

(** Linux: [RLIM_INFINITY] is [-1]. *)
Definition linux_util : Config.util := posix_util (-1).

(** macOS and the BSDs: [RLIM_INFINITY] is [2**63 - 1]. *)
Definition bsd_util : Config.util := posix_util (2 ^ 63 - 1).

(** The watcher dicts of a snapshot's [watchers] list. *)
Definition snapshot_watchers (c : dict) : list dict :=
  match dict_get "watchers" c with
  | Some (PList ws) => flat_map (fun x => match x with PDict w => [w] | _ => [] end) ws
  | _ => []
  end.

(** The option [k] of each watcher of a snapshot, [None] for an error. *)
Definition watchers_option (k : string) (r : result dict) : option (list (option pyval)) :=
  match r with
  | Ok c => Some (map (dict_get k) (snapshot_watchers c))
  | Err _ => None
  end.

(** The option keys [main_options] sets, in insertion order. *)
Definition global_keys : list string :=
  ["check_delay"; "endpoint"; "endpoint_owner"; "pubsub_endpoint";
   "multicast_endpoint"; "stats_endpoint"; "statsd"; "umask"; "warmup_delay";
   "httpd"; "httpd_host"; "httpd_port"; "debug"; "debug_gc"; "pidfile";
   "loglevel"; "logoutput"; "loggerconfig"; "fqdn_prefix"; "papa_endpoint"].

(** A [winapi] whose system calls all succeed. *)
Definition winapi_ok : Share.winapi :=
  {| Share.fsdecode := fun _ => Ok "decoded";
     Share.create_file_w32 := fun _ _ _ _ _ => Ok 3;
     Share.open_osfhandle := fun _ _ => Ok 3 |}.

Definition create_lookup_ok (x : Z) : bool :=
  match Share.zget (Z.land x Share._CREATE_MASK) Share._CREATE_MAP with
  | Ok _ => true
  | Err _ => false
  end.

(** * Properties *)

(** Two watchers whose priorities run against their names. *)
Definition priority_cfg : Config.cfgparser :=
  [("watcher:b", [("cmd", "b"); ("priority", "2")]);
   ("watcher:a", [("cmd", "a"); ("priority", "1")])].

(** A watcher with [copy_path], an [[env]] section and an [env:w] section. *)
Definition env_example_cfg : Config.cfgparser :=
  [("env", [("A", "1")]);
   ("watcher:w", [("cmd", "w"); ("copy_path", "true")]);
   ("env:w", [("B", "2")])].

(** ** Helper lemmas *)

Lemma map_fst_pairs {A B} (f : A -> B) (d : list (string * A)) :
  map fst (map (fun kv => (fst kv, f (snd kv))) d) = map fst d.
Proof. rewrite map_map. reflexivity. Qed.

Lemma forall2_map_pairs {A B} (f : A -> B) (d : list (string * A)) :
  Forall2 (fun kv kv' => snd kv' = f (snd kv)) d
          (map (fun kv => (fst kv, f (snd kv))) d).
Proof. induction d; simpl; constructor; auto. Qed.

Lemma forall2_map {A B} (f : A -> B) (l : list A) :
  Forall2 (fun v v' => v' = f v) l (map f l).
Proof. induction l; simpl; constructor; auto. Qed.

(** ** C8 *)

(** C8: [expand_vars] preserves the structure of its input: a dict is mapped to
    a dict with the same keys, in the same order, each value expanded; a list
    to a list of the same length, each element expanded; any value that is
    neither a string, a dict nor a list is returned unchanged. *)
Theorem expand_vars_structure (env : env_t) :
  (forall d, exists d', expand_vars (PDict d) env = PDict d' /\
     map fst d' = map fst d /\
     Forall2 (fun kv kv' => snd kv' = expand_vars (snd kv) env) d d') /\
  (forall l, exists l', expand_vars (PList l) env = PList l' /\
     length l' = length l /\ Forall2 (fun v v' => v' = expand_vars v env) l l') /\
  (forall v, match v with
             | PStr _ | PDict _ | PList _ => True
             | _ => expand_vars v env = v
             end).
Proof.
  split; [|split].
  - intro d. eexists. split; [reflexivity|].
    split; [exact (map_fst_pairs (fun v => expand_vars v env) d)
           | exact (forall2_map_pairs (fun v => expand_vars v env) d)].
  - intro l. eexists. split; [reflexivity|].
    split; [apply length_map | exact (forall2_map (fun v => expand_vars v env) l)].
  - intros []; reflexivity.
Qed.

(** ** C9 *)

Lemma loop_eintr_retry (d : option Z) (k : nat) (rest : list Consumer.poll_outcome)
  (n : nat) (c : Consumer.consumer) :
  Consumer.loop d (repeat (Consumer.PollError Consumer.EINTR) k ++ rest)%list n c =
  Consumer.loop d rest n c.
Proof. induction k; simpl; auto. Qed.

(** C9: interrupted zmq calls are transient, other zmq errors fatal.  Any
    number of polls failing with [EINTR] are retried without effect; a poll
    failing with another errno re-raises that [ZMQError] out of the generator
    (through the [stop] of [__exit__], when that [stop] does not itself raise);
    [stop] swallows [EINTR] from [context.destroy] and re-raises any other
    [ZMQError]. *)
Theorem consumer_eintr_transient :
  (forall d k rest n c,
     Consumer.loop d (repeat (Consumer.PollError Consumer.EINTR) k ++ rest)%list n c =
     Consumer.loop d rest n c) /\
  (forall d e rest n c,
     (e =? Consumer.EINTR) = false -> snd (Consumer.stop d c) = Ok tt ->
     Consumer.loop d (Consumer.PollError e :: rest) n c =
     ([], fst (Consumer.stop d c), Consumer.Raised (ZMQError e))) /\
  (forall c, Consumer.keep_context c = false ->
     snd (Consumer.stop (Some Consumer.EINTR) c) = Ok tt) /\
  (forall e c, Consumer.keep_context c = false -> (e =? Consumer.EINTR) = false ->
     snd (Consumer.stop (Some e) c) = Err (ZMQError e)).
Proof.
  split; [exact loop_eintr_retry|]. split; [|split].
  - intros d e rest n c He Hs. simpl. rewrite He.
    unfold Consumer.exit_with.
    destruct (Consumer.stop d c) as [c' r] eqn:Hst. simpl in Hs. subst r.
    reflexivity.
  - intros c Hk. unfold Consumer.stop. rewrite Hk. reflexivity.
  - intros e c Hk He. unfold Consumer.stop. rewrite Hk. simpl. rewrite He.
    reflexivity.
Qed.

Lemma consumer_eintr_transient_witness :
  (5 =? Consumer.EINTR) = false /\
  snd (Consumer.stop None (Consumer.init ["watcher."] false)) = Ok tt /\
  Consumer.loop None [Consumer.PollError 5] 0 (Consumer.init ["watcher."] false) =
  ([], fst (Consumer.stop None (Consumer.init ["watcher."] false)),
   Consumer.Raised (ZMQError 5)) /\
  snd (Consumer.stop (Some 5) (Consumer.init ["watcher."] false)) = Err (ZMQError 5).
Proof.
  destruct consumer_eintr_transient as [_ [H2 [_ H4]]].
  split; [reflexivity|]. split; [reflexivity|]. split.
  - apply H2; reflexivity.
  - apply H4; reflexivity.
Defined.

(** ** C6 *)

Lemma loop_yields_received (d : option Z) (script : list Consumer.poll_outcome) :
  forall n c, exists rest,
    Consumer.received script = (fst (fst (Consumer.loop d script n c)) ++ rest)%list.
Proof.
  induction script as [|o script IH]; intros n c.
  - exists []. reflexivity.
  - destruct o as [e| |frames]; simpl.
    + destruct (e =? Consumer.EINTR).
      * apply IH.
      * destruct (Consumer.exit_with d c (Some (ZMQError e))).
        exists (Consumer.received script). reflexivity.
    + apply IH.
    + destruct frames as [|t [|m [|x l]]]; simpl;
        try (destruct (Consumer.exit_with _ _ _);
             exists (Consumer.received script); reflexivity).
      destruct n as [|n'].
      * destruct (Consumer.exit_with d c None).
        exists (Consumer.received script). reflexivity.
      * destruct (IH n' c) as [rest Hr].
        destruct (Consumer.loop d script n' c) as [[ys c'] r] eqn:E.
        exists rest. simpl in *. rewrite Hr. reflexivity.
Qed.

Lemma loop_exit_state (d : option Z) (script : list Consumer.poll_outcome) :
  forall n c,
    match snd (Consumer.loop d script n c) with
    | Consumer.Suspended => snd (fst (Consumer.loop d script n c)) = c
    | _ => snd (fst (Consumer.loop d script n c)) = fst (Consumer.stop d c)
    end.
Proof.
  induction script as [|o script IH]; intros n c.
  - reflexivity.
  - destruct o as [e| |frames]; simpl.
    + destruct (e =? Consumer.EINTR).
      * apply IH.
      * unfold Consumer.exit_with; destruct (Consumer.stop d c) as [c' [[]|e']]; exact eq_refl.
    + apply IH.
    + destruct frames as [|t [|m [|x l]]]; simpl;
        try (unfold Consumer.exit_with; destruct (Consumer.stop d c) as [c' [[]|e']]; exact eq_refl).
      destruct n as [|n'].
      * unfold Consumer.exit_with; destruct (Consumer.stop d c) as [c' [[]|e']]; exact eq_refl.
      * specialize (IH n' c).
        destruct (Consumer.loop d script n' c) as [[ys c'] r] eqn:E.
        exact IH.
Qed.

(** C6, counterexample: a consumer built on a context supplied by the caller
    does not release that context when stopped, neither by an explicit
    [stop] nor by leaving [iter_messages] (whose [with self:] calls [stop]). *)
Lemma consumer_supplied_context_kept :
  Consumer.context_terminated (fst (Consumer.stop None (Consumer.init ["watcher."] true)))
    = false /\
  Consumer.context_terminated
    (snd (fst (Consumer.iter_messages None [Consumer.PollReady ["watcher.w.start"; "{}"]] 1
                (Consumer.init ["watcher."] true)))) = false /\
  snd (Consumer.iter_messages None [Consumer.PollReady ["watcher.w.start"; "{}"]] 1
         (Consumer.init ["watcher."] true)) = Consumer.Closed.
Proof. repeat split; reflexivity. Qed.

(** C6, as the code has it: [iter_messages] yields a prefix of the
    [(topic, message)] pairs the subscribed socket delivers, in order; when the
    generator is left through its [with self:] block the consumer is in the
    state [stop] leaves it in; [stop] on a consumer that created its context
    destroys it, which closes the socket and, unless [destroy] raises,
    terminates the context; on a consumer whose context the caller supplied,
    [stop] returns without raising and leaves the context as it was. *)
Theorem consumer_stop_releases_own_context :
  (forall d script demand c, exists rest,
     Consumer.received script =
     (fst (fst (Consumer.iter_messages d script demand c)) ++ rest)%list) /\
  (forall d script n c,
     match snd (Consumer.loop d script n c) with
     | Consumer.Suspended => snd (fst (Consumer.loop d script n c)) = c
     | _ => snd (fst (Consumer.loop d script n c)) = fst (Consumer.stop d c)
     end) /\
  (forall d c,
     if Consumer.keep_context c then
       snd (Consumer.stop d c) = Ok tt /\
       Consumer.context_terminated (fst (Consumer.stop d c)) = Consumer.context_terminated c
     else Consumer.socket_closed (fst (Consumer.stop d c)) = true /\
          Consumer.context_terminated (fst (Consumer.stop d c)) =
          match d with None => true | Some _ => Consumer.context_terminated c end).
Proof.
  split; [|split].
  - intros d script [|n] c.
    + exists (Consumer.received script). reflexivity.
    + apply loop_yields_received.
  - exact loop_exit_state.
  - intros d c. unfold Consumer.stop.
    destruct (Consumer.keep_context c); [split; reflexivity|].
    destruct d; split; reflexivity.
Qed.

(** ** C10 *)

Lemma create_lookup_ok_below_2048 :
  forallb create_lookup_ok (map Z.of_nat (seq 0 2048)) = true.
Proof. vm_compute. reflexivity. Qed.

Lemma create_mask_low_bits (flags : Z) :
  Z.land flags Share._CREATE_MASK = Z.land (flags mod 2048) Share._CREATE_MASK.
Proof.
  change 2048 with (2 ^ 11).
  rewrite <- Z.land_ones by lia.
  rewrite <- Z.land_assoc. reflexivity.
Qed.

Lemma create_lookup_total (flags : Z) :
  exists v, Share.zget (Z.land flags Share._CREATE_MASK) Share._CREATE_MAP = Ok v.
Proof.
  assert (Hb : create_lookup_ok (flags mod 2048) = true).
  { pose proof create_lookup_ok_below_2048 as H.
    rewrite forallb_forall in H. apply H.
    apply in_map_iff. exists (Z.to_nat (flags mod 2048)). split.
    - rewrite Z2Nat.id; [reflexivity|]. pose proof (Z.mod_pos_bound flags 2048). lia.
    - apply in_seq. pose proof (Z.mod_pos_bound flags 2048). lia. }
  unfold create_lookup_ok in Hb. rewrite <- create_mask_low_bits in Hb.
  destruct (Share.zget _ _) as [v|e]; [exists v; reflexivity | discriminate].
Qed.

Lemma zget_key_error (k : Z) (m : list (Z * Z)) (e : exn) :
  Share.zget k m = Err e -> e = KeyError "flags".
Proof.
  induction m as [|[k' v] m IH]; simpl; intros H.
  - inversion H; reflexivity.
  - destruct (k =? k'); [discriminate | auto].
Qed.

(** C10, counterexample: with the valid default [share_flags], a file name
    containing a NUL makes [os_open] raise [ValueError] (from the file name
    conversion of [_winapi.CreateFile]). *)
Lemma os_open_nul_name_value_error :
  Z.land Share.FILE_SHARE_VALID_FLAGS (Z.lnot Share.FILE_SHARE_VALID_FLAGS) = 0 /\
  Share.os_open winapi_ok (Share.PathStr ("a" ++ String "000"%char "b"))
    Share.O_RDONLY 511 Share.FILE_SHARE_VALID_FLAGS =
  Err (ValueError "embedded null character").
Proof. split; reflexivity. Qed.

(** C10, as the code has it: [os_open]'s own check raises [ValueError] iff
    [share_flags] has a bit outside [FILE_SHARE_VALID_FLAGS], before any
    lookup or system call; the create-disposition lookup never fails; with
    valid [share_flags], a [ValueError] can only come from the conversion of
    the file name ([os.fsdecode] of a bytes name, or a NUL rejected by
    [_winapi.CreateFile]) or from the Win32 calls themselves. *)
Theorem os_open_value_error_sources (W : Share.winapi) :
  (forall file flags mode sf, Z.land sf (Z.lnot Share.FILE_SHARE_VALID_FLAGS) <> 0 ->
     Share.os_open W file flags mode sf = Err (ValueError "bad share_flags")) /\
  (forall flags, exists v,
     Share.zget (Z.land flags Share._CREATE_MASK) Share._CREATE_MAP = Ok v) /\
  (forall file flags mode sf e,
     Z.land sf (Z.lnot Share.FILE_SHARE_VALID_FLAGS) = 0 ->
     Share.os_open W file flags mode sf = Err e -> is_value_error e = true ->
     (exists b, file = Share.PathBytes b /\ Share.fsdecode W b = Err e) \/
     (exists s, Share.has_nul s = true /\ e = ValueError "embedded null character" /\
        (file = Share.PathStr s \/
         exists b, file = Share.PathBytes b /\ Share.fsdecode W b = Ok s)) \/
     (exists s a sh cr atr, Share.create_file_w32 W s a sh cr atr = Err e) \/
     (exists h fl, Share.open_osfhandle W h fl = Err e)).
Proof.
  split; [|split].
  - intros file flags mode sf H. unfold Share.os_open.
    destruct (Z.eqb_spec (Z.land sf (Z.lnot Share.FILE_SHARE_VALID_FLAGS)) 0);
      [contradiction | reflexivity].
  - exact create_lookup_total.
  - intros file flags mode sf e Hsf Hopen Hve. unfold Share.os_open in Hopen.
    rewrite Hsf in Hopen. change (negb (0 =? 0)) with false in Hopen.
    cbv beta iota in Hopen.
    destruct (match file with
              | Share.PathBytes b => Share.fsdecode W b
              | Share.PathStr s => Ok s
              end) as [s|e0] eqn:Hdec; cbv beta iota delta [bind] in Hopen.
    2:{ inversion Hopen; subst. left.
        destruct file as [s|b]; [discriminate|]. exists b. split; auto. }
    destruct (Share.zget (Z.land flags Share._ACCESS_MASK) Share._ACCESS_MAP)
      as [acc|e1] eqn:Hacc.
    2:{ inversion Hopen; subst. apply zget_key_error in Hacc. subst.
        discriminate Hve. }
    destruct (Share.zget (Z.land flags Share._CREATE_MASK) Share._CREATE_MAP)
      as [cr|e2] eqn:Hcr.
    2:{ destruct (create_lookup_total flags) as [v Hv]. congruence. }
    unfold Share.CreateFile in Hopen.
    destruct (Share.has_nul s) eqn:Hnul.
    + inversion Hopen; subst e. right. left. exists s. split; [exact Hnul|].
      split; [reflexivity|].
      destruct file as [s'|b]; [left; inversion Hdec; reflexivity|].
      right. exists b. split; auto.
    + match type of Hopen with
      | context [Share.create_file_w32 W ?a ?b ?c ?d ?f] =>
          destruct (Share.create_file_w32 W a b c d f) as [h|e3] eqn:Hcf
      end.
      * right. right. right. eexists; eexists; exact Hopen.
      * inversion Hopen; subst. right. right. left.
        do 5 eexists. exact Hcf.
Qed.

Lemma os_open_value_error_sources_witness :
  Share.os_open winapi_ok (Share.PathStr "log") Share.O_RDONLY 511 8 =
    Err (ValueError "bad share_flags") /\
  ((exists b, Share.PathStr ("a" ++ String "000"%char "b") = Share.PathBytes b /\
              Share.fsdecode winapi_ok b = Err (ValueError "embedded null character")) \/
   (exists s, Share.has_nul s = true /\
      ValueError "embedded null character" = ValueError "embedded null character" /\
      (Share.PathStr ("a" ++ String "000"%char "b") = Share.PathStr s \/
       exists b, Share.PathStr ("a" ++ String "000"%char "b") = Share.PathBytes b /\
                 Share.fsdecode winapi_ok b = Ok s)) \/
   (exists s a sh cr atr, Share.create_file_w32 winapi_ok s a sh cr atr =
                         Err (ValueError "embedded null character")) \/
   (exists h fl, Share.open_osfhandle winapi_ok h fl =
                 Err (ValueError "embedded null character"))).
Proof.
  destruct (os_open_value_error_sources winapi_ok) as [H1 [_ H3]]. split.
  - apply H1. vm_compute. discriminate.
  - apply (H3 (Share.PathStr ("a" ++ String "000"%char "b")) Share.O_RDONLY 511
             Share.FILE_SHARE_VALID_FLAGS); reflexivity.
Defined.

(** ** [get_config] *)

Lemma dict_get_set_eq {A} (k : string) (v : A) (d : list (string * A)) :
  dict_get k (dict_set k v d) = Some v.
Proof.
  induction d as [|[k' v'] d IH]; simpl.
  - rewrite String.eqb_refl. reflexivity.
  - destruct (String.eqb k k') eqn:E; simpl.
    + rewrite String.eqb_refl. reflexivity.
    + rewrite E. exact IH.
Qed.

Lemma dict_get_set_neq {A} (k k' : string) (v : A) (d : list (string * A)) :
  String.eqb k k' = false -> dict_get k (dict_set k' v d) = dict_get k d.
Proof.
  intros Hk. induction d as [|[k'' v''] d IH]; simpl.
  - rewrite Hk. reflexivity.
  - destruct (String.eqb k' k'') eqn:E; simpl.
    + apply String.eqb_eq in E. subst k''. rewrite Hk. reflexivity.
    + destruct (String.eqb k k''); [reflexivity | exact IH].
Qed.

Lemma dict_mem_set {A} (k k' : string) (v : A) (d : list (string * A)) :
  dict_mem k d = true -> dict_mem k (dict_set k' v d) = true.
Proof.
  unfold dict_mem. destruct (String.eqb k k') eqn:E.
  - apply String.eqb_eq in E. subst. rewrite dict_get_set_eq. reflexivity.
  - rewrite dict_get_set_neq by exact E. auto.
Qed.

(** The stages of [get_config]. *)
Lemma get_config_stages (U : Config.util) (environ : env_t) (cfg : Config.cfgparser)
  (c : dict) :
  Config.get_config U environ cfg = Ok c ->
  exists g st0 st,
    Config.main_options U cfg (fst (Config.environments environ cfg)) = Ok g /\
    Config.first_pass U cfg (fst (Config.environments environ cfg))
      (snd (Config.environments environ cfg)) = Ok st0 /\
    Config.second_pass U cfg (fst (Config.environments environ cfg))
      (Config.env_pass U cfg (Config.sort_lists st0)) = Ok st /\
    c = dict_set "sockets" (PList (map PDict (Config.sockets st)))
          (dict_set "plugins" (PList (map PDict (Config.plugins st)))
             (dict_set "watchers"
                (PList (map (fun sec => PDict (Config.watcher_in (Config.watchers_map st) sec))
                            (Config.watchers st))) g)).
Proof.
  unfold Config.get_config. destruct (Config.environments environ cfg) as [genv lenv].
  simpl. unfold bind.
  destruct (Config.main_options U cfg genv) as [g|e]; [|discriminate].
  destruct (Config.first_pass U cfg genv lenv) as [st0|e]; [|discriminate].
  destruct (Config.second_pass U cfg genv (Config.env_pass U cfg (Config.sort_lists st0)))
    as [st|e] eqn:E2; [|discriminate].
  intros H. inversion H. subst. exists g, st0, st. repeat split. exact E2.
Qed.

Lemma bind_ok {A B} (m : result A) (f : A -> result B) (y : B) :
  bind m f = Ok y -> exists x, m = Ok x /\ f x = Ok y.
Proof. destruct m as [x|e]; simpl; [eauto|discriminate]. Qed.

Lemma dict_set_keys {A} (k : string) (v : A) (d : list (string * A)) :
  map fst (dict_set k v d) = set_keys k (map fst d).
Proof.
  induction d as [|[k' v'] d IH]; simpl; [reflexivity|].
  destruct (String.eqb k k'); simpl; [reflexivity|]. rewrite IH. reflexivity.
Qed.

Lemma put_keys (k : string) (r : result pyval) (c c' : dict) :
  Config.put k r c = Ok c' -> map fst c' = set_keys k (map fst c).
Proof.
  unfold Config.put. destruct r as [v|e]; simpl; [|discriminate].
  intros H. injection H as <-. apply dict_set_keys.
Qed.

Ltac put_step H K :=
  let c := fresh "c" in let Hp := fresh "Hp" in
  apply bind_ok in H as (c & Hp & H);
  apply put_keys in Hp; rewrite K in Hp; simpl in Hp; clear K; rename Hp into K.

Lemma main_options_keys (U : Config.util) (cfg : Config.cfgparser) (genv : env_t)
  (g : dict) :
  Config.main_options U cfg genv = Ok g -> map fst g = global_keys.
Proof.
  unfold Config.main_options. intros H.
  assert (K : map fst (@nil (string * pyval)) = []) by reflexivity.
  do 8 put_step H K.
  apply bind_ok in H as (c7 & H7 & H).
  match type of K with map fst ?x = _ => rename x into c6 end.
  assert (K7 : map fst c7 = map fst c6).
  { cbv beta in H7. destruct (Config.truthy (Config.cget "umask" c6)); [|injection H7 as <-; reflexivity].
    destruct (Config.cget "umask" c6); try discriminate H7.
    apply put_keys in H7. rewrite H7, K. reflexivity. }
  rewrite K in K7. clear K H7. rename K7 into K.
  apply bind_ok in H as (c8 & H8 & H).
  assert (K8 : map fst c8 = map fst c7).
  { cbv beta in H8. destruct (Config.cget "stats_endpoint" c7);
      try (destruct (negb (Config.truthy (Config.cget "statsd" c7))));
      injection H8 as <-; rewrite ?dict_set_keys, K; reflexivity. }
  rewrite K in K8. clear K H8. rename K8 into K.
  do 11 put_step H K.
  apply put_keys in H. rewrite K in H. exact H.
Qed.

Lemma put_inv (k : string) (r : result pyval) (c c' : dict) :
  Config.put k r c = Ok c' -> exists v, r = Ok v /\ c' = dict_set k v c.
Proof.
  unfold Config.put. destruct r as [v|e]; simpl; [|discriminate].
  intros H. injection H as <-. eauto.
Qed.

Ltac put_inv_step H :=
  let c := fresh "c" in let v := fresh "v" in let R := fresh "R" in
  let Hp := fresh "Hp" in
  apply bind_ok in H as (c & Hp & H);
  apply put_inv in Hp as (v & R & ->).

(** Runs [main_options] symbolically: [g] becomes a dict with the keys written
    out and the values read by [dget] (one case per branch of lines 179-188). *)
Ltac decompose_main H :=
  unfold Config.main_options in H;
  do 8 put_inv_step H;
  let c7 := fresh "c" in let H7 := fresh "H" in
  apply bind_ok in H as (c7 & H7 & H); cbv beta in H7;
  match type of H7 with
  | context [if ?b then _ else _] =>
      destruct b;
      [ match type of H7 with
        | context [match ?u with PNone => _ | PBool _ => _ | PInt _ => _
                   | PFloat _ => _ | PStr _ => _ | PList _ => _ | PDict _ => _ end] =>
            destruct u; try discriminate H7;
            apply put_inv in H7 as (? & ? & ->)
        end
      | injection H7 as <- ]
  end;
  let c8 := fresh "c" in let H8 := fresh "H" in
  apply bind_ok in H as (c8 & H8 & H); cbv beta in H8;
  match type of H8 with
  | context [match ?u with PNone => _ | PBool _ => _ | PInt _ => _
             | PFloat _ => _ | PStr _ => _ | PList _ => _ | PDict _ => _ end] =>
      let Eu := fresh "Eu" in
      destruct u eqn:Eu;
      try (match type of H8 with
           | context [if ?b then _ else _] => let Eb := fresh "Eb" in destruct b eqn:Eb
           end);
      injection H8 as <-
  end;
  do 11 put_inv_step H;
  apply put_inv in H as (? & ? & ->).

Lemma main_options_check_delay (U : Config.util) (cfg : Config.cfgparser) (genv : env_t)
  (g : dict) :
  Config.main_options U cfg genv = Ok g ->
  exists v, Config.dget U cfg genv "circus" "check_delay" (PFloat 5) Config.TFloat = Ok v /\
            dict_get "check_delay" g = Some v.
Proof.
  intros H. decompose_main H.
  all: exists v; split; [exact R | reflexivity].
Qed.

Lemma dget_absent (U : Config.util) (cfg : Config.cfgparser) (penv : env_t)
  (sec opt : string) (d : pyval) (ty : Config.ptype) :
  Config.has_option cfg sec opt = false -> Config.dget U cfg penv sec opt d ty = Ok d.
Proof. intros H. unfold Config.dget. rewrite H. reflexivity. Qed.

Lemma dget_present_str (U : Config.util) (cfg : Config.cfgparser) (penv : env_t)
  (sec opt : string) (d : pyval) :
  Config.has_option cfg sec opt = true ->
  Config.dget U cfg penv sec opt d Config.TStr = Ok (PStr (Config.get cfg penv sec opt)).
Proof. intros H. unfold Config.dget. rewrite H. reflexivity. Qed.

Lemma dget_bool (U : Config.util) (cfg : Config.cfgparser) (penv : env_t)
  (sec opt : string) (d : bool) (v : pyval) :
  Config.dget U cfg penv sec opt (PBool d) Config.TBool = Ok v -> exists b, v = PBool b.
Proof.
  unfold Config.dget, Config._dget. destruct (negb _).
  - intros H. injection H as <-. eauto.
  - destruct (Config.to_bool U _); [|discriminate]. intros H. injection H as <-. eauto.
Qed.

Lemma main_options_statsd (U : Config.util) (cfg : Config.cfgparser) (genv : env_t)
  (g : dict) :
  Config.main_options U cfg genv = Ok g ->
  (Config.has_option cfg "circus" "stats_endpoint" = true ->
   dict_get "statsd" g = Some (PBool true)) /\
  (Config.has_option cfg "circus" "stats_endpoint" = false ->
   dict_get "stats_endpoint" g = Some (PStr (Config.DEFAULT_ENDPOINT_STATS U)) /\
   exists v, Config.dget U cfg genv "circus" "statsd" (PBool false) Config.TBool = Ok v /\
             dict_get "statsd" g = Some v).
Proof.
  intros H. decompose_main H.
  all: simpl in Eu; try (simpl in Eb); simpl.
  all: split; intros Hso.
  all: try (rewrite (dget_present_str U cfg genv _ _ _ Hso) in R4;
            injection R4 as <-; discriminate Eu).
  all: try (rewrite (dget_absent U cfg genv _ _ _ _ Hso) in R4;
            injection R4 as <-; discriminate Eu).
  all: try reflexivity.
  all: try (split; [reflexivity | exists v5; split; [exact R5 | reflexivity]]).
  all: unfold Config.cget in Eb; simpl in Eb.
  all: destruct (dget_bool U cfg genv _ _ _ _ R5) as [[|] ->];
       [reflexivity | discriminate Eb].
Qed.

Lemma mfold_left_inv {A B} (P : A -> Prop) (f : A -> B -> result A) (l : list B) :
  (forall a b a', In b l -> f a b = Ok a' -> P a -> P a') ->
  forall a0 a, mfold_left f l a0 = Ok a -> P a0 -> P a.
Proof.
  induction l as [|b l IH]; simpl; intros Hf a0 a H HP.
  - injection H as <-. exact HP.
  - apply bind_ok in H as (a1 & H1 & H).
    apply (IH (fun a b a' Hb => Hf a b a' (or_intror Hb)) a1 a H).
    exact (Hf a0 b a1 (or_introl eq_refl) H1 HP).
Qed.

Lemma fold_left_inv {A B} (P : A -> Prop) (f : A -> B -> A) (l : list B) :
  (forall a b, In b l -> P a -> P (f a b)) ->
  forall a0, P a0 -> P (fold_left f l a0).
Proof.
  induction l as [|b l IH]; simpl; intros Hf a0 HP; [exact HP|].
  apply IH; [intros a b' Hb; apply Hf; right; exact Hb|].
  apply Hf; [left; reflexivity | exact HP].
Qed.

Lemma dict_get_none_in {A} (k o : string) (r : A) (l : list (string * A)) :
  dict_get k l = None -> In (o, r) l -> String.eqb k o = false.
Proof.
  induction l as [|[k' v'] l IH]; simpl; [intros _ []|].
  destruct (String.eqb k k') eqn:E; [discriminate|].
  intros H [Heq | Hin]; [injection Heq as <- <-; exact E | exact (IH H Hin)].
Qed.

Lemma raw_items_no_opt (cfg : Config.cfgparser) (sec k o r : string) :
  Config.has_option cfg sec k = false -> In (o, r) (Config.raw_items cfg sec) ->
  String.eqb k o = false.
Proof.
  unfold Config.has_option, Config.raw_items.
  destruct (dict_get sec cfg) as [it|]; [|intros _ []].
  unfold dict_mem. destruct (dict_get k it) eqn:E; [discriminate|].
  intros _. exact (dict_get_none_in k o r it E).
Qed.

Lemma insert_asc_in {A} (key : A -> string) (x y : A) (l : list A) :
  In y (Config.insert_asc key x l) <-> y = x \/ In y l.
Proof.
  induction l as [|z l IH]; simpl.
  - intuition.
  - destruct (String.ltb (key x) (key z)); simpl; [intuition|]. rewrite IH. intuition.
Qed.

Lemma sort_by_field_in {A} (key : A -> string) (y : A) (l : list A) :
  In y (Config.sort_by_field key l) <-> In y l.
Proof.
  unfold Config.sort_by_field.
  enough (G : forall acc, In y (fold_left (fun acc x => Config.insert_asc key x acc) l acc) <->
                          In y l \/ In y acc) by (rewrite G; simpl; intuition).
  induction l as [|x l IH]; simpl; intros acc; [intuition|].
  rewrite IH, insert_asc_in. intuition.
Qed.

Section Kept.

(** A watcher option [k] with a non-dict value [v] that no option of the
    second pass names, and that the first pass does not set. *)
Variable U : Config.util.
Variable k : string.
Variable v : pyval.
Hypothesis Hk : Config.in_list k ["name"; "copy_env"; "env"; "rlimits"; "use_papa"; "hooks"] = false.
Hypothesis Hv : forall d, v <> PDict d.
Hypothesis Hdef : dict_get k Config.watcher_defaults = Some v.

(** Every section [s] of the list [ws] names a watcher of the map [m] whose
    option [k] is [v]. *)
Local Abbreviation kept ws m :=
  (forall s, In s ws -> exists w, dict_get s m = Some w /\ dict_get k w = Some v).

Ltac reduce_ok H :=
  repeat (first
    [ injection H as <-
    | discriminate H
    | apply put_inv in H as (? & _ & ->)
    | apply bind_ok in H as (? & _ & H); cbv beta in H
    | match type of H with
      | context [match ?x with Some _ => _ | None => _ end] => destruct x eqn:?
      | context [match ?x with PNone => _ | PBool _ => _ | PInt _ => _ | PFloat _ => _
                 | PStr _ => _ | PList _ => _ | PDict _ => _ end] => destruct x eqn:?
      | context [match ?x with [] => _ | _ :: _ => _ end] => destruct x eqn:?
      | context [if ?b then _ else _] =>
          lazymatch b with true => fail | false => fail | _ => destruct b eqn:? end
      end; cbv beta iota in H
    | progress simpl in H ]).

Lemma apply_opt_keeps (env : env_t) (w w' : dict) (opt raw : string) :
  Config.apply_opt U env w (opt, raw) = Ok w' ->
  String.eqb k opt = false -> dict_get k w = Some v -> dict_get k w' = Some v.
Proof.
  intros H Hko Hw. pose proof Hk as Hk'. unfold Config.in_list in Hk'. simpl in Hk'.
  repeat (apply Bool.orb_false_elim in Hk' as [? Hk']).
  unfold Config.apply_opt in H.
  repeat (match type of H with
          | context [if ?b then _ else _] =>
              lazymatch b with true => fail | false => fail | _ =>
                let E := fresh "E" in destruct b eqn:E end
          end; cbv beta iota in H).
  all: repeat match goal with E : String.eqb ?o _ = true |- _ =>
                is_var o; apply String.eqb_eq in E; subst o end.
  all: reduce_ok H.
  all: repeat (rewrite dict_get_set_neq by assumption).
  all: try exact Hw.
  (* [stream_name] names a dict-valued option: it is not [k] *)
  match goal with
  | Hs : dict_get ?s w = Some (PDict ?d) |- dict_get k (dict_set ?s _ _) = _ =>
      destruct (String.eqb k s) eqn:Eks;
      [ apply String.eqb_eq in Eks; subst s; rewrite Hw in Hs;
        injection Hs as Hs; destruct (Hv d Hs)
      | rewrite dict_get_set_neq by exact Eks; exact Hw ]
  end.
Qed.


Lemma mfold_apply_keeps (env : env_t) (opts : list (string * string)) (w w' : dict) :
  mfold_left (Config.apply_opt U env) opts w = Ok w' ->
  (forall o r, In (o, r) opts -> String.eqb k o = false) ->
  dict_get k w = Some v -> dict_get k w' = Some v.
Proof.
  intros H Ho Hw.
  apply (mfold_left_inv (fun w => dict_get k w = Some v) (Config.apply_opt U env) opts)
    with (a0 := w);
    [|exact H|exact Hw].
  intros a [o r] a' Hin Ha. apply (apply_opt_keeps env a a' o r Ha).
  exact (Ho o r Hin).
Qed.

Lemma kept_set (ws : list string) (m : list (string * dict)) (s : string) (X : dict) :
  kept ws m ->
  (forall w, In s ws -> dict_get s m = Some w -> dict_get k w = Some v ->
             dict_get k X = Some v) ->
  kept ws (dict_set s X m).
Proof.
  intros I HX s' Hs'. destruct (String.eqb s' s) eqn:E.
  - apply String.eqb_eq in E. subst s'. destruct (I s Hs') as (w & Hw & Hk').
    exists X. split; [apply dict_get_set_eq | exact (HX w Hs' Hw Hk')].
  - rewrite dict_get_set_neq by exact E. exact (I s' Hs').
Qed.

Lemma first_pass_section_kept (cfg : Config.cfgparser) (genv lenv : env_t)
  (st st' : Config.pass_state) (sec : string) :
  Config.first_pass_section U cfg genv lenv st sec = Ok st' ->
  kept (Config.watchers st) (Config.watchers_map st) ->
  kept (Config.watchers st') (Config.watchers_map st').
Proof.
  intros H I. pose proof Hk as Hk'. unfold Config.in_list in Hk'. simpl in Hk'.
  repeat (apply Bool.orb_false_elim in Hk' as [?Hn Hk']).
  unfold Config.first_pass_section in H.
  destruct (Config.empty_section_keys _); [injection H as <-; exact I|].
  apply bind_ok in H as (st1 & H1 & H).
  assert (I1 : kept (Config.watchers st1) (Config.watchers_map st1)).
  { destruct (startswith "socket:" sec); [|injection H1 as <-; exact I].
    apply bind_ok in H1 as (r1 & _ & H1). apply bind_ok in H1 as (r2 & _ & H1).
    injection H1 as <-. exact I. }
  clear I H1. apply bind_ok in H as (st2 & H2 & H).
  assert (I2 : kept (Config.watchers st2) (Config.watchers_map st2)).
  { destruct (startswith "plugin:" sec); [|injection H2 as <-; exact I1].
    apply bind_ok in H2 as (pl & _ & H2). injection H2 as <-. exact I1. }
  clear I1 H2. destruct (startswith "watcher:" sec); [|injection H as <-; exact I2].
  apply bind_ok in H as (ce & _ & H). injection H as <-. cbn [Config.watchers Config.watchers_map].
  intros s Hs. apply in_app_or in Hs. destruct (String.eqb s sec) eqn:E.
  - apply String.eqb_eq in E. subst s. eexists. split; [apply dict_get_set_eq|].
    pose proof Hdef as Hd. unfold Config.watcher_defaults in Hd. simpl in Hd |- *.
    rewrite Hn, Hn0, Hn1 in *. exact Hd.
  - rewrite dict_get_set_neq by exact E. destruct Hs as [Hs | [Hs | []]].
    + exact (I2 s Hs).
    + subst s. rewrite String.eqb_refl in E. discriminate E.
Qed.

Lemma first_pass_kept (cfg : Config.cfgparser) (genv lenv : env_t) (st : Config.pass_state) :
  Config.first_pass U cfg genv lenv = Ok st ->
  kept (Config.watchers st) (Config.watchers_map st).
Proof.
  unfold Config.first_pass. intros H.
  apply (mfold_left_inv (fun st => kept (Config.watchers st) (Config.watchers_map st))
           (Config.first_pass_section U cfg genv lenv) (Config.sections cfg)) with (a0 := Config.mkPass [] [] [] []);
    [|exact H|intros s []].
  intros a b a' _ Ha. exact (first_pass_section_kept cfg genv lenv a a' b Ha).
Qed.

Lemma sort_lists_kept (st : Config.pass_state) :
  kept (Config.watchers st) (Config.watchers_map st) ->
  kept (Config.watchers (Config.sort_lists st)) (Config.watchers_map (Config.sort_lists st)).
Proof.
  intros I s Hs. simpl in Hs. apply sort_by_field_in in Hs. exact (I s Hs).
Qed.

Lemma update_env_keeps (items : env_t) (w : dict) :
  dict_get k w = Some v -> dict_get k (Config.update_env items w) = Some v.
Proof.
  pose proof Hk as Hk'. unfold Config.in_list in Hk'. simpl in Hk'.
  repeat (apply Bool.orb_false_elim in Hk' as [? Hk']).
  intros Hw. unfold Config.update_env.
  destruct (dict_get "env" w) as [[]|]; try exact Hw.
  rewrite dict_get_set_neq by assumption. exact Hw.
Qed.

Lemma env_pass_kept (cfg : Config.cfgparser) (st : Config.pass_state) :
  kept (Config.watchers st) (Config.watchers_map st) ->
  kept (Config.watchers (Config.env_pass U cfg st))
       (Config.watchers_map (Config.env_pass U cfg st)).
Proof.
  intros I. unfold Config.env_pass. simpl.
  apply (fold_left_inv (fun m => kept (Config.watchers st) m)); [|exact I].
  intros m sec _ Im. destruct (startswith "env:" sec); [|exact Im].
  apply (fold_left_inv (fun m => kept (Config.watchers st) m)); [|exact Im].
  intros m' pat _ Im'. unfold Config.env_pattern.
  apply (fold_left_inv (fun m => kept (Config.watchers st) m)); [|exact Im'].
  intros m'' s Hs Im''. apply filter_In in Hs as [Hs _].
  apply kept_set; [exact Im''|].
  intros w _ Hw Hkw. unfold Config.watcher_in. rewrite Hw.
  apply update_env_keeps. exact Hkw.
Qed.

Lemma second_pass_kept (cfg : Config.cfgparser) (genv : env_t) (st st' : Config.pass_state) :
  (forall sec, startswith "watcher:" sec = true -> Config.has_option cfg sec k = false) ->
  Config.second_pass U cfg genv st = Ok st' ->
  kept (Config.watchers st) (Config.watchers_map st) ->
  kept (Config.watchers st') (Config.watchers_map st').
Proof.
  intros Hno H I. unfold Config.second_pass in H.
  apply bind_ok in H as (m & Hm & H). injection H as <-. simpl.
  apply (mfold_left_inv (fun m => kept (Config.watchers st) m)
           (Config.second_pass_section U cfg genv) (Config.sections cfg))
    with (a0 := Config.watchers_map st); [|exact Hm|exact I].
  intros a sec a' _ Ha Ia. unfold Config.second_pass_section in Ha.
  destruct (startswith "watcher:" sec) eqn:Ew; [|injection Ha as <-; exact Ia].
  match type of Ha with
  | context [match ?x with Some _ => _ | None => _ end] =>
      destruct x as [watcher|] eqn:Ea; [|discriminate Ha]
  end.
  apply bind_ok in Ha as (watcher' & Hw' & Ha). injection Ha as <-.
  apply kept_set; [exact Ia|].
  intros w _ Hw Hkw. rewrite Ea in Hw. injection Hw as <-.
  apply (mfold_apply_keeps _ _ _ _ Hw'); [|exact Hkw].
  intros o r Hin. exact (raw_items_no_opt cfg sec k o r (Hno sec Ew) Hin).
Qed.

Lemma get_config_watchers_kept (environ : env_t) (cfg : Config.cfgparser) (c : dict) :
  (forall sec, startswith "watcher:" sec = true -> Config.has_option cfg sec k = false) ->
  Config.get_config U environ cfg = Ok c ->
  exists ws, dict_get "watchers" c = Some (PList ws) /\
             forall x, In x ws -> exists w, x = PDict w /\ dict_get k w = Some v.
Proof.
  intros Hno H. apply get_config_stages in H as (g & st0 & st & _ & H0 & H2 & ->).
  eexists. split.
  - rewrite !dict_get_set_neq by reflexivity. apply dict_get_set_eq.
  - intros x Hx. apply in_map_iff in Hx as (sec & <- & Hsec).
    pose proof (second_pass_kept cfg _ _ _ Hno H2
                  (env_pass_kept cfg _ (sort_lists_kept _ (first_pass_kept cfg _ _ _ H0))))
      as I.
    destruct (I sec Hsec) as (w & Hw & Hkw). exists w. split; [|exact Hkw].
    unfold Config.watcher_in. rewrite Hw. reflexivity.
Qed.

End Kept.

(** Claim C5: with the options left out of the file, [get_config] sets
    [check_delay] to 5 seconds, and every watcher of the [watchers] list has
    [max_retry] 5, [numprocesses] 1, [respawn] true and [autostart] true. *)
Theorem get_config_defaults (U : Config.util) (environ : env_t) (cfg : Config.cfgparser)
  (c : dict) :
  Config.get_config U environ cfg = Ok c ->
  (Config.has_option cfg "circus" "check_delay" = false ->
   dict_get "check_delay" c = Some (PFloat 5)) /\
  exists ws, dict_get "watchers" c = Some (PList ws) /\
    forall k v, In (k, v) [("max_retry", PInt 5); ("numprocesses", PInt 1);
                           ("respawn", PBool true); ("autostart", PBool true)] ->
    (forall sec, startswith "watcher:" sec = true -> Config.has_option cfg sec k = false) ->
    forall x, In x ws -> exists w, x = PDict w /\ dict_get k w = Some v.
Proof.
  intros H. pose proof H as H'.
  apply get_config_stages in H' as (g & st0 & st & Hg & _ & _ & Hc).
  split.
  - intros Hcd. rewrite Hc, !dict_get_set_neq by reflexivity.
    destruct (main_options_check_delay U cfg _ g Hg) as (v & Hv & ->).
    rewrite dget_absent in Hv by exact Hcd. injection Hv as <-. reflexivity.
  - eexists. split.
    + rewrite Hc, !dict_get_set_neq by reflexivity. apply dict_get_set_eq.
    + intros k v Hin Hno x Hx.
      assert (Hkv : Config.in_list k ["name"; "copy_env"; "env"; "rlimits"; "use_papa"; "hooks"] = false /\
                    (forall d, v <> PDict d) /\
                    dict_get k Config.watcher_defaults = Some v).
      { simpl in Hin.
        destruct Hin as [E|[E|[E|[E|[]]]]]; injection E as <- <-;
          (split; [reflexivity | split; [discriminate | reflexivity]]). }
      destruct Hkv as (Hk & Hv & Hdef).
      destruct (get_config_watchers_kept U k v Hk Hv Hdef environ cfg c Hno H)
        as (ws & Hws & P).
      rewrite Hc, !dict_get_set_neq, dict_get_set_eq in Hws by reflexivity.
      injection Hws as <-. exact (P x Hx).
Qed.

Lemma dict_mem_in_keys {A} (k : string) (d : list (string * A)) :
  dict_mem k d = Config.in_list k (map fst d).
Proof.
  unfold dict_mem, Config.in_list. induction d as [|[k' v'] d IH]; simpl; [reflexivity|].
  destruct (String.eqb k k'); simpl; [reflexivity | exact IH].
Qed.

(** ** C1 *)

(** Claim C1 fails on a readable file whose [[circus]] section holds an
    option that does not convert: [warmup_delay = abc] makes [get_config]
    raise [ValueError] instead of returning a snapshot. *)
Lemma get_config_bad_value_raises :
  Config.get_config linux_util [] [("circus", [("warmup_delay", "abc")])] =
  Err (ValueError "invalid literal for int()").
Proof. vm_compute. reflexivity. Qed.

(** An empty [[watcher:w]] section is skipped by the first pass but looked up
    in [watchers_map] by the second: [get_config] raises [KeyError]. *)
Lemma get_config_empty_watcher_key_error :
  Config.get_config linux_util [] [("watcher:w", [])] = Err (KeyError "watcher:w").
Proof. vm_compute. reflexivity. Qed.

(** Claim C1 (amended): whenever [get_config] returns a snapshot, it holds the
    global keys check_delay, endpoint, pubsub_endpoint, stats_endpoint, statsd,
    umask, warmup_delay, loglevel and pidfile, and the keys watchers, sockets
    and plugins, each bound to a list whose entries are all dicts. *)
Theorem get_config_snapshot_shape (U : Config.util) (environ : env_t)
  (cfg : Config.cfgparser) (c : dict) :
  Config.get_config U environ cfg = Ok c ->
  forallb (fun k => dict_mem k c)
    ["check_delay"; "endpoint"; "pubsub_endpoint"; "stats_endpoint"; "statsd";
     "umask"; "warmup_delay"; "loglevel"; "pidfile"] = true /\
  forall k, In k ["watchers"; "sockets"; "plugins"] ->
    exists ws, dict_get k c = Some (PList ws) /\
               forall x, In x ws -> exists d, x = PDict d.
Proof.
  intros H. apply get_config_stages in H as (g & st0 & st & Hg & _ & _ & Hc).
  assert (Kc : map fst c = (global_keys ++ ["watchers"; "plugins"; "sockets"])%list).
  { rewrite Hc, !dict_set_keys, (main_options_keys U cfg _ g Hg). reflexivity. }
  split.
  - simpl forallb. rewrite !dict_mem_in_keys, Kc. reflexivity.
  - intros k Hk. subst c. simpl in Hk.
    destruct Hk as [<-|[<-|[<-|[]]]].
    + eexists. rewrite !dict_get_set_neq by reflexivity. rewrite dict_get_set_eq.
      split; [reflexivity|]. intros x Hx. apply in_map_iff in Hx as (sec & <- & _). eauto.
    + eexists. rewrite dict_get_set_eq. split; [reflexivity|].
      intros x Hx. apply in_map_iff in Hx as (d & <- & _). eauto.
    + eexists. rewrite dict_get_set_neq by reflexivity. rewrite dict_get_set_eq.
      split; [reflexivity|]. intros x Hx. apply in_map_iff in Hx as (d & <- & _). eauto.
Qed.

Lemma get_config_snapshot_shape_witness :
  exists c, Config.get_config linux_util [] [("circus", [("check_delay", "2")]);
                                            ("watcher:a", [("cmd", "a")])] = Ok c /\
  forallb (fun k => dict_mem k c)
    ["check_delay"; "endpoint"; "pubsub_endpoint"; "stats_endpoint"; "statsd";
     "umask"; "warmup_delay"; "loglevel"; "pidfile"] = true /\
  forall k, In k ["watchers"; "sockets"; "plugins"] ->
    exists ws, dict_get k c = Some (PList ws) /\
               forall x, In x ws -> exists d, x = PDict d.
Proof.
  eexists. split; [vm_compute; reflexivity|].
  apply (get_config_snapshot_shape linux_util []
           [("circus", [("check_delay", "2")]); ("watcher:a", [("cmd", "a")])]).
  vm_compute. reflexivity.
Defined.

(** ** C3 *)

(** Claim C3: when [[circus]] sets [stats_endpoint], the snapshot's [statsd]
    is true whatever [statsd] was set to; when it does not, [stats_endpoint]
    is the default stats endpoint and [statsd] is the configured value,
    false by default. *)
Theorem get_config_statsd (U : Config.util) (environ : env_t) (cfg : Config.cfgparser)
  (c : dict) :
  Config.get_config U environ cfg = Ok c ->
  (Config.has_option cfg "circus" "stats_endpoint" = true ->
   dict_get "statsd" c = Some (PBool true)) /\
  (Config.has_option cfg "circus" "stats_endpoint" = false ->
   dict_get "stats_endpoint" c = Some (PStr (Config.DEFAULT_ENDPOINT_STATS U)) /\
   exists v, Config.dget U cfg (fst (Config.environments environ cfg)) "circus" "statsd"
               (PBool false) Config.TBool = Ok v /\
             dict_get "statsd" c = Some v).
Proof.
  intros H. apply get_config_stages in H as (g & st0 & st & Hg & _ & _ & ->).
  rewrite !(dict_get_set_neq "statsd"), !(dict_get_set_neq "stats_endpoint") by reflexivity.
  exact (main_options_statsd U cfg _ g Hg).
Qed.

Lemma get_config_statsd_witness :
  exists c, Config.get_config linux_util []
              [("circus", [("stats_endpoint", "tcp://127.0.0.1:5557")])] = Ok c /\
  (Config.has_option [("circus", [("stats_endpoint", "tcp://127.0.0.1:5557")])]
     "circus" "stats_endpoint" = true ->
   dict_get "statsd" c = Some (PBool true)) /\
  (Config.has_option [("circus", [("stats_endpoint", "tcp://127.0.0.1:5557")])]
     "circus" "stats_endpoint" = false ->
   dict_get "stats_endpoint" c = Some (PStr (Config.DEFAULT_ENDPOINT_STATS linux_util)) /\
   exists v, Config.dget linux_util [("circus", [("stats_endpoint", "tcp://127.0.0.1:5557")])]
               (fst (Config.environments [] [("circus", [("stats_endpoint", "tcp://127.0.0.1:5557")])]))
               "circus" "statsd" (PBool false) Config.TBool = Ok v /\
             dict_get "statsd" c = Some v).
Proof.
  eexists. split; [vm_compute; reflexivity|].
  apply (get_config_statsd linux_util []
           [("circus", [("stats_endpoint", "tcp://127.0.0.1:5557")])]).
  vm_compute. reflexivity.
Defined.

(** ** C5 witness *)

Lemma get_config_defaults_witness :
  exists c, Config.get_config linux_util [] [("watcher:a", [("cmd", "a")])] = Ok c /\
  (Config.has_option [("watcher:a", [("cmd", "a")])] "circus" "check_delay" = false ->
   dict_get "check_delay" c = Some (PFloat 5)) /\
  exists ws, dict_get "watchers" c = Some (PList ws) /\
    forall k v, In (k, v) [("max_retry", PInt 5); ("numprocesses", PInt 1);
                           ("respawn", PBool true); ("autostart", PBool true)] ->
    (forall sec, startswith "watcher:" sec = true ->
                 Config.has_option [("watcher:a", [("cmd", "a")])] sec k = false) ->
    forall x, In x ws -> exists w, x = PDict w /\ dict_get k w = Some v.
Proof.
  eexists. split; [vm_compute; reflexivity|].
  apply (get_config_defaults linux_util [] [("watcher:a", [("cmd", "a")])]).
  vm_compute. reflexivity.
Defined.

(** ** String helpers *)

Lemma substring_all (s : string) : substring 0 (String.length s) s = s.
Proof. induction s as [|a s IH]; simpl; [reflexivity | rewrite IH; reflexivity]. Qed.

Lemma drop_rlimit (name : string) : drop 7 ("rlimit_" ++ name) = name.
Proof.
  unfold drop. simpl. rewrite Nat.sub_0_r. apply substring_all.
Qed.

(** * Further properties of the code *)

(** ** Share: [os_open] *)

Lemma flag_clear_testbit (a n : Z) :
  0 <= n -> (Z.land a (2 ^ n) =? 0) = negb (Z.testbit a n).
Proof.
  intros Hn. destruct (Z.testbit a n) eqn:E; simpl.
  - apply Z.eqb_neq. intros H0.
    assert (Hb : Z.testbit (Z.land a (2 ^ n)) n = true).
    { rewrite Z.land_spec, E, Z.pow2_bits_true by exact Hn. reflexivity. }
    rewrite H0, Z.testbit_0_l in Hb. discriminate.
  - apply Z.eqb_eq. apply Z.bits_inj'. intros m Hm.
    rewrite Z.land_spec, Z.testbit_0_l, Z.pow2_bits_eqb by exact Hn.
    destruct (Z.eqb_spec n m); [subst; rewrite E; reflexivity|apply andb_false_r].
Qed.

(** [os_open] returning a descriptor: the lookups it made and the Win32 call. *)
Lemma os_open_ok_inv (W : Share.winapi) (file : Share.path) (flags mode sf fd : Z) :
  Share.os_open W file flags mode sf = Ok fd ->
  exists name access0 create h,
    Share.zget (Z.land flags Share._ACCESS_MASK) Share._ACCESS_MAP = Ok access0 /\
    Share.zget (Z.land flags Share._CREATE_MASK) Share._CREATE_MAP = Ok create /\
    Z.land sf (Z.lnot Share.FILE_SHARE_VALID_FLAGS) = 0 /\
    Share.has_nul name = false /\
    Share.create_file_w32 W name
      (if Z.testbit flags 6 then Z.lor access0 Share.DELETE else access0)
      (if Z.testbit flags 6 then Z.lor sf Share.FILE_SHARE_DELETE else sf)
      create
      (let a := if Z.testbit flags 8 && (Z.land mode (Z.lnot 292) =? 0)
                then Share.FILE_ATTRIBUTE_READONLY else Share.FILE_ATTRIBUTE_NORMAL in
       let a := if Z.testbit flags 6 then Z.lor a Share.FILE_FLAG_DELETE_ON_CLOSE else a in
       let a := if Z.testbit flags 12 then Z.lor a Share.FILE_ATTRIBUTE_TEMPORARY else a in
       let a := if Z.testbit flags 5 then Z.lor a Share.FILE_FLAG_SEQUENTIAL_SCAN else a in
       if Z.testbit flags 4 then Z.lor a Share.FILE_FLAG_RANDOM_ACCESS else a) = Ok h /\
    Share.open_osfhandle W h (Z.lor flags Share.O_NOINHERIT) = Ok fd.
Proof.
  unfold Share.os_open. intros H.
  destruct (Z.land sf (Z.lnot Share.FILE_SHARE_VALID_FLAGS) =? 0) eqn:Hsf;
    [|discriminate H]. apply Z.eqb_eq in Hsf. cbv beta iota in H.
  apply bind_ok in H as (name & Hname & H).
  apply bind_ok in H as (access0 & Ha & H).
  apply bind_ok in H as (create & Hc & H).
  change Share.O_CREAT with (2 ^ 8) in H. change Share.O_TEMPORARY with (2 ^ 6) in H.
  change Share.O_SHORT_LIVED with (2 ^ 12) in H.
  change Share.O_SEQUENTIAL with (2 ^ 5) in H. change Share.O_RANDOM with (2 ^ 4) in H.
  rewrite !flag_clear_testbit, !negb_involutive in H by lia.
  apply bind_ok in H as (h & Hh & H).
  unfold Share.CreateFile in Hh. destruct (Share.has_nul name) eqn:Hnul; [discriminate Hh|].
  exists name, access0, create, h. repeat split; assumption.
Qed.

(** Evaluates the bits of the constants in the goal. *)
Ltac const_bits :=
  repeat match goal with
  | |- context [Z.testbit ?c ?n] =>
      let b := eval vm_compute in (Z.testbit c n) in
      lazymatch b with
      | true => change (Z.testbit c n) with true
      | false => change (Z.testbit c n) with false
      end
  end.

Lemma testbit_land_ones (a n m : Z) :
  0 <= m < n -> Z.testbit (Z.land a (Z.ones n)) m = Z.testbit a m.
Proof.
  intros Hm. rewrite Z.land_spec, Z.ones_spec_low by lia. apply andb_true_r.
Qed.

Lemma access_lookup (flags a : Z) :
  Share.zget (Z.land flags Share._ACCESS_MASK) Share._ACCESS_MAP = Ok a ->
  Z.testbit a 31 = negb (Z.testbit flags 0) /\
  Z.testbit a 30 = (Z.testbit flags 0 || Z.testbit flags 1) /\
  Z.testbit a 16 = false.
Proof.
  change Share._ACCESS_MASK with (Z.ones 2).
  assert (B0 : Z.testbit flags 0 = Z.testbit (Z.land flags (Z.ones 2)) 0)
    by (rewrite testbit_land_ones by lia; reflexivity).
  assert (B1 : Z.testbit flags 1 = Z.testbit (Z.land flags (Z.ones 2)) 1)
    by (rewrite testbit_land_ones by lia; reflexivity).
  rewrite B0, B1. rewrite Z.land_ones by lia.
  pose proof (Z.mod_pos_bound flags (2 ^ 2) ltac:(lia)) as Hb.
  assert (flags mod 2 ^ 2 = 0 \/ flags mod 2 ^ 2 = 1 \/ flags mod 2 ^ 2 = 2 \/
          flags mod 2 ^ 2 = 3) as [E|[E|[E|E]]] by lia;
    rewrite E; intros H; inversion H; subst; repeat split.
Qed.

(** [os_open] with valid [share_flags] and a readable name raises [KeyError]
    when the access bits of [flags] are [3], which [_ACCESS_MAP] lacks. *)
Theorem os_open_access_mode_invalid (W : Share.winapi) (file : Share.path)
  (flags mode sf : Z) :
  Z.land sf (Z.lnot Share.FILE_SHARE_VALID_FLAGS) = 0 ->
  (forall b, file = Share.PathBytes b -> exists s, Share.fsdecode W b = Ok s) ->
  Z.land flags 3 = 3 ->
  Share.os_open W file flags mode sf = Err (KeyError "flags").
Proof.
  intros Hsf Hdec Hacc. unfold Share.os_open. rewrite Hsf. cbv beta iota.
  change Share._ACCESS_MASK with 3. rewrite Hacc.
  destruct file as [s|b]; [reflexivity|].
  destruct (Hdec b eq_refl) as [s Hs]. simpl. rewrite Hs. reflexivity.
Qed.

Lemma os_open_access_mode_invalid_witness :
  Z.land Share.FILE_SHARE_VALID_FLAGS (Z.lnot Share.FILE_SHARE_VALID_FLAGS) = 0 /\
  Share.os_open winapi_ok (Share.PathBytes [Byte.x61]) (Z.lor Share.O_WRONLY Share.O_RDWR)
    511 Share.FILE_SHARE_VALID_FLAGS = Err (KeyError "flags").
Proof.
  split; [reflexivity|].
  apply os_open_access_mode_invalid.
  - reflexivity.
  - intros b _. exists "decoded". reflexivity.
  - reflexivity.
Defined.

(** The access rights [os_open] asks CreateFile for: [GENERIC_READ] unless
    [O_WRONLY], [GENERIC_WRITE] for [O_WRONLY] and [O_RDWR]; the descriptor
    is opened with [O_NOINHERIT] added. *)
Theorem os_open_access_rights (W : Share.winapi) (file : Share.path)
  (flags mode sf fd : Z) :
  Share.os_open W file flags mode sf = Ok fd ->
  exists name access share create attrib h,
    Share.create_file_w32 W name access share create attrib = Ok h /\
    Share.open_osfhandle W h (Z.lor flags Share.O_NOINHERIT) = Ok fd /\
    Z.testbit access 31 = negb (Z.testbit flags 0) /\
    Z.testbit access 30 = (Z.testbit flags 0 || Z.testbit flags 1).
Proof.
  intros H. apply os_open_ok_inv in H
    as (name & access0 & create & h & Ha & _ & _ & _ & Hcf & Hfd).
  apply access_lookup in Ha as (A31 & A30 & A16).
  do 6 eexists. split; [exact Hcf|]. split; [exact Hfd|].
  destruct (Z.testbit flags 6); rewrite ?Z.lor_spec, ?A31, ?A30, ?A16; const_bits;
    rewrite ?orb_false_r, ?orb_true_r; repeat split.
Qed.

Lemma os_open_access_rights_witness :
  exists fd, Share.os_open winapi_ok (Share.PathStr "log") Share.O_WRONLY 511
               Share.FILE_SHARE_VALID_FLAGS = Ok fd /\
  exists name access share create attrib h,
    Share.create_file_w32 winapi_ok name access share create attrib = Ok h /\
    Share.open_osfhandle winapi_ok h (Z.lor Share.O_WRONLY Share.O_NOINHERIT) = Ok fd /\
    Z.testbit access 31 = negb (Z.testbit Share.O_WRONLY 0) /\
    Z.testbit access 30 = (Z.testbit Share.O_WRONLY 0 || Z.testbit Share.O_WRONLY 1).
Proof.
  exists 3. split; [reflexivity|].
  apply (os_open_access_rights winapi_ok (Share.PathStr "log") Share.O_WRONLY 511
           Share.FILE_SHARE_VALID_FLAGS 3).
  reflexivity.
Defined.

Lemma create_disposition_below_2048 :
  forallb (fun x =>
    match Share.zget (Z.land x Share._CREATE_MASK) Share._CREATE_MAP with
    | Ok c => c =? (if Z.testbit x 8 then
                      if Z.testbit x 10 then Share.CREATE_NEW
                      else if Z.testbit x 9 then Share.CREATE_ALWAYS else Share.OPEN_ALWAYS
                    else if Z.testbit x 9 then Share.TRUNCATE_EXISTING
                    else Share.OPEN_EXISTING)
    | Err _ => false
    end) (map Z.of_nat (seq 0 2048)) = true.
Proof. vm_compute. reflexivity. Qed.

(** The create disposition [os_open] passes to CreateFile: without [O_CREAT]
    it never creates a file ([OPEN_EXISTING], or [TRUNCATE_EXISTING] with
    [O_TRUNC]); with [O_CREAT] and [O_EXCL] it is [CREATE_NEW] (fails on an
    existing file) whatever [O_TRUNC]; with [O_CREAT] alone [OPEN_ALWAYS], and
    with [O_CREAT] and [O_TRUNC] [CREATE_ALWAYS]. *)
Theorem os_open_create_disposition (W : Share.winapi) (file : Share.path)
  (flags mode sf fd : Z) :
  Share.os_open W file flags mode sf = Ok fd ->
  exists name access share attrib h,
    Share.create_file_w32 W name access share
      (if Z.testbit flags 8 then
         if Z.testbit flags 10 then Share.CREATE_NEW
         else if Z.testbit flags 9 then Share.CREATE_ALWAYS else Share.OPEN_ALWAYS
       else if Z.testbit flags 9 then Share.TRUNCATE_EXISTING
       else Share.OPEN_EXISTING) attrib = Ok h /\
    Share.open_osfhandle W h (Z.lor flags Share.O_NOINHERIT) = Ok fd.
Proof.
  intros H. apply os_open_ok_inv in H
    as (name & access0 & create & h & _ & Hc & _ & _ & Hcf & Hfd).
  assert (Hb := create_disposition_below_2048). rewrite forallb_forall in Hb.
  assert (Hin : In (flags mod 2 ^ 11) (map Z.of_nat (seq 0 2048))).
  { apply in_map_iff. exists (Z.to_nat (flags mod 2 ^ 11)).
    pose proof (Z.mod_pos_bound flags (2 ^ 11) ltac:(lia)). split.
    - rewrite Z2Nat.id; lia.
    - apply in_seq. change (2 ^ 11) with 2048 in *. lia. }
  specialize (Hb _ Hin).
  rewrite <- (Z.land_ones flags 11), <- Z.land_assoc in Hb by lia.
  change (Z.land (Z.ones 11) Share._CREATE_MASK) with Share._CREATE_MASK in Hb.
  rewrite Hc, !testbit_land_ones in Hb by lia. apply Z.eqb_eq in Hb. subst create.
  do 5 eexists. split; [exact Hcf | exact Hfd].
Qed.

Lemma os_open_create_disposition_witness :
  exists fd, Share.os_open winapi_ok (Share.PathStr "log")
               (Z.lor Share.O_CREAT Share.O_EXCL) 511 Share.FILE_SHARE_VALID_FLAGS = Ok fd /\
  exists name access share attrib h,
    Share.create_file_w32 winapi_ok name access share
      (if Z.testbit (Z.lor Share.O_CREAT Share.O_EXCL) 8 then
         if Z.testbit (Z.lor Share.O_CREAT Share.O_EXCL) 10 then Share.CREATE_NEW
         else if Z.testbit (Z.lor Share.O_CREAT Share.O_EXCL) 9 then Share.CREATE_ALWAYS
         else Share.OPEN_ALWAYS
       else if Z.testbit (Z.lor Share.O_CREAT Share.O_EXCL) 9 then Share.TRUNCATE_EXISTING
       else Share.OPEN_EXISTING) attrib = Ok h /\
    Share.open_osfhandle winapi_ok h
      (Z.lor (Z.lor Share.O_CREAT Share.O_EXCL) Share.O_NOINHERIT) = Ok fd.
Proof.
  exists 3. split; [reflexivity|].
  apply (os_open_create_disposition winapi_ok (Share.PathStr "log")
           (Z.lor Share.O_CREAT Share.O_EXCL) 511 Share.FILE_SHARE_VALID_FLAGS 3).
  reflexivity.
Defined.

(** [O_TEMPORARY] in [os_open]: the share mode passed to CreateFile is
    [share_flags] plus [FILE_SHARE_DELETE] exactly when [O_TEMPORARY] is set,
    so it stays within [FILE_SHARE_VALID_FLAGS]; [DELETE] access and
    [FILE_FLAG_DELETE_ON_CLOSE] are requested exactly with [O_TEMPORARY]. *)
Theorem os_open_temporary (W : Share.winapi) (file : Share.path)
  (flags mode sf fd : Z) :
  Share.os_open W file flags mode sf = Ok fd ->
  exists name access share create attrib h,
    Share.create_file_w32 W name access share create attrib = Ok h /\
    Share.open_osfhandle W h (Z.lor flags Share.O_NOINHERIT) = Ok fd /\
    Z.land share (Z.lnot Share.FILE_SHARE_VALID_FLAGS) = 0 /\
    (forall i, i <> 2 -> Z.testbit share i = Z.testbit sf i) /\
    Z.testbit share 2 = (Z.testbit sf 2 || Z.testbit flags 6) /\
    Z.testbit access 16 = Z.testbit flags 6 /\
    Z.testbit attrib 26 = Z.testbit flags 6.
Proof.
  intros H. apply os_open_ok_inv in H
    as (name & access0 & create & h & Ha & _ & Hsf & _ & Hcf & Hfd).
  apply access_lookup in Ha as (_ & _ & A16).
  do 6 eexists. split; [exact Hcf|]. split; [exact Hfd|].
  destruct (Z.testbit flags 6).
  - split; [|split; [|split; [|split]]].
    + rewrite Z.land_lor_distr_l, Hsf. reflexivity.
    + intros i Hi. rewrite Z.lor_spec. change Share.FILE_SHARE_DELETE with (2 ^ 2).
      rewrite Z.pow2_bits_eqb by lia. destruct (Z.eqb_spec 2 i); [lia|].
      apply orb_false_r.
    + rewrite Z.lor_spec. const_bits. rewrite !orb_true_r. reflexivity.
    + rewrite Z.lor_spec, A16. reflexivity.
    + cbv zeta. destruct (_ && _), (Z.testbit flags 12), (Z.testbit flags 5),
        (Z.testbit flags 4); reflexivity.
  - split; [exact Hsf|]. split; [reflexivity|]. split; [symmetry; apply orb_false_r|].
    split; [exact A16|].
    cbv zeta. destruct (_ && _), (Z.testbit flags 12), (Z.testbit flags 5),
      (Z.testbit flags 4); reflexivity.
Qed.

Lemma os_open_temporary_witness :
  exists fd, Share.os_open winapi_ok (Share.PathStr "log")
               (Z.lor Share.O_RDWR Share.O_TEMPORARY) 511 Share.FILE_SHARE_READ = Ok fd /\
  exists name access share create attrib h,
    Share.create_file_w32 winapi_ok name access share create attrib = Ok h /\
    Share.open_osfhandle winapi_ok h
      (Z.lor (Z.lor Share.O_RDWR Share.O_TEMPORARY) Share.O_NOINHERIT) = Ok fd /\
    Z.land share (Z.lnot Share.FILE_SHARE_VALID_FLAGS) = 0 /\
    (forall i, i <> 2 -> Z.testbit share i = Z.testbit Share.FILE_SHARE_READ i) /\
    Z.testbit share 2 = (Z.testbit Share.FILE_SHARE_READ 2 ||
                         Z.testbit (Z.lor Share.O_RDWR Share.O_TEMPORARY) 6) /\
    Z.testbit access 16 = Z.testbit (Z.lor Share.O_RDWR Share.O_TEMPORARY) 6 /\
    Z.testbit attrib 26 = Z.testbit (Z.lor Share.O_RDWR Share.O_TEMPORARY) 6.
Proof.
  exists 3. split; [reflexivity|].
  apply (os_open_temporary winapi_ok (Share.PathStr "log")
           (Z.lor Share.O_RDWR Share.O_TEMPORARY) 511 Share.FILE_SHARE_READ 3).
  reflexivity.
Defined.

(** The file attributes [os_open] passes to CreateFile: [READONLY] exactly
    when [O_CREAT] is set and [mode] has no bit outside [0o444], [NORMAL]
    otherwise. *)
Theorem os_open_readonly_attribute (W : Share.winapi) (file : Share.path)
  (flags mode sf fd : Z) :
  Share.os_open W file flags mode sf = Ok fd ->
  exists name access share create attrib h,
    Share.create_file_w32 W name access share create attrib = Ok h /\
    Share.open_osfhandle W h (Z.lor flags Share.O_NOINHERIT) = Ok fd /\
    Z.testbit attrib 0 = (Z.testbit flags 8 && (Z.land mode (Z.lnot 292) =? 0)) /\
    Z.testbit attrib 7 = negb (Z.testbit flags 8 && (Z.land mode (Z.lnot 292) =? 0)).
Proof.
  intros H. apply os_open_ok_inv in H
    as (name & access0 & create & h & _ & _ & _ & _ & Hcf & Hfd).
  do 6 eexists. split; [exact Hcf|]. split; [exact Hfd|].
  cbv zeta. destruct (_ && _), (Z.testbit flags 6), (Z.testbit flags 12),
    (Z.testbit flags 5), (Z.testbit flags 4); split; reflexivity.
Qed.

Lemma os_open_readonly_attribute_witness :
  exists fd, Share.os_open winapi_ok (Share.PathStr "log")
               (Z.lor Share.O_WRONLY Share.O_CREAT) 292 Share.FILE_SHARE_VALID_FLAGS = Ok fd /\
  exists name access share create attrib h,
    Share.create_file_w32 winapi_ok name access share create attrib = Ok h /\
    Share.open_osfhandle winapi_ok h
      (Z.lor (Z.lor Share.O_WRONLY Share.O_CREAT) Share.O_NOINHERIT) = Ok fd /\
    Z.testbit attrib 0 = (Z.testbit (Z.lor Share.O_WRONLY Share.O_CREAT) 8 &&
                          (Z.land 292 (Z.lnot 292) =? 0)) /\
    Z.testbit attrib 7 = negb (Z.testbit (Z.lor Share.O_WRONLY Share.O_CREAT) 8 &&
                               (Z.land 292 (Z.lnot 292) =? 0)).
Proof.
  exists 3. split; [reflexivity|].
  apply (os_open_readonly_attribute winapi_ok (Share.PathStr "log")
           (Z.lor Share.O_WRONLY Share.O_CREAT) 292 Share.FILE_SHARE_VALID_FLAGS 3).
  reflexivity.
Defined.

(** ** Config: the configuration dict *)

(** [get_config] builds its snapshot with exactly the global option keys, in
    the order the code sets them, followed by [watchers], [plugins] and
    [sockets]: no key is missing, repeated or added. *)
Theorem get_config_keys_exact (U : Config.util) (environ : env_t) (cfg : Config.cfgparser)
  (c : dict) :
  Config.get_config U environ cfg = Ok c ->
  map fst c = (global_keys ++ ["watchers"; "plugins"; "sockets"])%list.
Proof.
  intros H. apply get_config_stages in H as (g & st0 & st & Hg & _ & _ & ->).
  rewrite !dict_set_keys, (main_options_keys U cfg _ g Hg). reflexivity.
Qed.

Lemma get_config_keys_exact_witness :
  exists c, Config.get_config linux_util [] [("circus", [("debug", "1")]); ("watcher:web", [("cmd", "python"); ("numprocesses", "2"); ("shell", "true")])] = Ok c /\
  map fst c = (global_keys ++ ["watchers"; "plugins"; "sockets"])%list.
Proof.
  eexists. split; [vm_compute; reflexivity|].
  apply (get_config_keys_exact linux_util [] [("circus", [("debug", "1")]); ("watcher:web", [("cmd", "python"); ("numprocesses", "2"); ("shell", "true")])]).
  vm_compute. reflexivity.
Defined.

Lemma main_options_umask (U : Config.util) (cfg : Config.cfgparser) (genv : env_t)
  (g : dict) :
  Config.main_options U cfg genv = Ok g ->
  (Config.has_option cfg "circus" "umask" = false -> dict_get "umask" g = Some PNone) /\
  (Config.has_option cfg "circus" "umask" = true ->
   (Config.get cfg genv "circus" "umask" = "" -> dict_get "umask" g = Some (PStr "")) /\
   (Config.get cfg genv "circus" "umask" <> "" ->
    exists z, py_int_base 8 (Config.get cfg genv "circus" "umask") = Ok z /\
              dict_get "umask" g = Some (PInt z))).
Proof.
  unfold Config.main_options. intros H.
  do 8 put_inv_step H.
  apply bind_ok in H as (c7 & H7 & H). cbv beta in H7.
  unfold Config.cget in H7. rewrite dict_get_set_eq in H7.
  apply bind_ok in H as (c8 & H8 & H). cbv beta in H8.
  assert (E8 : dict_get "umask" c8 = dict_get "umask" c7).
  { destruct (Config.cget "stats_endpoint" c7); try destruct (negb _);
      injection H8 as <-; rewrite ?dict_get_set_neq by reflexivity; reflexivity. }
  do 11 put_inv_step H. apply put_inv in H as (? & _ & ->).
  rewrite !dict_get_set_neq by reflexivity. rewrite E8. clear E8 H8.
  split; intros Ho.
  - rewrite dget_absent in R6 by exact Ho. injection R6 as <-.
    injection H7 as <-. reflexivity.
  - rewrite dget_present_str in R6 by exact Ho. injection R6 as <-.
    cbn [Config.truthy] in H7.
    destruct (String.eqb_spec (Config.get cfg genv "circus" "umask") "") as [Ee|Ne];
      cbn [negb] in H7; split; intros He; try contradiction.
    + injection H7 as <-. rewrite Ee. reflexivity.
    + apply put_inv in H7 as (u & Hu & ->). apply bind_ok in Hu as (z & Hz & Hu).
      injection Hu as <-. exists z. split; [exact Hz | reflexivity].
Qed.

(** [umask] in a snapshot: [None] when [[circus]] does not set it, the
    empty string when it is set empty, and otherwise the value parsed as an
    octal integer. *)
Theorem get_config_umask (U : Config.util) (environ : env_t) (cfg : Config.cfgparser)
  (c : dict) :
  Config.get_config U environ cfg = Ok c ->
  let genv := fst (Config.environments environ cfg) in
  (Config.has_option cfg "circus" "umask" = false -> dict_get "umask" c = Some PNone) /\
  (Config.has_option cfg "circus" "umask" = true ->
   (Config.get cfg genv "circus" "umask" = "" -> dict_get "umask" c = Some (PStr "")) /\
   (Config.get cfg genv "circus" "umask" <> "" ->
    exists z, py_int_base 8 (Config.get cfg genv "circus" "umask") = Ok z /\
              dict_get "umask" c = Some (PInt z))).
Proof.
  intros H. apply get_config_stages in H as (g & st0 & st & Hg & _ & _ & ->).
  cbv zeta. rewrite !dict_get_set_neq by reflexivity.
  exact (main_options_umask U cfg _ g Hg).
Qed.

Lemma get_config_umask_witness :
  exists c, Config.get_config linux_util [] [("circus", [("umask", "022")])] = Ok c /\
  let genv := fst (Config.environments [] [("circus", [("umask", "022")])]) in
  (Config.has_option [("circus", [("umask", "022")])] "circus" "umask" = false ->
   dict_get "umask" c = Some PNone) /\
  (Config.has_option [("circus", [("umask", "022")])] "circus" "umask" = true ->
   (Config.get [("circus", [("umask", "022")])] genv "circus" "umask" = "" ->
    dict_get "umask" c = Some (PStr "")) /\
   (Config.get [("circus", [("umask", "022")])] genv "circus" "umask" <> "" ->
    exists z, py_int_base 8 (Config.get [("circus", [("umask", "022")])] genv "circus" "umask")
              = Ok z /\ dict_get "umask" c = Some (PInt z))).
Proof.
  eexists. split; [vm_compute; reflexivity|].
  apply (get_config_umask linux_util [] [("circus", [("umask", "022")])]).
  vm_compute. reflexivity.
Defined.

Lemma dict_get_not_in {A} (k : string) (l : list (string * A)) :
  ~ In k (map fst l) -> dict_get k l = None.
Proof.
  induction l as [|[k' v'] l IH]; simpl; [reflexivity|].
  intros Hn. destruct (String.eqb_spec k k'); [subst; tauto|]. apply IH. tauto.
Qed.

Lemma dict_update_get {A} (k : string) (l d : list (string * A)) :
  NoDup (map fst l) ->
  dict_get k (dict_update d l) =
  match dict_get k l with Some v => Some v | None => dict_get k d end.
Proof.
  unfold dict_update. revert d.
  induction l as [|[k0 v0] l IH]; simpl; intros d Hnd; [reflexivity|].
  inversion Hnd as [|? ? Hk0 Hnd']; subst. rewrite (IH _ Hnd').
  destruct (String.eqb_spec k k0) as [->|Ne].
  - rewrite (dict_get_not_in k0 l Hk0). apply dict_get_set_eq.
  - destruct (dict_get k l); [reflexivity|]. apply dict_get_set_neq.
    apply String.eqb_neq. exact Ne.
Qed.

Lemma set_keys_in (k x : string) (ks : list string) :
  In x (set_keys k ks) -> x = k \/ In x ks.
Proof.
  induction ks as [|k' ks IH]; simpl; [intuition|].
  destruct (String.eqb k k'); simpl; intuition.
Qed.

Lemma set_keys_nodup (k : string) (ks : list string) :
  NoDup ks -> NoDup (set_keys k ks).
Proof.
  induction ks as [|k' ks IH]; simpl; intros Hnd.
  - constructor; [intros []|constructor].
  - inversion Hnd as [|? ? Hk' Hnd']; subst.
    destruct (String.eqb_spec k k') as [->|Ne]; [exact Hnd|].
    constructor; [|exact (IH Hnd')].
    intros Hin. apply set_keys_in in Hin as [->|Hin]; [exact (Ne eq_refl)|tauto].
Qed.

Lemma dict_update_nodup {A} (d l : list (string * A)) :
  NoDup (map fst d) -> NoDup (map fst (dict_update d l)).
Proof.
  unfold dict_update. revert d.
  induction l as [|[k v] l IH]; simpl; intros d Hnd; [exact Hnd|].
  apply IH. rewrite dict_set_keys. apply set_keys_nodup. exact Hnd.
Qed.

(** [global_env] and [local_env]: [local_env] holds the [[env]] section's
    items (expanded with [os.environ]); in [global_env] a key of
    [local_env] takes its value there, any other key its [os.environ]
    value. *)
Theorem environments_local_overrides (environ : env_t) (cfg : Config.cfgparser)
  (k : string) :
  dict_get k (fst (Config.environments environ cfg)) =
    match dict_get k (snd (Config.environments environ cfg)) with
    | Some v => Some v
    | None => dict_get k (dict_of environ)
    end /\
  dict_get k (snd (Config.environments environ cfg)) =
    (if existsb (String.eqb "env") (Config.sections cfg)
     then dict_get k (dict_of (Config.items cfg environ "env")) else None).
Proof.
  unfold Config.environments.
  destruct (existsb (String.eqb "env") (Config.sections cfg)); simpl.
  - assert (Nd : NoDup (map fst (dict_update [] (dict_of (Config.items cfg environ "env")))))
      by (apply dict_update_nodup; constructor).
    split; [apply dict_update_get; exact Nd|].
    rewrite dict_update_get by (apply dict_update_nodup; constructor).
    destruct (dict_get k _); reflexivity.
  - split; reflexivity.
Qed.

(** ** Config: the first pass *)

Lemma mfold_left_blocked {A B} (P : A -> Prop) (f : A -> B -> result A) (x : B) (l : list B) :
  (forall a b a', f a b = Ok a' -> P a -> P a') ->
  (forall a a', P a -> f a x = Ok a' -> False) ->
  forall a0 a, mfold_left f l a0 = Ok a -> P a0 -> ~ In x l.
Proof.
  intros Hf Hx. induction l as [|b l IH]; simpl; intros a0 a H HP; [tauto|].
  apply bind_ok in H as (a1 & H1 & H). intros [<-|Hin].
  - exact (Hx a0 a1 HP H1).
  - exact (IH a1 a H (Hf a0 b a1 H1 HP) Hin).
Qed.

Lemma prefix_app (p s : string) : String.prefix p s = true -> exists n, s = (p ++ n)%string.
Proof.
  revert s. induction p as [|a p IH]; intros s H.
  - exists s. reflexivity.
  - destruct s as [|b s]; [discriminate H|]. simpl in H.
    destruct (ascii_dec a b) as [<-|]; [|discriminate H].
    destruct (IH s H) as [n ->]. exists n. reflexivity.
Qed.

Lemma watcher_name_split (n : string) :
  nth 1 (py_split1 "watcher:" ("watcher:" ++ n)) "" = n.
Proof.
  destruct n as [|a n]; [reflexivity|].
  unfold py_split1. simpl. unfold drop. simpl.
  f_equal. apply substring_all.
Qed.

(** What one section does to the watcher list and map of the first pass. *)
Lemma first_pass_section_watchers (U : Config.util) (cfg : Config.cfgparser)
  (genv lenv : env_t) (st st' : Config.pass_state) (s : string) :
  Config.first_pass_section U cfg genv lenv st s = Ok st' ->
  if startswith "watcher:" s &&
     negb (Config.empty_section_keys (map fst (Config.section_items cfg genv s)))
  then Config.watchers st' = (Config.watchers st ++ [s])%list /\
       exists w, Config.watchers_map st' = dict_set s w (Config.watchers_map st) /\
                 dict_get "name" w = Some (PStr (nth 1 (py_split1 "watcher:" s) ""))
  else Config.watchers st' = Config.watchers st /\
       Config.watchers_map st' = Config.watchers_map st.
Proof.
  intros H. unfold Config.first_pass_section in H. cbv zeta in H.
  destruct (Config.empty_section_keys (map fst (Config.section_items cfg genv s))) eqn:Ek.
  - injection H as <-. rewrite andb_false_r. split; reflexivity.
  - apply bind_ok in H as (st1 & H1 & H).
    assert (I1 : Config.watchers st1 = Config.watchers st /\
                 Config.watchers_map st1 = Config.watchers_map st).
    { destruct (startswith "socket:" s); [|injection H1 as <-; split; reflexivity].
      apply bind_ok in H1 as (r1 & _ & H1). apply bind_ok in H1 as (r2 & _ & H1).
      injection H1 as <-. split; reflexivity. }
    clear H1. apply bind_ok in H as (st2 & H2 & H).
    assert (I2 : Config.watchers st2 = Config.watchers st /\
                 Config.watchers_map st2 = Config.watchers_map st).
    { destruct (startswith "plugin:" s); [|injection H2 as <-; exact I1].
      apply bind_ok in H2 as (pl & _ & H2). injection H2 as <-. exact I1. }
    clear I1 H2. destruct I2 as [Iw Im].
    rewrite andb_true_r.
    destruct (startswith "watcher:" s); [|injection H as <-; split; assumption].
    apply bind_ok in H as (ce & _ & H). injection H as <-. simpl.
    rewrite Iw, Im. split; [reflexivity|].
    eexists. split; [reflexivity|]. reflexivity.
Qed.

Lemma mfold_first_pass_watchers (U : Config.util) (cfg : Config.cfgparser)
  (genv lenv : env_t) (l : list string) (st0 st : Config.pass_state) :
  mfold_left (Config.first_pass_section U cfg genv lenv) l st0 = Ok st ->
  Config.watchers st =
    (Config.watchers st0 ++
     filter (fun s => startswith "watcher:" s &&
                      negb (Config.empty_section_keys (map fst (Config.section_items cfg genv s)))) l)%list.
Proof.
  revert st0. induction l as [|s l IH]; simpl; intros st0 H.
  - injection H as <-. symmetry. apply app_nil_r.
  - apply bind_ok in H as (st1 & H1 & H). rewrite (IH st1 H).
    apply first_pass_section_watchers in H1.
    destruct (startswith "watcher:" s && _); destruct H1 as [-> _];
      [rewrite <- app_assoc; reflexivity | reflexivity].
Qed.

(** The first pass keeps, in file order, the watcher sections it does not
    skip as empty (no item, or only the parser's [__name__]); the watcher of
    section [watcher:NAME] is named [NAME]. *)
Theorem first_pass_watchers (U : Config.util) (cfg : Config.cfgparser) (genv lenv : env_t)
  (st : Config.pass_state) :
  Config.first_pass U cfg genv lenv = Ok st ->
  Config.watchers st =
    filter (fun s => startswith "watcher:" s &&
                     negb (Config.empty_section_keys (map fst (Config.section_items cfg genv s))))
           (Config.sections cfg) /\
  forall n, In ("watcher:" ++ n) (Config.watchers st) ->
    exists w, dict_get ("watcher:" ++ n) (Config.watchers_map st) = Some w /\
              dict_get "name" w = Some (PStr n).
Proof.
  intros H. split; [exact (mfold_first_pass_watchers U cfg genv lenv _ _ _ H)|].
  enough (G : forall s, In s (Config.watchers st) ->
              exists w, dict_get s (Config.watchers_map st) = Some w /\
                        dict_get "name" w = Some (PStr (nth 1 (py_split1 "watcher:" s) "")))
    by (intros n Hn; destruct (G _ Hn) as (w & Hw & Hname);
        rewrite watcher_name_split in Hname; exists w; split; assumption).
  unfold Config.first_pass in H.
  apply (mfold_left_inv
           (fun st => forall s, In s (Config.watchers st) ->
              exists w, dict_get s (Config.watchers_map st) = Some w /\
                        dict_get "name" w = Some (PStr (nth 1 (py_split1 "watcher:" s) "")))
           (Config.first_pass_section U cfg genv lenv) (Config.sections cfg))
    with (a0 := Config.mkPass [] [] [] []); [|exact H|intros s []].
  intros a b a' _ Ha Ia s Hs. apply first_pass_section_watchers in Ha.
  destruct (startswith "watcher:" b && _).
  - destruct Ha as [Hw (w & Hm & Hname)]. rewrite Hm.
    rewrite Hw in Hs. apply in_app_or in Hs.
    destruct (String.eqb_spec s b) as [->|Ne].
    + exists w. split; [apply dict_get_set_eq | exact Hname].
    + rewrite dict_get_set_neq by (apply String.eqb_neq; exact Ne).
      destruct Hs as [Hs|[<-|[]]]; [exact (Ia s Hs) | contradiction].
  - destruct Ha as [Hw Hm]. rewrite Hm. rewrite Hw in Hs. exact (Ia s Hs).
Qed.

Lemma first_pass_watchers_witness :
  exists st, Config.first_pass linux_util [("watcher:a", [("cmd", "a")]); ("watcher:b", [("__name__", "watcher:b")]); ("socket:s", [("host", "h")])] [] [] = Ok st /\
  Config.watchers st =
    filter (fun s => startswith "watcher:" s &&
                     negb (Config.empty_section_keys
                             (map fst (Config.section_items [("watcher:a", [("cmd", "a")]); ("watcher:b", [("__name__", "watcher:b")]); ("socket:s", [("host", "h")])] [] s))))
           (Config.sections [("watcher:a", [("cmd", "a")]); ("watcher:b", [("__name__", "watcher:b")]); ("socket:s", [("host", "h")])]) /\
  forall n, In ("watcher:" ++ n) (Config.watchers st) ->
    exists w, dict_get ("watcher:" ++ n) (Config.watchers_map st) = Some w /\
              dict_get "name" w = Some (PStr n).
Proof.
  eexists. split; [vm_compute; reflexivity|].
  apply (first_pass_watchers linux_util [("watcher:a", [("cmd", "a")]); ("watcher:b", [("__name__", "watcher:b")]); ("socket:s", [("host", "h")])] [] []).
  vm_compute. reflexivity.
Defined.

Lemma empty_watcher_section_blocks (U : Config.util) (environ : env_t)
  (cfg : Config.cfgparser) (sec : string) (c : dict) :
  startswith "watcher:" sec = true -> In sec (Config.sections cfg) ->
  Config.empty_section_keys
    (map fst (Config.section_items cfg (fst (Config.environments environ cfg)) sec)) = true ->
  Config.get_config U environ cfg <> Ok c.
Proof.
  intros Hw Hin Hr H. apply get_config_stages in H as (g & st0 & st & _ & H0 & H2 & _).
  set (genv := fst (Config.environments environ cfg)) in *.
  set (lenv := snd (Config.environments environ cfg)) in *.
  (* after the first pass, [sec] is neither listed nor mapped *)
  assert (I0 : dict_get sec (Config.watchers_map st0) = None /\
               ~ In sec (Config.watchers st0)).
  { unfold Config.first_pass in H0.
    apply (mfold_left_inv (fun st => dict_get sec (Config.watchers_map st) = None /\
                                     ~ In sec (Config.watchers st))
             (Config.first_pass_section U cfg genv lenv) (Config.sections cfg))
      with (a0 := Config.mkPass [] [] [] []); [|exact H0|split; [reflexivity|intros []]].
    intros a b a' _ Ha [Ia Ja]. apply first_pass_section_watchers in Ha.
    destruct (startswith "watcher:" b &&
              negb (Config.empty_section_keys (map fst (Config.section_items cfg genv b)))) eqn:Eb.
    - destruct Ha as [Hw' (w & Hm & _)]. rewrite Hw', Hm.
      assert (Nb : String.eqb sec b = false).
      { destruct (String.eqb_spec sec b) as [->|]; [|reflexivity].
        fold genv in Hr. rewrite Hr, andb_false_r in Eb. discriminate Eb. }
      split; [rewrite dict_get_set_neq by exact Nb; exact Ia|].
      intros Hs. apply in_app_or in Hs as [Hs|[Hs|[]]]; [exact (Ja Hs)|].
      subst b. rewrite String.eqb_refl in Nb. discriminate Nb.
    - destruct Ha as [Hw' Hm]. rewrite Hw', Hm. split; assumption. }
  destruct I0 as [I0 J0].
  (* sorting and the [env:] sections only update listed watchers *)
  assert (I1 : dict_get sec (Config.watchers_map (Config.env_pass U cfg (Config.sort_lists st0)))
               = None).
  { unfold Config.env_pass. simpl.
    apply (fold_left_inv (fun m => dict_get sec m = None)); [|exact I0].
    intros m s _ Im. destruct (startswith "env:" s); [|exact Im].
    apply (fold_left_inv (fun m => dict_get sec m = None)); [|exact Im].
    intros m' pat _ Im'. unfold Config.env_pattern.
    apply (fold_left_inv (fun m => dict_get sec m = None)); [|exact Im'].
    intros m'' s' Hs' Im''. apply filter_In in Hs' as [Hs' _].
    apply sort_by_field_in in Hs'.
    rewrite dict_get_set_neq; [exact Im''|].
    destruct (String.eqb_spec sec s') as [->|]; [contradiction|reflexivity]. }
  unfold Config.second_pass in H2. apply bind_ok in H2 as (m & Hm & _).
  refine (mfold_left_blocked (fun m => dict_get sec m = None)
            (Config.second_pass_section U cfg genv) sec (Config.sections cfg)
            _ _ _ _ Hm I1 Hin).
  - intros a b a' Ha Ia. unfold Config.second_pass_section in Ha.
    destruct (startswith "watcher:" b); [|injection Ha as <-; exact Ia].
    destruct (dict_get b a) as [w|] eqn:Eb; [|discriminate Ha].
    apply bind_ok in Ha as (w' & _ & Ha). injection Ha as <-.
    rewrite dict_get_set_neq; [exact Ia|].
    destruct (String.eqb_spec sec b) as [->|]; [congruence|reflexivity].
  - intros a a' Ia Ha. unfold Config.second_pass_section in Ha.
    rewrite Hw, Ia in Ha. discriminate Ha.
Qed.

(** A [watcher:] section the first pass skips as empty (no item, or only the
    parser's [__name__]) makes [get_config] fail: the second pass finds no
    watcher for it. *)
Theorem get_config_empty_watcher_section (U : Config.util) (environ : env_t)
  (cfg : Config.cfgparser) (sec : string) (c : dict) :
  startswith "watcher:" sec = true -> In sec (Config.sections cfg) ->
  Config.empty_section_keys
    (map fst (Config.section_items cfg (fst (Config.environments environ cfg)) sec)) = true ->
  Config.get_config U environ cfg <> Ok c.
Proof.
  exact (empty_watcher_section_blocks U environ cfg sec c).
Qed.

Lemma get_config_empty_watcher_section_witness :
  startswith "watcher:" "watcher:w" = true /\
  In "watcher:w" (Config.sections [("circus", [("debug", "1")]); ("watcher:w", [("__name__", "watcher:w")])]) /\
  Config.empty_section_keys
    (map fst (Config.section_items [("circus", [("debug", "1")]); ("watcher:w", [("__name__", "watcher:w")])] (fst (Config.environments [] [("circus", [("debug", "1")]); ("watcher:w", [("__name__", "watcher:w")])])) "watcher:w")) = true /\
  forall c, Config.get_config linux_util [] [("circus", [("debug", "1")]); ("watcher:w", [("__name__", "watcher:w")])] <> Ok c.
Proof.
  split; [reflexivity|]. split; [simpl; tauto|]. split; [vm_compute; reflexivity|].
  intros c. apply (get_config_empty_watcher_section linux_util [] [("circus", [("debug", "1")]); ("watcher:w", [("__name__", "watcher:w")])] "watcher:w" c).
  - reflexivity.
  - simpl. tauto.
  - vm_compute. reflexivity.
Defined.

Lemma ok_inj {A} (a b : A) : Ok a = Ok b -> a = b.
Proof. intros H. injection H. auto. Qed.

Lemma first_pass_section_lists (U : Config.util) (cfg : Config.cfgparser)
  (genv lenv : env_t) (st st' : Config.pass_state) (s : string) :
  Config.first_pass_section U cfg genv lenv st s = Ok st' ->
  (Config.plugins st' = Config.plugins st \/
   exists p, Config.plugins st' = (Config.plugins st ++ [p])%list /\
             startswith "plugin:" s = true /\
             dict_get "name" p = Some (PStr s) /\
             (dict_get "priority" p = None \/ exists z, dict_get "priority" p = Some (PInt z))) /\
  length (Config.sockets st') =
    (length (Config.sockets st) +
     if startswith "socket:" s &&
        negb (Config.empty_section_keys (map fst (Config.section_items cfg genv s))) then 1 else 0)%nat /\
  (forall x, In x (Config.sockets st') -> In x (Config.sockets st) \/
     exists b1 b2, dict_get "so_reuseport" x = Some (PBool b1) /\
                   dict_get "replace" x = Some (PBool b2)).
Proof.
  intros H. unfold Config.first_pass_section in H. cbv zeta in H.
  destruct (Config.empty_section_keys (map fst (Config.section_items cfg genv s))) eqn:Ek.
  - injection H as <-.
    rewrite andb_false_r, Nat.add_0_r. split; [left; reflexivity|].
    split; [reflexivity | intros x Hx; left; exact Hx].
  - apply bind_ok in H as (st1 & H1 & H).
    assert (I1 : Config.plugins st1 = Config.plugins st /\
                 length (Config.sockets st1) =
                   (length (Config.sockets st) + if startswith "socket:" s then 1 else 0)%nat /\
                 (forall x, In x (Config.sockets st1) -> In x (Config.sockets st) \/
                    exists b1 b2, dict_get "so_reuseport" x = Some (PBool b1) /\
                                  dict_get "replace" x = Some (PBool b2))).
    { destruct (startswith "socket:" s).
      - apply bind_ok in H1 as (r1 & Hr1 & H1). apply bind_ok in H1 as (r2 & Hr2 & H1).
        injection H1 as <-. simpl. rewrite length_app. split; [reflexivity|].
        split; [reflexivity|]. intros x Hx. apply in_app_or in Hx as [Hx|[<-|[]]];
          [left; exact Hx|right].
        destruct (dget_bool U cfg genv s "so_reuseport" false r1 Hr1) as [b1 ->].
        destruct (dget_bool U cfg genv s "replace" false r2 Hr2) as [b2 ->].
        exists b1, b2. rewrite dict_get_set_neq by reflexivity.
        split; apply dict_get_set_eq.
      - injection H1 as <-. rewrite Nat.add_0_r.
        split; [reflexivity|]. split; [reflexivity | intros x Hx; left; exact Hx]. }
    clear H1. destruct I1 as (P1 & L1 & S1).
    apply bind_ok in H as (st2 & H2 & H).
    assert (I2 : Config.sockets st2 = Config.sockets st1 /\
                 (Config.plugins st2 = Config.plugins st1 \/
                  exists p, Config.plugins st2 = (Config.plugins st1 ++ [p])%list /\
                    startswith "plugin:" s = true /\
                    dict_get "name" p = Some (PStr s) /\
                    (dict_get "priority" p = None \/
                     exists z, dict_get "priority" p = Some (PInt z)))).
    { destruct (startswith "plugin:" s) eqn:Ep; [|injection H2 as <-; split; [reflexivity|left; reflexivity]].
      apply bind_ok in H2 as (pl & Hpl & H2). injection H2 as <-. simpl.
      split; [reflexivity|]. right. exists pl. split; [reflexivity|]. split; [reflexivity|].
      destruct (dict_get "priority" (dict_set "name" (PStr s) (Config.section_items cfg genv s)))
        as [pv|] eqn:Epr.
      - destruct pv; try discriminate Hpl.
        apply bind_ok in Hpl as (z & _ & Hpl). apply ok_inj in Hpl. subst pl.
        rewrite dict_get_set_neq by reflexivity. split; [apply dict_get_set_eq|].
        right. exists z. apply dict_get_set_eq.
      - apply ok_inj in Hpl. subst pl. split; [apply dict_get_set_eq | left; exact Epr]. }
    clear H2. destruct I2 as (S2 & P2).
    assert (I3 : Config.sockets st' = Config.sockets st2 /\ Config.plugins st' = Config.plugins st2).
    { destruct (startswith "watcher:" s); [|injection H as <-; split; reflexivity].
      apply bind_ok in H as (ce & _ & H). injection H as <-. split; reflexivity. }
    destruct I3 as [-> ->]. rewrite S2. cbn [negb]. rewrite andb_true_r. split; [|split].
    + rewrite <- P1. exact P2.
    + rewrite L1. destruct (startswith "socket:" s); reflexivity.
    + exact S1.
Qed.

(** The plugins and sockets of the first pass: one socket dict for each
    [socket:] section not skipped as empty (no item, or only [__name__]), each with boolean [so_reuseport] and
    [replace]; every plugin dict is named by its whole section name,
    [plugin:] included, and its [priority], when given, has been converted
    to an integer. *)
Theorem first_pass_plugins_sockets (U : Config.util) (cfg : Config.cfgparser)
  (genv lenv : env_t) (st : Config.pass_state) :
  Config.first_pass U cfg genv lenv = Ok st ->
  (forall p, In p (Config.plugins st) ->
     exists sec, startswith "plugin:" sec = true /\ In sec (Config.sections cfg) /\
       dict_get "name" p = Some (PStr sec) /\
       (dict_get "priority" p = None \/ exists z, dict_get "priority" p = Some (PInt z))) /\
  length (Config.sockets st) =
    length (filter (fun s => startswith "socket:" s &&
                             negb (Config.empty_section_keys (map fst (Config.section_items cfg genv s))))
                   (Config.sections cfg)) /\
  (forall x, In x (Config.sockets st) ->
     exists b1 b2, dict_get "so_reuseport" x = Some (PBool b1) /\
                   dict_get "replace" x = Some (PBool b2)).
Proof.
  unfold Config.first_pass. intros H.
  assert (G : forall l st0,
    mfold_left (Config.first_pass_section U cfg genv lenv) l st0 = Ok st ->
    (forall p, In p (Config.plugins st) -> In p (Config.plugins st0) \/
       exists sec, startswith "plugin:" sec = true /\ In sec l /\
         dict_get "name" p = Some (PStr sec) /\
         (dict_get "priority" p = None \/ exists z, dict_get "priority" p = Some (PInt z))) /\
    length (Config.sockets st) =
      (length (Config.sockets st0) +
       length (filter (fun s => startswith "socket:" s &&
                                negb (Config.empty_section_keys (map fst (Config.section_items cfg genv s)))) l))%nat /\
    (forall x, In x (Config.sockets st) -> In x (Config.sockets st0) \/
       exists b1 b2, dict_get "so_reuseport" x = Some (PBool b1) /\
                     dict_get "replace" x = Some (PBool b2))).
  { induction l as [|s l IH]; simpl; intros st0 Hl.
    - injection Hl as <-. rewrite Nat.add_0_r.
      split; [intros p Hp; left; exact Hp|]. split; [reflexivity|intros x Hx; left; exact Hx].
    - apply bind_ok in Hl as (st1 & H1 & Hl).
      destruct (IH st1 Hl) as (Ip & Ls & Is).
      apply first_pass_section_lists in H1 as (Pp & L1 & S1). split; [|split].
      + intros p Hp. destruct (Ip p Hp) as [Hp1|(sec & Hsec & Hin & Hn & Hpr)].
        * destruct Pp as [E|(q & E & Hq & Hqn & Hqp)]; rewrite E in Hp1; [left; exact Hp1|].
          apply in_app_or in Hp1 as [Hp1|[<-|[]]]; [left; exact Hp1|].
          right. exists s. split; [exact Hq|]. split; [left; reflexivity|]. split; assumption.
        * right. exists sec. split; [exact Hsec|]. split; [right; exact Hin|]. split; assumption.
      + rewrite Ls, L1. destruct (startswith "socket:" s && _); simpl; lia.
      + intros x Hx. destruct (Is x Hx) as [Hx1|Hb]; [|right; exact Hb].
        exact (S1 x Hx1). }
  destruct (G _ _ H) as (Ip & Ls & Is). split; [|split].
  - intros p Hp. destruct (Ip p Hp) as [[]|Hq]. exact Hq.
  - exact Ls.
  - intros x Hx. destruct (Is x Hx) as [[]|Hb]. exact Hb.
Qed.

Lemma first_pass_plugins_sockets_witness :
  exists st, Config.first_pass linux_util
    [("plugin:flapping", [("use", "circus.plugins.flapping.Flapping"); ("priority", "3")]);
     ("socket:web", [("host", "127.0.0.1"); ("port", "8888")]);
     ("socket:none", [("__name__", "socket:none")])] [] [] = Ok st /\
  (forall p, In p (Config.plugins st) ->
     exists sec, startswith "plugin:" sec = true /\
       In sec (Config.sections
    [("plugin:flapping", [("use", "circus.plugins.flapping.Flapping"); ("priority", "3")]);
     ("socket:web", [("host", "127.0.0.1"); ("port", "8888")]);
     ("socket:none", [("__name__", "socket:none")])]) /\
       dict_get "name" p = Some (PStr sec) /\
       (dict_get "priority" p = None \/ exists z, dict_get "priority" p = Some (PInt z))) /\
  length (Config.sockets st) =
    length (filter (fun s => startswith "socket:" s &&
                             negb (Config.empty_section_keys (map fst (Config.section_items
    [("plugin:flapping", [("use", "circus.plugins.flapping.Flapping"); ("priority", "3")]);
     ("socket:web", [("host", "127.0.0.1"); ("port", "8888")]);
     ("socket:none", [("__name__", "socket:none")])] [] s))))
                   (Config.sections
    [("plugin:flapping", [("use", "circus.plugins.flapping.Flapping"); ("priority", "3")]);
     ("socket:web", [("host", "127.0.0.1"); ("port", "8888")]);
     ("socket:none", [("__name__", "socket:none")])])) /\
  (forall x, In x (Config.sockets st) ->
     exists b1 b2, dict_get "so_reuseport" x = Some (PBool b1) /\
                   dict_get "replace" x = Some (PBool b2)).
Proof.
  eexists. split; [vm_compute; reflexivity|].
  apply (first_pass_plugins_sockets linux_util
    [("plugin:flapping", [("use", "circus.plugins.flapping.Flapping"); ("priority", "3")]);
     ("socket:web", [("host", "127.0.0.1"); ("port", "8888")]);
     ("socket:none", [("__name__", "socket:none")])] [] []).
  vm_compute. reflexivity.
Defined.

(** ** Config: the second pass and the watcher dicts *)

(** Runs the branches of a [... = Ok w'] hypothesis down to its results. *)
Ltac reduce_branches H :=
  repeat (first
    [ injection H as <-
    | discriminate H
    | apply put_inv in H as (? & ? & ->)
    | apply bind_ok in H as (? & ? & H); cbv beta in H
    | match type of H with
      | context [match ?x with Some _ => _ | None => _ end] => destruct x eqn:?
      | context [match ?x with PNone => _ | PBool _ => _ | PInt _ => _ | PFloat _ => _
                 | PStr _ => _ | PList _ => _ | PDict _ => _ end] => destruct x eqn:?
      | context [match ?x with [] => _ | _ :: _ => _ end] => destruct x eqn:?
      | context [if ?b then _ else _] =>
          lazymatch b with true => fail | false => fail | _ => destruct b eqn:? end
      end; cbv beta iota in H
    | progress simpl in H ]).

(** [use_papa]: a true value sets the watcher's [use_papa] to [True] when
    papa can be imported and leaves the watcher unchanged otherwise; a false
    value falls through to the free-form options and is stored as the option
    string. *)
Theorem apply_opt_use_papa (U : Config.util) (env : env_t) (w : dict) (raw : string) :
  Config.apply_opt U env w ("use_papa", raw) =
  match Config.to_bool U (replace_gnu_args raw env) with
  | Some true => Ok (if Config.papa_present U then dict_set "use_papa" (PBool true) w else w)
  | Some false => Ok (dict_set "use_papa" (PStr (replace_gnu_args raw env)) w)
  | None => Err (ValueError "not a boolean")
  end.
Proof.
  cbv beta iota zeta delta [Config.apply_opt].
  generalize (replace_gnu_args raw env) as val. intros val. simpl.
  destruct (Config.to_bool U val) as [[|]|]; unfold bind; simpl;
    try destruct (Config.papa_present U); reflexivity.
Qed.

(** [stderr_stream.OPT] and [stdout_stream.OPT] set the entry [OPT] (split at
    the first dot only) of the watcher's stream dict; the bare option name,
    without a dot, raises [ValueError]. *)
Theorem apply_opt_stream (U : Config.util) (env : env_t) (w : dict) (raw name o : string) :
  In name ["stderr_stream"; "stdout_stream"] ->
  Config.apply_opt U env w ((name ++ "." ++ o)%string, raw) =
    match dict_get name w with
    | Some (PDict d) =>
        Ok (dict_set name (PDict (dict_set o (PStr (replace_gnu_args raw env)) d)) w)
    | Some _ => Err TypeError
    | None => Err (KeyError name)
    end /\
  Config.apply_opt U env w (name, raw) = Err (ValueError "not enough values to unpack").
Proof.
  intros Hn. cbv beta iota zeta delta [Config.apply_opt].
  generalize (replace_gnu_args raw env) as val. intros val.
  simpl in Hn. destruct Hn as [<-|[<-|[]]];
    (split; [destruct o as [|a o]; simpl; unfold drop; simpl;
             rewrite ?substring_all; reflexivity | reflexivity]).
Qed.

Lemma apply_opt_stream_witness :
  In "stdout_stream" ["stderr_stream"; "stdout_stream"] /\
  Config.apply_opt linux_util [] Config.watcher_defaults ("stdout_stream.class", "FileStream") =
    match dict_get "stdout_stream" Config.watcher_defaults with
    | Some (PDict d) =>
        Ok (dict_set "stdout_stream" (PDict (dict_set "class" (PStr (replace_gnu_args "FileStream" [])) d))
              Config.watcher_defaults)
    | Some _ => Err TypeError
    | None => Err (KeyError "stdout_stream")
    end /\
  Config.apply_opt linux_util [] Config.watcher_defaults ("stdout_stream", "FileStream") =
    Err (ValueError "not enough values to unpack").
Proof.
  split; [simpl; tauto|].
  apply (apply_opt_stream linux_util [] Config.watcher_defaults "FileStream" "stdout_stream" "class").
  simpl. tauto.
Defined.

(** [hooks.NAME = target[, flag]]: the hook [NAME] is set to the stripped
    text before the first comma and the flag after it read as a boolean, the
    flag being [False] when the value has no comma. *)
Theorem apply_opt_hook (U : Config.util) (env : env_t) (w d : dict) (raw n : string) :
  dict_get "hooks" w = Some (PDict d) ->
  let val := replace_gnu_args raw env in
  (String.index 0 "," val = None ->
   Config.apply_opt U env w (("hooks." ++ n)%string, raw) =
   Ok (dict_set "hooks" (PDict (dict_set n (PList [PStr (strip val); PBool false]) d)) w)) /\
  (forall i, String.index 0 "," val = Some i ->
   Config.apply_opt U env w (("hooks." ++ n)%string, raw) =
   match Config.to_bool U (strip (drop (i + 1) val)) with
   | Some b => Ok (dict_set "hooks"
                     (PDict (dict_set n (PList [PStr (strip (substring 0 i val)); PBool b]) d)) w)
   | None => Err (ValueError "not a boolean")
   end).
Proof.
  intros Hh. cbv zeta. cbv beta iota zeta delta [Config.apply_opt].
  generalize (replace_gnu_args raw env) as val. intros val.
  assert (Hd : drop 6 ("hooks." ++ n) = n).
  { unfold drop. simpl. rewrite Nat.sub_0_r. apply substring_all. }
  rewrite Hd.
  destruct n as [|a n]; simpl;
    (split; [intros Hi | intros i Hi]); unfold py_split1; simpl; rewrite Hi; simpl;
    rewrite Hh; try reflexivity;
    unfold bind; destruct (Config.to_bool U _); reflexivity.
Qed.

Lemma apply_opt_hook_witness :
  dict_get "hooks" Config.watcher_defaults = Some (PDict []) /\
  let val := replace_gnu_args "mymodule.check, true" [] in
  (String.index 0 "," val = None ->
   Config.apply_opt linux_util [] Config.watcher_defaults ("hooks.before_start", "mymodule.check, true") =
   Ok (dict_set "hooks" (PDict (dict_set "before_start" (PList [PStr (strip val); PBool false]) []))
         Config.watcher_defaults)) /\
  (forall i, String.index 0 "," val = Some i ->
   Config.apply_opt linux_util [] Config.watcher_defaults ("hooks.before_start", "mymodule.check, true") =
   match Config.to_bool linux_util (strip (drop (i + 1) val)) with
   | Some b => Ok (dict_set "hooks"
                     (PDict (dict_set "before_start"
                               (PList [PStr (strip (substring 0 i val)); PBool b]) []))
                     Config.watcher_defaults)
   | None => Err (ValueError "not a boolean")
   end).
Proof.
  split; [reflexivity|].
  exact (apply_opt_hook linux_util [] Config.watcher_defaults [] "mymodule.check, true"
           "before_start" eq_refl).
Defined.

Section WatcherInv.

(** A property [P] of watcher dicts that the fresh watcher of the first pass
    has and that [watcher['env'].update] and every option of the second pass
    keep. *)
Variable U : Config.util.
Variable P : dict -> Prop.
Hypothesis P_first : forall name b e,
  P (dict_set "env" e (dict_set "copy_env" (PBool b)
       (dict_set "name" (PStr name) Config.watcher_defaults))).
Hypothesis P_env : forall items w, P w -> P (Config.update_env items w).
Hypothesis P_opt : forall env w w' o, Config.apply_opt U env w o = Ok w' -> P w -> P w'.

Local Abbreviation holds ws m :=
  ((forall s, In s ws -> dict_get s m <> None) /\
   (forall s w, dict_get s m = Some w -> P w)).

Lemma holds_set (ws ws' : list string) (m : list (string * dict)) (s : string) (X : dict) :
  holds ws m -> P X -> (forall s', In s' ws' -> s' = s \/ In s' ws) ->
  holds ws' (dict_set s X m).
Proof.
  intros [I J] HX Hws. split.
  - intros s' Hs'. destruct (String.eqb_spec s' s) as [->|Ne].
    + rewrite dict_get_set_eq. discriminate.
    + rewrite dict_get_set_neq by (apply String.eqb_neq; exact Ne).
      destruct (Hws s' Hs') as [E|Hin]; [contradiction | exact (I s' Hin)].
  - intros s' w. destruct (String.eqb_spec s' s) as [->|Ne].
    + rewrite dict_get_set_eq. intros E. injection E as <-. exact HX.
    + rewrite dict_get_set_neq by (apply String.eqb_neq; exact Ne). apply J.
Qed.

Lemma first_pass_holds (cfg : Config.cfgparser) (genv lenv : env_t) (st : Config.pass_state) :
  Config.first_pass U cfg genv lenv = Ok st -> holds (Config.watchers st) (Config.watchers_map st).
Proof.
  unfold Config.first_pass. intros H.
  apply (mfold_left_inv (fun st => holds (Config.watchers st) (Config.watchers_map st))
           (Config.first_pass_section U cfg genv lenv) (Config.sections cfg))
    with (a0 := Config.mkPass [] [] [] []);
    [|exact H|split; [intros s []|intros s w E; discriminate E]].
  intros a sec a' _ Ha I. unfold Config.first_pass_section in Ha.
  destruct (Config.empty_section_keys _); [injection Ha as <-; exact I|].
  apply bind_ok in Ha as (st1 & H1 & Ha).
  assert (I1 : holds (Config.watchers st1) (Config.watchers_map st1)).
  { destruct (startswith "socket:" sec); [|injection H1 as <-; exact I].
    apply bind_ok in H1 as (r1 & _ & H1). apply bind_ok in H1 as (r2 & _ & H1).
    injection H1 as <-. exact I. }
  clear I H1. apply bind_ok in Ha as (st2 & H2 & Ha).
  assert (I2 : holds (Config.watchers st2) (Config.watchers_map st2)).
  { destruct (startswith "plugin:" sec); [|injection H2 as <-; exact I1].
    apply bind_ok in H2 as (pl & _ & H2). injection H2 as <-. exact I1. }
  clear I1 H2. destruct (startswith "watcher:" sec); [|injection Ha as <-; exact I2].
  apply bind_ok in Ha as (ce & Hce & Ha). injection Ha as <-. simpl.
  destruct (dget_bool U cfg genv sec "copy_env" false ce Hce) as [b ->].
  apply (holds_set (Config.watchers st2)); [exact I2 | apply P_first|].
  intros s' Hs'. apply in_app_or in Hs' as [Hs'|[<-|[]]]; [right; exact Hs' | left; reflexivity].
Qed.

Lemma sort_lists_holds (st : Config.pass_state) :
  holds (Config.watchers st) (Config.watchers_map st) ->
  holds (Config.watchers (Config.sort_lists st)) (Config.watchers_map (Config.sort_lists st)).
Proof.
  intros [I J]. split; [|exact J].
  intros s Hs. simpl in Hs. apply sort_by_field_in in Hs. exact (I s Hs).
Qed.

Lemma env_pass_holds (cfg : Config.cfgparser) (st : Config.pass_state) :
  holds (Config.watchers st) (Config.watchers_map st) ->
  holds (Config.watchers (Config.env_pass U cfg st))
        (Config.watchers_map (Config.env_pass U cfg st)).
Proof.
  intros I. unfold Config.env_pass. simpl.
  apply (fold_left_inv (fun m => holds (Config.watchers st) m)); [|exact I].
  intros m sec _ Im. destruct (startswith "env:" sec); [|exact Im].
  apply (fold_left_inv (fun m => holds (Config.watchers st) m)); [|exact Im].
  intros m' pat _ Im'. unfold Config.env_pattern.
  apply (fold_left_inv (fun m => holds (Config.watchers st) m)); [|exact Im'].
  intros m'' s Hs Im''. apply filter_In in Hs as [Hs _].
  destruct Im'' as [I'' J''].
  apply (holds_set (Config.watchers st)); [split; assumption| |intros s' Hs'; right; exact Hs'].
  unfold Config.watcher_in. destruct (dict_get s m'') as [w|] eqn:Hw.
  - apply P_env. exact (J'' s w Hw).
  - destruct (I'' s Hs Hw).
Qed.

Lemma second_pass_holds (cfg : Config.cfgparser) (genv : env_t) (st st' : Config.pass_state) :
  Config.second_pass U cfg genv st = Ok st' ->
  holds (Config.watchers st) (Config.watchers_map st) ->
  holds (Config.watchers st') (Config.watchers_map st').
Proof.
  intros H I. unfold Config.second_pass in H.
  apply bind_ok in H as (m & Hm & H). injection H as <-. simpl.
  apply (mfold_left_inv (fun m => holds (Config.watchers st) m)
           (Config.second_pass_section U cfg genv) (Config.sections cfg))
    with (a0 := Config.watchers_map st); [|exact Hm|exact I].
  intros a sec a' _ Ha [Ia Ja]. unfold Config.second_pass_section in Ha.
  destruct (startswith "watcher:" sec); [|injection Ha as <-; split; assumption].
  destruct (dict_get sec a) as [watcher|] eqn:Ea; [|discriminate Ha].
  apply bind_ok in Ha as (watcher' & Hw' & Ha). injection Ha as <-.
  apply (holds_set (Config.watchers st));
    [split; assumption| |intros s' Hs'; right; exact Hs'].
  apply (mfold_left_inv P (Config.apply_opt U (dict_update (dict_of genv)
                                                 (Config.env_of (dict_get "env" watcher))))
                        (Config.raw_items cfg sec))
    with (a0 := watcher); [|exact Hw'|exact (Ja sec watcher Ea)].
  intros w o w' _ Ho Pw. exact (P_opt _ w w' o Ho Pw).
Qed.

Lemma get_config_watchers_hold (environ : env_t) (cfg : Config.cfgparser) (c : dict) :
  Config.get_config U environ cfg = Ok c ->
  exists ws, dict_get "watchers" c = Some (PList ws) /\
             forall x, In x ws -> exists w, x = PDict w /\ P w.
Proof.
  intros H. apply get_config_stages in H as (g & st0 & st & _ & H0 & H2 & ->).
  eexists. split.
  - rewrite !dict_get_set_neq by reflexivity. apply dict_get_set_eq.
  - intros x Hx. apply in_map_iff in Hx as (sec & <- & Hsec).
    destruct (second_pass_holds cfg _ _ _ H2
                (env_pass_holds cfg _ (sort_lists_holds _ (first_pass_holds cfg _ _ _ H0))))
      as [I J].
    unfold Config.watcher_in. destruct (dict_get sec (Config.watchers_map st)) as [w|] eqn:Hw.
    + exists w. split; [reflexivity | exact (J sec w Hw)].
    + destruct (I sec Hsec Hw).
Qed.

End WatcherInv.

Lemma apply_opt_other (U : Config.util) (Q : pyval -> Prop) (env : env_t) (w w' : dict)
  (opt raw k : string) :
  Config.in_list k ["rlimits"; "use_papa"; "hooks"] = false ->
  (forall d, ~ Q (PDict d)) ->
  Config.apply_opt U env w (opt, raw) = Ok w' ->
  String.eqb k opt = false ->
  forall v, dict_get k w = Some v -> Q v -> exists v', dict_get k w' = Some v' /\ Q v'.
Proof.
  intros Hk HQ H Hko v Hw Qv. unfold Config.in_list in Hk. simpl in Hk.
  repeat (apply Bool.orb_false_elim in Hk as [?Hn Hk]).
  unfold Config.apply_opt in H.
  repeat (match type of H with
          | context [if ?b then _ else _] =>
              lazymatch b with true => fail | false => fail | _ =>
                let E := fresh "E" in destruct b eqn:E end
          end; cbv beta iota in H).
  all: repeat match goal with E : String.eqb ?o _ = true |- _ =>
                is_var o; apply String.eqb_eq in E; subst o end.
  all: reduce_branches H.
  all: repeat (rewrite dict_get_set_neq by assumption).
  all: try (exists v; split; assumption).
  match goal with
  | Hs : dict_get ?s w = Some (PDict ?d) |- exists v', dict_get k (dict_set ?s _ _) = _ /\ _ =>
      destruct (String.eqb k s) eqn:Eks;
      [ apply String.eqb_eq in Eks; subst s; rewrite Hw in Hs;
        injection Hs as ->; destruct (HQ d Qv)
      | rewrite dict_get_set_neq by exact Eks; exists v; split; assumption ]
  end.
Qed.

Lemma dget_int_value (U : Config.util) (val : string) (x : pyval) :
  Config._dget U val Config.TInt = Ok x -> exists z, x = PInt z.
Proof.
  unfold Config._dget. intros H. apply bind_ok in H as (z & _ & H). injection H as <-. eauto.
Qed.

Lemma dget_bool_value (U : Config.util) (val : string) (x : pyval) :
  Config._dget U val Config.TBool = Ok x -> exists b, x = PBool b.
Proof.
  unfold Config._dget. destruct (Config.to_bool U val); [|discriminate].
  intros H. injection H as <-. eauto.
Qed.

Lemma apply_opt_int_key (U : Config.util) (env : env_t) (w w' : dict) (k raw : string) :
  In k ["numprocesses"; "warmup_delay"; "stop_signal"; "max_retry"; "graceful_timeout";
        "priority"] ->
  Config.apply_opt U env w (k, raw) = Ok w' -> exists z, dict_get k w' = Some (PInt z).
Proof.
  intros Hk H. cbv beta iota zeta delta [Config.apply_opt] in H. revert H.
  generalize (replace_gnu_args raw env) as val. intros val H.
  simpl in Hk. repeat destruct Hk as [<-|Hk]; try destruct Hk; simpl in H.
  3: destruct (Config.to_signum U val) as [z|]; [|discriminate H];
       injection H as <-; exists z; apply dict_get_set_eq.
  all: apply put_inv in H as (x & Hx & ->); apply bind_ok in Hx as (z & _ & Hx);
       injection Hx as <-; exists z; apply dict_get_set_eq.
Qed.

Lemma apply_opt_bool_key (U : Config.util) (env : env_t) (w w' : dict) (k raw : string) :
  In k ["shell"; "send_hup"; "stop_children"; "use_sockets"; "singleton"; "copy_env";
        "copy_path"; "respawn"; "autostart"] ->
  Config.apply_opt U env w (k, raw) = Ok w' -> exists b, dict_get k w' = Some (PBool b).
Proof.
  intros Hk H. cbv beta iota zeta delta [Config.apply_opt] in H. revert H.
  generalize (replace_gnu_args raw env) as val. intros val H.
  simpl in Hk. repeat destruct Hk as [<-|Hk]; try destruct Hk; simpl in H.
  all: unfold bind in H; simpl in H.
  all: apply put_inv in H as (x & Hx & ->);
       destruct (Config.to_bool U val) as [b|]; [injection Hx as <- | discriminate Hx];
       exists b; apply dict_get_set_eq.
Qed.

Lemma update_env_other (items : env_t) (w : dict) (k : string) :
  String.eqb k "env" = false -> dict_get k (Config.update_env items w) = dict_get k w.
Proof.
  intros Hk. unfold Config.update_env.
  destruct (dict_get "env" w) as [[]|]; try reflexivity.
  apply dict_get_set_neq. exact Hk.
Qed.

(** The value types of a snapshot's watchers: whatever the configuration,
    [numprocesses], [warmup_delay], [stop_signal], [max_retry],
    [graceful_timeout] and [priority] are integers and [shell], [send_hup],
    [stop_children], [use_sockets], [singleton], [copy_env], [copy_path],
    [respawn] and [autostart] are booleans in every watcher of the
    [watchers] list. *)
Theorem get_config_watcher_types (U : Config.util) (environ : env_t) (cfg : Config.cfgparser)
  (c : dict) :
  Config.get_config U environ cfg = Ok c ->
  exists ws, dict_get "watchers" c = Some (PList ws) /\
    forall x, In x ws -> exists w, x = PDict w /\
      (forall k, In k ["numprocesses"; "warmup_delay"; "stop_signal"; "max_retry";
                       "graceful_timeout"; "priority"] ->
                 exists z, dict_get k w = Some (PInt z)) /\
      (forall k, In k ["shell"; "send_hup"; "stop_children"; "use_sockets"; "singleton";
                       "copy_env"; "copy_path"; "respawn"; "autostart"] ->
                 exists b, dict_get k w = Some (PBool b)).
Proof.
  apply get_config_watchers_hold.
  - intros name b e. split; intros k Hk; simpl in Hk;
      repeat destruct Hk as [<-|Hk]; try destruct Hk; simpl; eexists; reflexivity.
  - intros items w [Pi Pb]. split.
    + intros k Hk. rewrite update_env_other; [exact (Pi k Hk)|].
      simpl in Hk. repeat destruct Hk as [<-|Hk]; try destruct Hk; reflexivity.
    + intros k Hk. rewrite update_env_other; [exact (Pb k Hk)|].
      simpl in Hk. repeat destruct Hk as [<-|Hk]; try destruct Hk; reflexivity.
  - intros env w w' [o raw] H [Pi Pb]. split.
    + intros k Hk. destruct (String.eqb k o) eqn:E.
      * apply String.eqb_eq in E. subst o. exact (apply_opt_int_key U env w w' k raw Hk H).
      * destruct (Pi k Hk) as [z Hz].
        destruct (apply_opt_other U (fun v => exists z, v = PInt z) env w w' o raw k)
          with (v := PInt z) as (v' & Hv' & [z' ->]); eauto.
        -- simpl in Hk. repeat destruct Hk as [<-|Hk]; try destruct Hk; reflexivity.
        -- intros d [z' E']. discriminate E'.
    + intros k Hk. destruct (String.eqb k o) eqn:E.
      * apply String.eqb_eq in E. subst o. exact (apply_opt_bool_key U env w w' k raw Hk H).
      * destruct (Pb k Hk) as [b Hb].
        destruct (apply_opt_other U (fun v => exists b, v = PBool b) env w w' o raw k)
          with (v := PBool b) as (v' & Hv' & [b' ->]); eauto.
        -- simpl in Hk. repeat destruct Hk as [<-|Hk]; try destruct Hk; reflexivity.
        -- intros d [b' E']. discriminate E'.
Qed.

Lemma get_config_watcher_types_witness :
  exists c, Config.get_config linux_util [] [("circus", [("debug", "1")]); ("watcher:web", [("cmd", "python"); ("numprocesses", "2"); ("shell", "true")])] = Ok c /\
  exists ws, dict_get "watchers" c = Some (PList ws) /\
    forall x, In x ws -> exists w, x = PDict w /\
      (forall k, In k ["numprocesses"; "warmup_delay"; "stop_signal"; "max_retry";
                       "graceful_timeout"; "priority"] ->
                 exists z, dict_get k w = Some (PInt z)) /\
      (forall k, In k ["shell"; "send_hup"; "stop_children"; "use_sockets"; "singleton";
                       "copy_env"; "copy_path"; "respawn"; "autostart"] ->
                 exists b, dict_get k w = Some (PBool b)).
Proof.
  eexists. split; [vm_compute; reflexivity|].
  apply (get_config_watcher_types linux_util [] [("circus", [("debug", "1")]); ("watcher:web", [("cmd", "python"); ("numprocesses", "2"); ("shell", "true")])]).
  vm_compute. reflexivity.
Defined.

Lemma apply_opt_mem (U : Config.util) (env : env_t) (w w' : dict) (opt raw k : string) :
  Config.apply_opt U env w (opt, raw) = Ok w' -> dict_mem k w = true -> dict_mem k w' = true.
Proof.
  intros H Hw. unfold Config.apply_opt in H.
  repeat (match type of H with
          | context [if ?b then _ else _] =>
              lazymatch b with true => fail | false => fail | _ =>
                let E := fresh "E" in destruct b eqn:E end
          end; cbv beta iota in H).
  all: reduce_branches H.
  all: try exact Hw.
  all: apply dict_mem_set; exact Hw.
Qed.

(** The options of a snapshot's watchers: every watcher of the [watchers]
    list has [env] and all the keys of [watcher_defaults()]; the second pass
    adds or overwrites options but never removes one. *)
Theorem get_config_watcher_keys (U : Config.util) (environ : env_t) (cfg : Config.cfgparser)
  (c : dict) :
  Config.get_config U environ cfg = Ok c ->
  exists ws, dict_get "watchers" c = Some (PList ws) /\
    forall x, In x ws -> exists w, x = PDict w /\
      forall k, In k ("env" :: map fst Config.watcher_defaults) -> dict_mem k w = true.
Proof.
  apply get_config_watchers_hold.
  - intros name b e k Hk. simpl in Hk.
    repeat destruct Hk as [<-|Hk]; try destruct Hk; reflexivity.
  - intros items w Pw k Hk. unfold Config.update_env.
    destruct (dict_get "env" w) as [[]|]; try exact (Pw k Hk).
    apply dict_mem_set. exact (Pw k Hk).
  - intros env w w' [o raw] H Pw k Hk. exact (apply_opt_mem U env w w' o raw k H (Pw k Hk)).
Qed.

Lemma get_config_watcher_keys_witness :
  exists c, Config.get_config linux_util [] [("circus", [("debug", "1")]); ("watcher:web", [("cmd", "python"); ("numprocesses", "2"); ("shell", "true")])] = Ok c /\
  exists ws, dict_get "watchers" c = Some (PList ws) /\
    forall x, In x ws -> exists w, x = PDict w /\
      forall k, In k ("env" :: map fst Config.watcher_defaults) -> dict_mem k w = true.
Proof.
  eexists. split; [vm_compute; reflexivity|].
  apply (get_config_watcher_keys linux_util [] [("circus", [("debug", "1")]); ("watcher:web", [("cmd", "python"); ("numprocesses", "2"); ("shell", "true")])]).
  vm_compute. reflexivity.
Defined.

(** ** Config: the watchers of the snapshot *)

Lemma mfold_left_app {A B} (f : A -> B -> result A) (l1 l2 : list B) (a : A) :
  mfold_left f (l1 ++ l2) a = (b <- mfold_left f l1 a ;; mfold_left f l2 b).
Proof.
  revert a. induction l1 as [|x l1 IH]; simpl; intros a; [reflexivity|].
  unfold bind at 1 3. destruct (f a x) as [a1|e]; [apply IH|reflexivity].
Qed.

(** An invariant [P] of every step that, once the step on [x] has run, is
    strengthened to [S] for the rest of the fold. *)
Lemma mfold_left_reach {A B} (P S : A -> Prop) (f : A -> B -> result A) (x : B) (l : list B) :
  (forall a b a', f a b = Ok a' -> P a -> P a') ->
  (forall a a', P a -> f a x = Ok a' -> S a') ->
  (forall a b a', f a b = Ok a' -> S a -> S a') ->
  forall a0 a, mfold_left f l a0 = Ok a -> P a0 -> In x l -> S a.
Proof.
  intros HP Hx HS. induction l as [|b l IH]; simpl; intros a0 a H P0 Hin; [destruct Hin|].
  apply bind_ok in H as (a1 & H1 & H). destruct Hin as [<-|Hin].
  - assert (S1 : S a1) by exact (Hx a0 a1 P0 H1). clear H1.
    revert a1 S1 H. clear IH. induction l as [|c l IHl]; simpl; intros a1 S1 H.
    + injection H as <-. exact S1.
    + apply bind_ok in H as (a2 & H2 & H). exact (IHl a2 (HS a1 c a2 H2 S1) H).
  - exact (IH a1 a H (HP a0 b a1 H1 P0) Hin).
Qed.

Lemma prefix_nil (s : string) : String.prefix "" s = true.
Proof. destruct s; reflexivity. Qed.

Lemma prefix_self_app (p s : string) : String.prefix p (p ++ s) = true.
Proof.
  induction p as [|c p IH]; simpl; [apply prefix_nil|].
  destruct (ascii_dec c c) as [_|n]; [exact IH | contradiction].
Qed.

Lemma prefix_dot_cons (c : ascii) (x : string) :
  String.prefix "." (String c x) = if ascii_dec "." c then true else false.
Proof.
  change (String.prefix "." (String c x))
    with (if ascii_dec "." c then String.prefix "" x else false).
  destruct (ascii_dec "." c); [apply prefix_nil | reflexivity].
Qed.

Lemma index_dot_app (p rest : string) :
  String.index 0 "." p = None ->
  String.index 0 "." (p ++ rest) =
  option_map (fun j => (String.length p + j)%nat) (String.index 0 "." rest).
Proof.
  induction p as [|c p IH]; intros H.
  - simpl. destruct (String.index 0 "." rest); reflexivity.
  - change (String c p ++ rest)%string with (String c (p ++ rest)).
    cbn [String.index] in H |- *.
    destruct (String.prefix "." (String c p)) eqn:E1; [discriminate H|].
    assert (E2 : String.prefix "." (String c (p ++ rest)) = false).
    { rewrite prefix_dot_cons in E1 |- *. exact E1. }
    rewrite E2.
    destruct (String.index 0 "." p) eqn:Ep; [discriminate H|].
    rewrite (IH eq_refl). destruct (String.index 0 "." rest); reflexivity.
Qed.

Lemma substring_app_prefix (p rest : string) (j : nat) :
  substring 0 (String.length p + j) (p ++ rest) = (p ++ substring 0 j rest)%string.
Proof. induction p as [|c p IH]; simpl; [reflexivity | rewrite IH; reflexivity]. Qed.

(** The head of [opt.split(".", 1)] keeps a dot-free prefix of [opt]. *)
Lemma split_dot_head (p rest a : string) (l : list string) :
  String.index 0 "." p = None -> py_split1 "." (p ++ rest) = a :: l ->
  startswith p a = true.
Proof.
  intros Hp H. unfold py_split1, split_fuel in H. rewrite (index_dot_app p rest Hp) in H.
  destruct (String.index 0 "." rest) as [j|]; simpl in H; injection H as <- _;
    unfold startswith.
  - rewrite substring_app_prefix. apply prefix_self_app.
  - apply prefix_self_app.
Qed.

Lemma ltb_leb (a b : string) : String.ltb a b = true -> String.leb a b = true.
Proof. unfold String.ltb, String.leb. destruct (String.compare a b); congruence. Qed.

Lemma not_ltb_leb (a b : string) : String.ltb a b = false -> String.leb b a = true.
Proof.
  unfold String.ltb, String.leb. rewrite (String.compare_antisym b a).
  destruct (String.compare a b); simpl; congruence.
Qed.

Lemma insert_asc_perm {A} (key : A -> string) (x : A) (l : list A) :
  Permutation (Config.insert_asc key x l) (x :: l).
Proof.
  induction l as [|y l IH]; simpl; [reflexivity|].
  destruct (String.ltb (key x) (key y)); [reflexivity|].
  rewrite IH. apply perm_swap.
Qed.

Lemma sort_by_field_perm {A} (key : A -> string) (l : list A) :
  Permutation (Config.sort_by_field key l) l.
Proof.
  unfold Config.sort_by_field.
  enough (G : forall acc, Permutation (fold_left (fun acc x => Config.insert_asc key x acc) l acc)
                                      (l ++ acc)) by (rewrite G, app_nil_r; reflexivity).
  induction l as [|x l IH]; simpl; intros acc; [reflexivity|].
  rewrite IH, insert_asc_perm. symmetry. apply Permutation_middle.
Qed.

Lemma insert_asc_sorted {A} (key : A -> string) (x : A) (l : list A) :
  Sorted (fun a b => String.leb a b = true) (map key l) ->
  Sorted (fun a b => String.leb a b = true) (map key (Config.insert_asc key x l)).
Proof.
  induction l as [|y l IH]; simpl; intros H; [constructor; constructor|].
  destruct (String.ltb (key x) (key y)) eqn:E; simpl.
  - constructor; [exact H|]. constructor. apply ltb_leb. exact E.
  - apply Sorted_inv in H as [Hl Hy]. constructor; [exact (IH Hl)|].
    destruct l as [|z l]; simpl.
    + constructor. apply not_ltb_leb. exact E.
    + simpl in Hy. apply HdRel_inv in Hy.
      destruct (String.ltb (key x) (key z)); simpl; constructor;
        [apply not_ltb_leb; exact E | exact Hy].
Qed.

Lemma sort_by_field_sorted {A} (key : A -> string) (l : list A) :
  Sorted (fun a b => String.leb a b = true) (map key (Config.sort_by_field key l)).
Proof.
  unfold Config.sort_by_field.
  enough (G : forall acc, Sorted (fun a b => String.leb a b = true) (map key acc) ->
    Sorted (fun a b => String.leb a b = true)
      (map key (fold_left (fun acc x => Config.insert_asc key x acc) l acc)))
    by (apply G; constructor).
  induction l as [|x l IH]; simpl; intros acc H; [exact H|].
  apply IH, insert_asc_sorted, H.
Qed.

Lemma stream_head (p opt a : string) (l : list string) :
  String.index 0 "." p = None -> startswith p opt = true ->
  py_split1 "." opt = a :: l -> startswith p a = true.
Proof.
  intros Hp Ho Hs. apply prefix_app in Ho as [rest ->]. exact (split_dot_head p rest a l Hp Hs).
Qed.

Lemma startswith_eqb (p k s : string) :
  startswith p k = false -> startswith p s = true -> String.eqb k s = false.
Proof.
  intros Hk Hs. destruct (String.eqb_spec k s) as [->|]; [congruence | reflexivity].
Qed.

(** An option leaves alone every key of the watcher it does not name: keys
    other than the option, the stream dicts it may address, [rlimits] for
    [rlimit_...] and [hooks] for [hooks....]. *)
Lemma apply_opt_frame (U : Config.util) (env : env_t) (w w' : dict) (opt raw k : string) :
  Config.apply_opt U env w (opt, raw) = Ok w' ->
  String.eqb k opt = false ->
  startswith "stderr_stream" k = false -> startswith "stdout_stream" k = false ->
  (String.eqb k "rlimits" = true -> startswith "rlimit_" opt = false) ->
  (String.eqb k "hooks" = true -> startswith "hooks." opt = false) ->
  dict_get k w' = dict_get k w.
Proof.
  intros H Hko Hse Hso Hr Hh. unfold Config.apply_opt in H.
  repeat (match type of H with
          | context [if ?b then _ else _] =>
              lazymatch b with true => fail | false => fail | _ =>
                let E := fresh "E" in destruct b eqn:E end
          end; cbv beta iota in H).
  all: repeat match goal with E : String.eqb ?o _ = true |- _ =>
                is_var o; apply String.eqb_eq in E; subst o end.
  all: reduce_branches H.
  all: try reflexivity.
  all: try (apply dict_get_set_neq; assumption).
  all: try (destruct (String.eqb_spec k "rlimits") as [->|Ne];
            [specialize (Hr eq_refl); congruence
            | apply dict_get_set_neq; apply String.eqb_neq; exact Ne]).
  all: try (destruct (String.eqb_spec k "hooks") as [->|Ne];
            [specialize (Hh eq_refl); congruence
            | apply dict_get_set_neq; apply String.eqb_neq; exact Ne]).
  match goal with
  | E : (startswith "stderr_stream" opt || startswith "stdout_stream" opt) = true,
    Hs : py_split1 "." opt = ?s :: _ |- dict_get k (dict_set ?s _ _) = _ =>
      apply dict_get_set_neq; apply orb_true_iff in E as [E|E];
      [ exact (startswith_eqb _ _ _ Hse (stream_head "stderr_stream" _ _ _ eq_refl E Hs))
      | exact (startswith_eqb _ _ _ Hso (stream_head "stdout_stream" _ _ _ eq_refl E Hs)) ]
  end.
Qed.

(** What one section of the first pass does to the watcher map. *)
Lemma first_pass_section_map (U : Config.util) (cfg : Config.cfgparser)
  (genv lenv : env_t) (st st' : Config.pass_state) (s : string) :
  Config.first_pass_section U cfg genv lenv st s = Ok st' ->
  (Config.watchers_map st' = Config.watchers_map st /\
   (startswith "watcher:" s = true ->
    Config.empty_section_keys (map fst (Config.section_items cfg genv s)) = true)) \/
  exists ce, Config.dget U cfg genv s "copy_env" (PBool false) Config.TBool = Ok ce /\
    Config.watchers_map st' =
      dict_set s (dict_set "env" (if Config.truthy ce then Config.env_dict genv
                                  else Config.env_dict lenv)
                   (dict_set "copy_env" ce
                      (dict_set "name" (PStr (nth 1 (py_split1 "watcher:" s) ""))
                         Config.watcher_defaults)))
        (Config.watchers_map st).
Proof.
  intros H. unfold Config.first_pass_section in H. cbv zeta in H.
  destruct (Config.empty_section_keys (map fst (Config.section_items cfg genv s))) eqn:Ek.
  - injection H as <-. left. split; [reflexivity | intros _; reflexivity].
  - apply bind_ok in H as (st1 & H1 & H).
    assert (I1 : Config.watchers_map st1 = Config.watchers_map st).
    { destruct (startswith "socket:" s); [|injection H1 as <-; reflexivity].
      apply bind_ok in H1 as (r1 & _ & H1). apply bind_ok in H1 as (r2 & _ & H1).
      injection H1 as <-. reflexivity. }
    clear H1. apply bind_ok in H as (st2 & H2 & H).
    assert (I2 : Config.watchers_map st2 = Config.watchers_map st).
    { destruct (startswith "plugin:" s); [|injection H2 as <-; exact I1].
      apply bind_ok in H2 as (pl & _ & H2). injection H2 as <-. exact I1. }
    clear I1 H2.
    destruct (startswith "watcher:" s) eqn:Ew.
    + apply bind_ok in H as (ce & Hce & H). injection H as <-. right.
      exists ce. split; [exact Hce|]. simpl. rewrite I2. reflexivity.
    + injection H as <-. left. split; [exact I2 | discriminate].
Qed.

(** After the first pass, the watcher of a kept [watcher:] section is the
    fresh dict of lines 233-240. *)
Lemma first_pass_entry (U : Config.util) (cfg : Config.cfgparser) (genv lenv : env_t)
  (st : Config.pass_state) (sec : string) :
  Config.first_pass U cfg genv lenv = Ok st -> In sec (Config.sections cfg) ->
  startswith "watcher:" sec = true ->
  Config.empty_section_keys (map fst (Config.section_items cfg genv sec)) = false ->
  exists ce, Config.dget U cfg genv sec "copy_env" (PBool false) Config.TBool = Ok ce /\
    dict_get sec (Config.watchers_map st) =
      Some (dict_set "env" (if Config.truthy ce then Config.env_dict genv
                            else Config.env_dict lenv)
              (dict_set "copy_env" ce
                 (dict_set "name" (PStr (nth 1 (py_split1 "watcher:" sec) ""))
                    Config.watcher_defaults))).
Proof.
  intros H Hin Hw Hk. unfold Config.first_pass in H.
  destruct (Config.dget U cfg genv sec "copy_env" (PBool false) Config.TBool) as [ce|e] eqn:Hce.
  2: { exfalso. refine (mfold_left_blocked (fun _ => True) _ sec _ (fun a b a' _ _ => I) _ _ _ H I Hin).
       intros a a' _ Ha. apply first_pass_section_map in Ha.
       destruct Ha as [[_ Ha]|(ce & Hce' & _)]; [rewrite (Ha Hw) in Hk; discriminate Hk|].
       rewrite Hce in Hce'. discriminate Hce'. }
  exists ce. split; [reflexivity|].
  match goal with |- _ = Some ?W =>
    refine (mfold_left_reach (fun _ => True)
              (fun st => dict_get sec (Config.watchers_map st) = Some W)
              _ sec _ (fun a b a' _ _ => I) _ _ _ _ H I Hin) end.
  - intros a a' _ Ha. apply first_pass_section_map in Ha.
    destruct Ha as [[_ Ha]|(ce' & Hce' & ->)]; [rewrite (Ha Hw) in Hk; discriminate Hk|].
    rewrite Hce in Hce'. injection Hce' as <-. apply dict_get_set_eq.
  - intros a b a' Ha Ia. apply first_pass_section_map in Ha.
    destruct Ha as [[-> _]|(ce' & Hce' & ->)]; [exact Ia|].
    destruct (String.eqb_spec sec b) as [<-|Ne].
    + rewrite Hce in Hce'. injection Hce' as <-. apply dict_get_set_eq.
    + rewrite dict_get_set_neq by (apply String.eqb_neq; exact Ne). exact Ia.
Qed.

Lemma in_list_false (s : string) (l : list string) : ~ In s l -> Config.in_list s l = false.
Proof.
  unfold Config.in_list. induction l as [|x l IH]; simpl; intros Hn; [reflexivity|].
  destruct (String.eqb_spec s x) as [->|Ne]; [tauto|]. simpl. apply IH. tauto.
Qed.

Lemma in_list_true (s : string) (l : list string) : In s l -> Config.in_list s l = true.
Proof.
  unfold Config.in_list. intros H. apply existsb_exists. exists s.
  split; [exact H | apply String.eqb_refl].
Qed.

Lemma in_list_filter (f : string -> bool) (s : string) (l : list string) :
  Config.in_list s (filter f l) = Config.in_list s l && f s.
Proof.
  unfold Config.in_list. induction l as [|x l IH]; simpl; [reflexivity|].
  destruct (String.eqb_spec s x) as [->|Ne].
  - destruct (f x) eqn:Fx; simpl; rewrite ?String.eqb_refl; simpl; [reflexivity|].
    rewrite IH. destruct (existsb (String.eqb x) l); reflexivity.
  - destruct (f x); simpl; [|exact IH].
    apply String.eqb_neq in Ne. rewrite Ne. exact IH.
Qed.

(** Updating, in turn, the watchers of the distinct sections [l] through
    [g] changes the watcher of [sec] once if [sec] is in [l]. *)
Lemma fold_set_at (g : dict -> dict) (l : list string) (m : list (string * dict))
  (sec : string) (w : dict) :
  NoDup l -> dict_get sec m = Some w ->
  dict_get sec (fold_left (fun m s => dict_set s (g (Config.watcher_in m s)) m) l m) =
    Some (if Config.in_list sec l then g w else w).
Proof.
  revert m w. induction l as [|s l IH]; intros m w Hnd Hw; [exact Hw|].
  inversion Hnd as [|? ? Hs Hnd']; subst. cbn [fold_left].
  destruct (String.eqb_spec sec s) as [->|Ne].
  - rewrite (IH _ (g w) Hnd').
    + rewrite (in_list_false s l Hs), (in_list_true s (s :: l) (or_introl eq_refl)).
      reflexivity.
    + unfold Config.watcher_in. rewrite Hw. apply dict_get_set_eq.
  - rewrite (IH _ w Hnd').
    + unfold Config.in_list. simpl. apply String.eqb_neq in Ne. rewrite Ne. reflexivity.
    + rewrite dict_get_set_neq by (apply String.eqb_neq; exact Ne). exact Hw.
Qed.

Lemma env_pattern_at (U : Config.util) (items : env_t) (ws : list string)
  (m : list (string * dict)) (p sec : string) (w : dict) :
  NoDup ws -> In sec ws -> dict_get sec m = Some w ->
  dict_get sec (Config.env_pattern U items ws m p) =
    Some (if Config.fnmatch U (Config.name_of w) p then Config.update_env items w else w).
Proof.
  intros Hnd Hin Hw. unfold Config.env_pattern.
  rewrite (fold_set_at _ _ _ sec w (NoDup_filter _ Hnd) Hw).
  rewrite in_list_filter, (in_list_true _ _ Hin). simpl.
  unfold Config.watcher_in. rewrite Hw. reflexivity.
Qed.

Lemma env_sections_at (U : Config.util) (cfg : Config.cfgparser) (ws : list string)
  (l : list string) (m : list (string * dict)) (sec : string) (w : dict) :
  NoDup ws -> In sec ws -> dict_get sec m = Some w ->
  dict_get sec (fold_left
    (fun m s =>
       if startswith "env:" s then
         fold_left (Config.env_pattern U (dict_of (Config.raw_items cfg s)) ws)
                   (map strip (py_split "," (nth 1 (py_split1 "env:" s) ""))) m
       else m) l m) =
  Some (fold_left
    (fun w s =>
       if startswith "env:" s then
         fold_left (fun w p => if Config.fnmatch U (Config.name_of w) p
                               then Config.update_env (dict_of (Config.raw_items cfg s)) w
                               else w)
                   (map strip (py_split "," (nth 1 (py_split1 "env:" s) ""))) w
       else w) l w).
Proof.
  intros Hnd Hin. revert m w. induction l as [|s l IH]; simpl; intros m w Hw; [exact Hw|].
  apply IH. destruct (startswith "env:" s); [|exact Hw].
  generalize (map strip (py_split "," (nth 1 (py_split1 "env:" s) ""))) as ps. intros ps.
  revert m w Hw. induction ps as [|p ps IHp]; simpl; intros m w Hw; [exact Hw|].
  apply IHp. apply env_pattern_at; assumption.
Qed.

Lemma name_of_same (x y : dict) :
  dict_get "name" x = dict_get "name" y -> Config.name_of x = Config.name_of y.
Proof. unfold Config.name_of. intros ->. reflexivity. Qed.

Lemma name_of_update_env (items : env_t) (w : dict) :
  Config.name_of (Config.update_env items w) = Config.name_of w.
Proof. unfold Config.name_of. rewrite update_env_other by reflexivity. reflexivity. Qed.

(** What the env pass does to one watcher named [n]: each [env:PATTERNS]
    section, for each of its patterns that [n] matches, updates the
    watcher's [env] with the section's variables; no other key changes. *)
Lemma env_fold_watcher (U : Config.util) (cfg : Config.cfgparser) (l : list string)
  (w : dict) (e : dict) :
  dict_get "env" w = Some (PDict e) ->
  forall w', w' = fold_left
    (fun w s =>
       if startswith "env:" s then
         fold_left (fun w p => if Config.fnmatch U (Config.name_of w) p
                               then Config.update_env (dict_of (Config.raw_items cfg s)) w
                               else w)
                   (map strip (py_split "," (nth 1 (py_split1 "env:" s) ""))) w
       else w) l w ->
  (forall k, String.eqb k "env" = false -> dict_get k w' = dict_get k w) /\
  dict_get "env" w' = Some (PDict
    (fold_left (fun e s =>
       if startswith "env:" s then
         fold_left (fun e p =>
           if Config.fnmatch U (Config.name_of w) p
           then dict_update e (map (fun kv => (fst kv, PStr (snd kv)))
                                 (dict_of (Config.raw_items cfg s)))
           else e)
           (map strip (py_split "," (nth 1 (py_split1 "env:" s) ""))) e
       else e) l e)).
Proof.
  intros He w' ->. revert w e He. induction l as [|s l IH]; simpl; intros w e He.
  - split; [reflexivity | exact He].
  - assert (G : forall ps w e, dict_get "env" w = Some (PDict e) ->
      forall w', w' = fold_left (fun w p => if Config.fnmatch U (Config.name_of w) p
                  then Config.update_env (dict_of (Config.raw_items cfg s)) w else w) ps w ->
      (forall k, String.eqb k "env" = false -> dict_get k w' = dict_get k w) /\
      dict_get "env" w' = Some (PDict (fold_left (fun e p =>
           if Config.fnmatch U (Config.name_of w) p
           then dict_update e (map (fun kv => (fst kv, PStr (snd kv)))
                                 (dict_of (Config.raw_items cfg s)))
           else e) ps e))).
    { induction ps as [|p ps IHp]; simpl; intros w0 e0 He0 w1 ->.
      - split; [reflexivity | exact He0].
      - destruct (Config.fnmatch U (Config.name_of w0) p).
        + assert (He1 : dict_get "env" (Config.update_env (dict_of (Config.raw_items cfg s)) w0)
                   = Some (PDict (dict_update e0 (map (fun kv => (fst kv, PStr (snd kv)))
                                    (dict_of (Config.raw_items cfg s)))))).
          { unfold Config.update_env. rewrite He0. apply dict_get_set_eq. }
          destruct (IHp _ _ He1 _ eq_refl) as [Hk He'].
          rewrite name_of_update_env in He'. split; [|exact He'].
          intros k Ek. rewrite (Hk k Ek). apply update_env_other. exact Ek.
        + exact (IHp w0 e0 He0 _ eq_refl). }
    destruct (startswith "env:" s).
    + destruct (G (map strip (py_split "," (nth 1 (py_split1 "env:" s) ""))) w e He
                  _ eq_refl) as [Hk1 He1].
      destruct (IH _ _ He1) as [Hk2 He2].
      assert (Hn : Config.name_of (fold_left (fun w p => if Config.fnmatch U (Config.name_of w) p
                  then Config.update_env (dict_of (Config.raw_items cfg s)) w else w)
                  (map strip (py_split "," (nth 1 (py_split1 "env:" s) ""))) w)
                   = Config.name_of w).
      { apply name_of_same. exact (Hk1 "name" eq_refl). }
      rewrite Hn in He2. split; [|exact He2].
      intros k Ek. rewrite (Hk2 k Ek). exact (Hk1 k Ek).
    + exact (IH w e He).
Qed.

Lemma second_pass_others (U : Config.util) (cfg : Config.cfgparser) (genv : env_t)
  (l : list string) (m m' : list (string * dict)) (sec : string) :
  mfold_left (Config.second_pass_section U cfg genv) l m = Ok m' -> ~ In sec l ->
  dict_get sec m' = dict_get sec m.
Proof.
  revert m. induction l as [|s l IH]; simpl; intros m H Hn.
  - injection H as <-. reflexivity.
  - apply bind_ok in H as (m1 & H1 & H). rewrite (IH m1 H (fun h => Hn (or_intror h))).
    unfold Config.second_pass_section in H1.
    destruct (startswith "watcher:" s); [|injection H1 as <-; reflexivity].
    destruct (dict_get s m); [|discriminate H1].
    apply bind_ok in H1 as (w' & _ & H1). injection H1 as <-.
    apply dict_get_set_neq. apply String.eqb_neq. intros ->. apply Hn. left. reflexivity.
Qed.

(** The second pass on the watcher of a [watcher:] section that occurs once:
    its options, in order, with the environment of lines 265-266. *)
Lemma second_pass_entry (U : Config.util) (cfg : Config.cfgparser) (genv : env_t)
  (st st' : Config.pass_state) (sec : string) (w : dict) :
  Config.second_pass U cfg genv st = Ok st' -> NoDup (Config.sections cfg) ->
  In sec (Config.sections cfg) -> startswith "watcher:" sec = true ->
  dict_get sec (Config.watchers_map st) = Some w ->
  exists w', dict_get sec (Config.watchers_map st') = Some w' /\
    mfold_left (Config.apply_opt U (dict_update (dict_of genv) (Config.env_of (dict_get "env" w))))
               (Config.raw_items cfg sec) w = Ok w'.
Proof.
  intros H Hnd Hin Hw Hm. unfold Config.second_pass in H.
  apply bind_ok in H as (m & H & E). injection E as <-. cbn [Config.watchers_map].
  apply in_split in Hin as (l1 & l2 & Hl). rewrite Hl in H, Hnd.
  apply NoDup_remove_2 in Hnd.
  rewrite mfold_left_app in H. apply bind_ok in H as (m1 & H1 & H).
  simpl in H. apply bind_ok in H as (m2 & H2 & H).
  unfold Config.second_pass_section in H2. rewrite Hw in H2.
  rewrite (second_pass_others U cfg genv l1 _ _ sec H1 (fun h => Hnd (in_or_app _ _ _ (or_introl h))))
    in H2.
  rewrite Hm in H2.
  apply bind_ok in H2 as (w' & Hw' & E). injection E as <-.
  exists w'. split; [|exact Hw'].
  rewrite (second_pass_others U cfg genv l2 _ _ sec H (fun h => Hnd (in_or_app _ _ _ (or_intror h)))).
  apply dict_get_set_eq.
Qed.

Lemma sort_by_field_ext {A} (key1 key2 : A -> string) (l : list A) :
  (forall x, In x l -> key1 x = key2 x) ->
  Config.sort_by_field key1 l = Config.sort_by_field key2 l.
Proof.
  unfold Config.sort_by_field. intros Hk.
  enough (G : forall acc, (forall x, In x acc -> key1 x = key2 x) ->
    fold_left (fun acc x => Config.insert_asc key1 x acc) l acc =
    fold_left (fun acc x => Config.insert_asc key2 x acc) l acc) by (apply G; intros x []).
  induction l as [|y l IH]; simpl; intros acc Ha; [reflexivity|].
  assert (E : Config.insert_asc key1 y acc = Config.insert_asc key2 y acc).
  { clear IH. induction acc as [|z acc IHa]; simpl; [reflexivity|].
    rewrite (Hk y (or_introl eq_refl)), (Ha z (or_introl eq_refl)).
    destruct (String.ltb _ _); [reflexivity|].
    rewrite IHa; [reflexivity|]. intros x Hx. apply Ha. right. exact Hx. }
  rewrite E. apply IH; [intros x Hx; apply Hk; right; exact Hx|].
  intros x Hx. apply insert_asc_in in Hx as [->|Hx]; [apply Hk; left; reflexivity | exact (Ha x Hx)].
Qed.

Lemma name_of_first (ce e : pyval) (n : string) :
  Config.name_of (dict_set "env" e (dict_set "copy_env" ce
                    (dict_set "name" (PStr n) Config.watcher_defaults))) = n.
Proof. reflexivity. Qed.

(** The watchers of the snapshot: the kept [watcher:] sections sorted by the
    name after [watcher:], each one's fresh watcher of the first pass, with
    [env] updated by the env pass, then every option of its section applied
    in turn. *)
Lemma get_config_watchers_at (U : Config.util) (environ : env_t) (cfg : Config.cfgparser)
  (c : dict) :
  Config.get_config U environ cfg = Ok c -> NoDup (Config.sections cfg) ->
  exists st,
    dict_get "watchers" c =
      Some (PList (map (fun s => PDict (Config.watcher_in (Config.watchers_map st) s))
                       (Config.watchers st))) /\
    Config.watchers st =
      Config.sort_by_field (fun s => nth 1 (py_split1 "watcher:" s) "")
        (filter (fun s => startswith "watcher:" s &&
           negb (Config.empty_section_keys
                   (map fst (Config.section_items cfg (fst (Config.environments environ cfg)) s))))
           (Config.sections cfg)) /\
    forall sec, In sec (Config.watchers st) ->
      exists ce w0 w,
        Config.dget U cfg (fst (Config.environments environ cfg)) sec "copy_env" (PBool false)
          Config.TBool = Ok ce /\
        (forall k, String.eqb k "env" = false ->
           dict_get k w0 = dict_get k (dict_set "copy_env" ce
             (dict_set "name" (PStr (nth 1 (py_split1 "watcher:" sec) "")) Config.watcher_defaults))) /\
        dict_get "env" w0 = Some (PDict
          (fold_left (fun e s =>
             if startswith "env:" s then
               fold_left (fun e p =>
                 if Config.fnmatch U (nth 1 (py_split1 "watcher:" sec) "") p
                 then dict_update e (map (fun kv => (fst kv, PStr (snd kv)))
                                       (dict_of (Config.raw_items cfg s)))
                 else e)
                 (map strip (py_split "," (nth 1 (py_split1 "env:" s) ""))) e
             else e)
             (Config.sections cfg)
             (map (fun kv => (fst kv, PStr (snd kv)))
                (if Config.truthy ce then fst (Config.environments environ cfg)
                 else snd (Config.environments environ cfg))))) /\
        mfold_left (Config.apply_opt U (dict_update (dict_of (fst (Config.environments environ cfg)))
                                          (Config.env_of (dict_get "env" w0))))
                   (Config.raw_items cfg sec) w0 = Ok w /\
        dict_get sec (Config.watchers_map st) = Some w.
Proof.
  intros H Hnd. apply get_config_stages in H as (g & st0 & st & _ & H0 & H2 & ->).
  set (genv := fst (Config.environments environ cfg)) in *.
  set (lenv := snd (Config.environments environ cfg)) in *.
  set (kept := fun s => startswith "watcher:" s &&
                negb (Config.empty_section_keys (map fst (Config.section_items cfg genv s)))).
  assert (Hw0 : Config.watchers st0 = filter kept (Config.sections cfg))
    by exact (mfold_first_pass_watchers U cfg genv lenv _ _ _ H0).
  assert (Hkept : forall s, In s (Config.watchers st0) ->
            In s (Config.sections cfg) /\ startswith "watcher:" s = true /\
            Config.empty_section_keys (map fst (Config.section_items cfg genv s)) = false).
  { intros s Hs. rewrite Hw0 in Hs. apply filter_In in Hs as [Hs Hk].
    unfold kept in Hk. apply andb_true_iff in Hk as [Hk1 Hk2].
    apply negb_true_iff in Hk2. auto. }
  assert (Hws : Config.watchers st = Config.watchers (Config.sort_lists st0)).
  { unfold Config.second_pass in H2. apply bind_ok in H2 as (m & _ & E).
    injection E as <-. reflexivity. }
  exists st. split.
  { rewrite !dict_get_set_neq by reflexivity. apply dict_get_set_eq. }
  split.
  { rewrite Hws. cbn [Config.sort_lists Config.watchers]. rewrite Hw0.
    apply sort_by_field_ext. intros s Hs. rewrite <- Hw0 in Hs.
    destruct (Hkept s Hs) as (Hin & Hw & Hk).
    destruct (first_pass_entry U cfg genv lenv st0 s H0 Hin Hw Hk) as (ce & _ & Hm).
    unfold Config.watcher_in. rewrite Hm. apply name_of_first. }
  intros sec Hsec.
  rewrite Hws in Hsec. cbn [Config.sort_lists Config.watchers] in Hsec.
  apply sort_by_field_in in Hsec.
  destruct (Hkept sec Hsec) as (Hin & Hw & Hk).
  destruct (first_pass_entry U cfg genv lenv st0 sec H0 Hin Hw Hk) as (ce & Hce & Hm).
  assert (Hnd1 : NoDup (Config.watchers (Config.sort_lists st0))).
  { cbn [Config.sort_lists Config.watchers].
    apply (Permutation_NoDup (Permutation_sym (sort_by_field_perm _ _))).
    rewrite Hw0. apply NoDup_filter. exact Hnd. }
  assert (Hin1 : In sec (Config.watchers (Config.sort_lists st0))).
  { cbn [Config.sort_lists Config.watchers]. apply sort_by_field_in. exact Hsec. }
  set (W := dict_set "env" (if Config.truthy ce then Config.env_dict genv else Config.env_dict lenv)
              (dict_set "copy_env" ce
                 (dict_set "name" (PStr (nth 1 (py_split1 "watcher:" sec) ""))
                    Config.watcher_defaults))) in Hm.
  assert (HeW : dict_get "env" W = Some (PDict (map (fun kv => (fst kv, PStr (snd kv)))
                  (if Config.truthy ce then genv else lenv)))).
  { unfold W. rewrite dict_get_set_eq. destruct (Config.truthy ce); reflexivity. }
  pose proof (env_sections_at U cfg _ (Config.sections cfg) _ sec W Hnd1 Hin1 Hm) as Henv.
  destruct (env_fold_watcher U cfg (Config.sections cfg) W _ HeW _ eq_refl) as [Hk1 He1].
  replace (Config.name_of W) with (nth 1 (py_split1 "watcher:" sec) "") in He1
    by (symmetry; apply name_of_first).
  destruct (second_pass_entry U cfg genv _ st sec _ H2 Hnd Hin Hw Henv) as (w & Hw' & Hopts).
  do 3 eexists. split; [exact Hce|]. split.
  { intros k Ek. rewrite (Hk1 k Ek). unfold W. apply dict_get_set_neq. exact Ek. }
  split; [exact He1|]. split; [exact Hopts | exact Hw'].
Qed.

Lemma mfold_apply_frame (U : Config.util) (env : env_t) (opts : list (string * string))
  (w w' : dict) (k : string) :
  mfold_left (Config.apply_opt U env) opts w = Ok w' ->
  (forall o r, In (o, r) opts -> String.eqb k o = false) ->
  startswith "stderr_stream" k = false -> startswith "stdout_stream" k = false ->
  String.eqb k "rlimits" = false -> String.eqb k "hooks" = false ->
  dict_get k w' = dict_get k w.
Proof.
  intros H Ho Hse Hso Hr Hh. revert w H.
  induction opts as [|[o r] opts IH]; simpl; intros w H; [injection H as <-; reflexivity|].
  apply bind_ok in H as (w1 & H1 & H).
  rewrite (IH (fun o' r' Hin => Ho o' r' (or_intror Hin)) w1 H).
  apply (apply_opt_frame U env w w1 o r k H1 (Ho o r (or_introl eq_refl)) Hse Hso);
    intros E; congruence.
Qed.

Lemma apply_opt_rlimit_eq (U : Config.util) (env : env_t) (w : dict) (r raw : string) :
  Config.apply_opt U env w ("rlimit_" ++ r, raw) =
  (z <- Config.rlimit_value U (replace_gnu_args raw env) ;;
   match dict_get "rlimits" w with
   | Some (PDict d) => Ok (dict_set "rlimits" (PDict (dict_set r (PInt z) d)) w)
   | Some _ => Err TypeError
   | None => Err (KeyError "rlimits")
   end).
Proof.
  cbv beta iota zeta delta [Config.apply_opt]. rewrite drop_rlimit.
  simpl. unfold startswith. simpl. destruct r; reflexivity.
Qed.

(** An option other than [rlimits] keeps [rlimits] a dict, and changes in
    it at most the entry of its own [rlimit_NAME]. *)
Lemma apply_opt_rlimits_step (U : Config.util) (env : env_t) (w w' : dict) (o x : string)
  (d : dict) :
  Config.apply_opt U env w (o, x) = Ok w' -> String.eqb o "rlimits" = false ->
  dict_get "rlimits" w = Some (PDict d) ->
  exists d', dict_get "rlimits" w' = Some (PDict d') /\
    forall r, String.eqb o ("rlimit_" ++ r) = false -> dict_get r d' = dict_get r d.
Proof.
  intros H Ho Hd. destruct (startswith "rlimit_" o) eqn:Er.
  - apply prefix_app in Er as [r' ->]. rewrite apply_opt_rlimit_eq, Hd in H.
    apply bind_ok in H as (z & _ & H). injection H as <-.
    eexists. split; [apply dict_get_set_eq|].
    intros r Hr. apply dict_get_set_neq. apply String.eqb_neq. intros ->.
    rewrite String.eqb_refl in Hr. discriminate Hr.
  - exists d. split; [|reflexivity]. rewrite <- Hd.
    apply (apply_opt_frame U env w w' o x "rlimits" H); try reflexivity.
    + rewrite String.eqb_sym. exact Ho.
    + intros _. exact Er.
    + intros E. discriminate E.
Qed.

Lemma mfold_rlimits (U : Config.util) (env : env_t) (opts : list (string * string))
  (w w' : dict) (d : dict) :
  mfold_left (Config.apply_opt U env) opts w = Ok w' ->
  (forall o x, In (o, x) opts -> String.eqb o "rlimits" = false) ->
  dict_get "rlimits" w = Some (PDict d) ->
  exists d', dict_get "rlimits" w' = Some (PDict d') /\
    forall r, ~ In ("rlimit_" ++ r) (map fst opts) -> dict_get r d' = dict_get r d.
Proof.
  revert w d. induction opts as [|[o x] opts IH]; simpl; intros w d H Ho Hd.
  - injection H as <-. exists d. split; [exact Hd | reflexivity].
  - apply bind_ok in H as (w1 & H1 & H).
    destruct (apply_opt_rlimits_step U env w w1 o x d H1 (Ho o x (or_introl eq_refl)) Hd)
      as (d1 & Hd1 & Hr1).
    destruct (IH w1 d1 H (fun o' x' Hin => Ho o' x' (or_intror Hin)) Hd1) as (d2 & Hd2 & Hr2).
    exists d2. split; [exact Hd2|]. intros r Hr. rewrite (Hr2 r (fun h => Hr (or_intror h))).
    apply Hr1. apply String.eqb_neq. intros ->. apply Hr. left. reflexivity.
Qed.

Lemma set_keys_in_r (k x : string) (ks : list string) :
  x = k \/ In x ks -> In x (set_keys k ks).
Proof.
  induction ks as [|k' ks IH]; simpl; intros H; [destruct H as [->|[]]; left; reflexivity|].
  destruct (String.eqb_spec k k') as [->|Ne]; simpl.
  { destruct H as [->|[->|H]]; [left; reflexivity | left; reflexivity | right; exact H]. }
  destruct H as [->|[->|H]]; [right; apply IH; left; reflexivity | left; reflexivity |].
  right. apply IH. right. exact H.
Qed.

Lemma dict_update_keys_in {A} (d l : list (string * A)) (k : string) :
  In k (map fst l) \/ In k (map fst d) -> In k (map fst (dict_update d l)).
Proof.
  unfold dict_update. revert d. induction l as [|[k' v] l IH]; simpl; intros d H.
  - tauto.
  - apply IH. rewrite dict_set_keys. destruct H as [[->|H]|H].
    + right. apply set_keys_in_r. left. reflexivity.
    + left. exact H.
    + right. apply set_keys_in_r. right. exact H.
Qed.

(** A section with an option other than [__name__] is not skipped. *)
Lemma section_kept (cfg : Config.cfgparser) (penv : env_t) (sec k : string) :
  In k (map fst (Config.raw_items cfg sec)) -> String.eqb k "__name__" = false ->
  Config.empty_section_keys (map fst (Config.section_items cfg penv sec)) = false.
Proof.
  intros Hin Hk.
  assert (H : In k (map fst (Config.section_items cfg penv sec))).
  { unfold Config.section_items, dict_of. apply dict_update_keys_in. left.
    unfold Config.items. rewrite !map_map. exact Hin. }
  destruct (map fst (Config.section_items cfg penv sec)) as [|a [|b l]]; simpl in H |- *.
  - destruct H.
  - destruct H as [->|[]]. exact Hk.
  - reflexivity.
Qed.

Lemma forall2_map_same {A B C} (P : B -> C -> Prop) (f : A -> B) (g : A -> C) (l : list A) :
  (forall x, In x l -> P (f x) (g x)) -> Forall2 P (map f l) (map g l).
Proof.
  induction l as [|x l IH]; simpl; intros H; constructor.
  - apply H. left. reflexivity.
  - apply IH. intros y Hy. apply H. right. exact Hy.
Qed.

(** ** C2 *)

(** Claim C2 fails: in [priority_cfg], [watcher:b] has priority 2 and
    [watcher:a] priority 1; the snapshot lists [a] (priority 1) before [b]
    (priority 2), in neither descending priority nor section order. *)
Lemma watchers_by_name_not_priority :
  watchers_option "name" (Config.get_config linux_util [] priority_cfg) =
    Some [Some (PStr "a"); Some (PStr "b")] /\
  watchers_option "priority" (Config.get_config linux_util [] priority_cfg) =
    Some [Some (PInt 1); Some (PInt 2)].
Proof. split; vm_compute; reflexivity. Qed.

Lemma kept_watcher_in (U : Config.util) (environ : env_t) (cfg : Config.cfgparser)
  (st : Config.pass_state) (s : string) :
  Config.watchers st =
    Config.sort_by_field (fun s => nth 1 (py_split1 "watcher:" s) "")
      (filter (fun s => startswith "watcher:" s &&
         negb (Config.empty_section_keys
                 (map fst (Config.section_items cfg (fst (Config.environments environ cfg)) s))))
         (Config.sections cfg)) ->
  In s (Config.watchers st) -> s = ("watcher:" ++ nth 1 (py_split1 "watcher:" s) "")%string.
Proof.
  intros Hws Hs. rewrite Hws in Hs. apply sort_by_field_in, filter_In in Hs as [_ Hs].
  apply andb_true_iff in Hs as [Hs _]. apply prefix_app in Hs as [n ->].
  rewrite watcher_name_split. reflexivity.
Qed.

(** Claim C2 (amended): the [watchers] list of the snapshot is sorted by
    watcher name, ascending, whatever the [priority] options: the names are
    those of the kept [watcher:NAME] sections, and each watcher is named by
    its section unless the section sets [name] itself. *)
Theorem get_config_watchers_by_name (U : Config.util) (environ : env_t)
  (cfg : Config.cfgparser) (c : dict) :
  NoDup (Config.sections cfg) ->
  Config.get_config U environ cfg = Ok c ->
  exists ns ws,
    dict_get "watchers" c = Some (PList ws) /\
    Sorted (fun a b => String.leb a b = true) ns /\
    Permutation ns
      (map (fun s => nth 1 (py_split1 "watcher:" s) "")
         (filter (fun s => startswith "watcher:" s &&
            negb (Config.empty_section_keys
                    (map fst (Config.section_items cfg (fst (Config.environments environ cfg)) s))))
            (Config.sections cfg))) /\
    Forall2 (fun n x => exists w, x = PDict w /\
               (Config.has_option cfg ("watcher:" ++ n) "name" = false ->
                dict_get "name" w = Some (PStr n))) ns ws.
Proof.
  intros Hnd H.
  destruct (get_config_watchers_at U environ cfg c H Hnd) as (st & Hc & Hws & Hall).
  exists (map (fun s => nth 1 (py_split1 "watcher:" s) "") (Config.watchers st)).
  eexists. split; [exact Hc|]. split; [|split].
  - rewrite Hws. apply sort_by_field_sorted.
  - rewrite Hws. apply Permutation_map. apply sort_by_field_perm.
  - apply forall2_map_same. intros s Hs.
    destruct (Hall s Hs) as (ce & w0 & w & _ & Hk & _ & Hopts & Hm).
    exists w. split; [unfold Config.watcher_in; rewrite Hm; reflexivity|].
    rewrite <- (kept_watcher_in U environ cfg st s Hws Hs). intros Hno.
    rewrite (mfold_apply_frame U _ _ w0 w "name" Hopts); try reflexivity.
    + rewrite (Hk "name" eq_refl). reflexivity.
    + intros o r Hin. exact (raw_items_no_opt cfg s "name" o r Hno Hin).
Qed.

Lemma get_config_watchers_by_name_witness :
  NoDup (Config.sections priority_cfg) /\
  exists c, Config.get_config linux_util [] priority_cfg = Ok c /\
  exists ns ws,
    dict_get "watchers" c = Some (PList ws) /\
    Sorted (fun a b => String.leb a b = true) ns /\
    Permutation ns
      (map (fun s => nth 1 (py_split1 "watcher:" s) "")
         (filter (fun s => startswith "watcher:" s &&
            negb (Config.empty_section_keys
                    (map fst (Config.section_items priority_cfg
                                (fst (Config.environments [] priority_cfg)) s))))
            (Config.sections priority_cfg))) /\
    Forall2 (fun n x => exists w, x = PDict w /\
               (Config.has_option priority_cfg ("watcher:" ++ n) "name" = false ->
                dict_get "name" w = Some (PStr n))) ns ws.
Proof.
  split; [repeat constructor; simpl; intuition discriminate|].
  eexists. split; [vm_compute; reflexivity|].
  apply (get_config_watchers_by_name linux_util [] priority_cfg).
  - repeat constructor; simpl; intuition discriminate.
  - vm_compute. reflexivity.
Defined.

(** ** C4 *)

(** Claim C4 fails where [RLIM_INFINITY] is not [-1] (macOS, the BSDs):
    [rlimit_nofile = -1] is stored as the integer [-1]. *)
Lemma rlimit_minus_one_not_infinity :
  watchers_option "rlimits"
    (Config.get_config bsd_util [] [("watcher:w", [("cmd", "w"); ("rlimit_nofile", "-1")])]) =
    Some [Some (PDict [("nofile", PInt (-1))])] /\
  Config.RLIM_INFINITY bsd_util <> -1.
Proof. split; [vm_compute; reflexivity | vm_compute; discriminate]. Qed.

Lemma watcher_section_in (U : Config.util) (environ : env_t) (cfg : Config.cfgparser)
  (st : Config.pass_state) (n k : string) :
  Config.watchers st =
    Config.sort_by_field (fun s => nth 1 (py_split1 "watcher:" s) "")
      (filter (fun s => startswith "watcher:" s &&
         negb (Config.empty_section_keys
                 (map fst (Config.section_items cfg (fst (Config.environments environ cfg)) s))))
         (Config.sections cfg)) ->
  In ("watcher:" ++ n) (Config.sections cfg) ->
  In k (map fst (Config.raw_items cfg ("watcher:" ++ n))) -> String.eqb k "__name__" = false ->
  In ("watcher:" ++ n) (Config.watchers st).
Proof.
  intros Hws Hin Hk Hkn. rewrite Hws. apply sort_by_field_in, filter_In. split; [exact Hin|].
  rewrite (section_kept cfg _ _ k Hk Hkn). unfold startswith. rewrite prefix_self_app.
  reflexivity.
Qed.

(** Claim C4 (amended): for a watcher section whose last [rlimit_NAME]
    option has the value ["-1"], the snapshot's watcher of that section has
    [rlimits[NAME] = -1], the integer; with an empty value and the
    [resource] module available, [rlimits[NAME]] is [RLIM_INFINITY]. *)
Theorem get_config_rlimit (U : Config.util) (environ : env_t) (cfg : Config.cfgparser)
  (c : dict) (n r v : string) (l1 l2 : list (string * string)) :
  NoDup (Config.sections cfg) ->
  In ("watcher:" ++ n) (Config.sections cfg) ->
  Config.raw_items cfg ("watcher:" ++ n) = (l1 ++ (("rlimit_" ++ r)%string, v) :: l2)%list ->
  ~ In ("rlimit_" ++ r) (map fst l2) ->
  Config.has_option cfg ("watcher:" ++ n) "rlimits" = false ->
  Config.has_option cfg ("watcher:" ++ n) "name" = false ->
  Config.get_config U environ cfg = Ok c ->
  exists ws w rl,
    dict_get "watchers" c = Some (PList ws) /\ In (PDict w) ws /\
    dict_get "name" w = Some (PStr n) /\
    dict_get "rlimits" w = Some (PDict rl) /\
    (v = "-1" -> dict_get r rl = Some (PInt (-1))) /\
    (v = "" -> Config.resource_present U = true ->
     dict_get r rl = Some (PInt (Config.RLIM_INFINITY U))).
Proof.
  intros Hnd Hin Hraw Hl2 Hnr Hnn H.
  destruct (get_config_watchers_at U environ cfg c H Hnd) as (st & Hc & Hws & Hall).
  assert (Hs : In ("watcher:" ++ n) (Config.watchers st)).
  { apply (watcher_section_in U environ cfg st n ("rlimit_" ++ r) Hws Hin); [|reflexivity].
    rewrite Hraw, map_app. apply in_or_app. right. left. reflexivity. }
  destruct (Hall _ Hs) as (ce & w0 & w & _ & Hk & _ & Hopts & Hm).
  exists (map (fun s => PDict (Config.watcher_in (Config.watchers_map st) s)) (Config.watchers st)).
  exists w.
  assert (Hno : forall k, Config.has_option cfg ("watcher:" ++ n) k = false ->
                forall o x, In (o, x) (Config.raw_items cfg ("watcher:" ++ n)) ->
                String.eqb o k = false).
  { intros k Hk' o x Hx. rewrite String.eqb_sym. exact (raw_items_no_opt _ _ k o x Hk' Hx). }
  assert (Hname : dict_get "name" w = Some (PStr n)).
  { rewrite (mfold_apply_frame U _ _ w0 w "name" Hopts); try reflexivity.
    - rewrite (Hk "name" eq_refl), watcher_name_split. reflexivity.
    - intros o x Hx. rewrite String.eqb_sym. exact (Hno "name" Hnn o x Hx). }
  revert Hopts. rewrite Hraw. intros Hopts.
  rewrite mfold_left_app in Hopts. apply bind_ok in Hopts as (w1 & H1 & Hopts).
  cbn [mfold_left] in Hopts. apply bind_ok in Hopts as (w2 & H2 & Hopts).
  assert (Hnr' : forall o x, In (o, x) (Config.raw_items cfg ("watcher:" ++ n)) ->
                 String.eqb o "rlimits" = false) by exact (Hno "rlimits" Hnr).
  rewrite Hraw in Hnr'.
  destruct (mfold_rlimits U _ l1 w0 w1 [] H1
              (fun o x Hx => Hnr' o x (in_or_app _ _ _ (or_introl Hx)))
              (eq_trans (Hk "rlimits" eq_refl) eq_refl)) as (d1 & Hd1 & _).
  rewrite apply_opt_rlimit_eq, Hd1 in H2.
  apply bind_ok in H2 as (z & Hz & H2). injection H2 as <-.
  destruct (mfold_rlimits U _ l2 _ w _ Hopts
              (fun o x Hx => Hnr' o x (in_or_app l1 _ (o, x) (or_intror (in_cons _ _ _ Hx))))
              (dict_get_set_eq _ _ _)) as (rl & Hrl & Hr).
  exists rl. split; [exact Hc|]. split.
  { apply in_map_iff. exists ("watcher:" ++ n). split; [|exact Hs].
    unfold Config.watcher_in. rewrite Hm. reflexivity. }
  split; [exact Hname|]. split; [exact Hrl|].
  rewrite (Hr r Hl2), dict_get_set_eq. split.
  - intros ->. unfold Config.rlimit_value in Hz. simpl in Hz.
    rewrite andb_false_r in Hz. injection Hz as <-. reflexivity.
  - intros -> Hres. unfold Config.rlimit_value in Hz. simpl in Hz.
    rewrite Hres in Hz. injection Hz as <-. reflexivity.
Qed.

Lemma get_config_rlimit_witness :
  NoDup (Config.sections [("watcher:w", [("cmd", "w"); ("rlimit_nofile", "-1")])]) /\
  In ("watcher:" ++ "w") (Config.sections [("watcher:w", [("cmd", "w"); ("rlimit_nofile", "-1")])]) /\
  Config.raw_items [("watcher:w", [("cmd", "w"); ("rlimit_nofile", "-1")])] ("watcher:" ++ "w")
    = ([("cmd", "w")] ++ (("rlimit_" ++ "nofile")%string, "-1") :: [])%list /\
  ~ In ("rlimit_" ++ "nofile") (map fst (@nil (string * string))) /\
  Config.has_option [("watcher:w", [("cmd", "w"); ("rlimit_nofile", "-1")])] ("watcher:" ++ "w") "rlimits" = false /\
  Config.has_option [("watcher:w", [("cmd", "w"); ("rlimit_nofile", "-1")])] ("watcher:" ++ "w") "name" = false /\
  exists c, Config.get_config linux_util [] [("watcher:w", [("cmd", "w"); ("rlimit_nofile", "-1")])] = Ok c /\
  exists ws w rl,
    dict_get "watchers" c = Some (PList ws) /\ In (PDict w) ws /\
    dict_get "name" w = Some (PStr "w") /\
    dict_get "rlimits" w = Some (PDict rl) /\
    ("-1" = "-1" -> dict_get "nofile" rl = Some (PInt (-1))) /\
    ("-1" = "" -> Config.resource_present linux_util = true ->
     dict_get "nofile" rl = Some (PInt (Config.RLIM_INFINITY linux_util))).
Proof.
  split; [repeat constructor; simpl; tauto|].
  split; [left; reflexivity|]. split; [reflexivity|]. split; [simpl; tauto|].
  split; [reflexivity|]. split; [reflexivity|].
  eexists. split; [vm_compute; reflexivity|].
  apply (get_config_rlimit linux_util [] [("watcher:w", [("cmd", "w"); ("rlimit_nofile", "-1")])]
           _ "w" "nofile" "-1" [("cmd", "w")] []).
  - repeat constructor; simpl; tauto.
  - left. reflexivity.
  - reflexivity.
  - simpl. tauto.
  - reflexivity.
  - reflexivity.
  - vm_compute. reflexivity.
Defined.

(** ** C7 *)

(** Claim C7 fails both ways: [copy_path = true] leaves [PATH] out of the
    watcher's [env], and [copy_env = true] alone brings it in. *)
Lemma copy_path_not_path_inheritance :
  watchers_option "env"
    (Config.get_config linux_util [("PATH", "/usr/bin")]
       [("watcher:w", [("cmd", "w"); ("copy_path", "true")])]) =
    Some [Some (PDict [])] /\
  watchers_option "env"
    (Config.get_config linux_util [("PATH", "/usr/bin")]
       [("watcher:w", [("cmd", "w"); ("copy_env", "true")])]) =
    Some [Some (PDict [("PATH", PStr "/usr/bin")])].
Proof. split; vm_compute; reflexivity. Qed.

Lemma apply_opt_copy_path (U : Config.util) (env : env_t) (w w' : dict) (raw : string) :
  Config.apply_opt U env w ("copy_path", raw) = Ok w' ->
  exists b, Config.to_bool U (replace_gnu_args raw env) = Some b /\
            w' = dict_set "copy_path" (PBool b) w.
Proof.
  cbv beta iota zeta delta [Config.apply_opt]. simpl.
  unfold Config.put, bind. simpl.
  destruct (Config.to_bool U (replace_gnu_args raw env)) as [b|]; [|discriminate].
  intros H. injection H as <-. eauto.
Qed.

(** Claim C7 (amended): the [env] of the snapshot's watcher of section
    [watcher:NAME] starts as the global environment when [copy_env] is
    true, as the [[env]] section's variables otherwise; each [env:PATTERNS]
    section then adds its variables for each of its patterns [NAME] matches.
    [copy_path] plays no part in it: it only sets the watcher's boolean
    [copy_path] option ([False] when absent). *)
Theorem get_config_watcher_env (U : Config.util) (environ : env_t) (cfg : Config.cfgparser)
  (c : dict) (n : string) :
  NoDup (Config.sections cfg) ->
  In ("watcher:" ++ n) (Config.sections cfg) ->
  Config.has_option cfg ("watcher:" ++ n) "env" = false ->
  Config.has_option cfg ("watcher:" ++ n) "name" = false ->
  Config.get_config U environ cfg = Ok c ->
  exists ws w ce,
    dict_get "watchers" c = Some (PList ws) /\ In (PDict w) ws /\
    dict_get "name" w = Some (PStr n) /\
    Config.dget U cfg (fst (Config.environments environ cfg)) ("watcher:" ++ n) "copy_env"
      (PBool false) Config.TBool = Ok ce /\
    dict_get "env" w = Some (PDict
      (fold_left (fun e s =>
         if startswith "env:" s then
           fold_left (fun e p =>
             if Config.fnmatch U n p
             then dict_update e (map (fun kv => (fst kv, PStr (snd kv)))
                                   (dict_of (Config.raw_items cfg s)))
             else e)
             (map strip (py_split "," (nth 1 (py_split1 "env:" s) ""))) e
         else e)
         (Config.sections cfg)
         (map (fun kv => (fst kv, PStr (snd kv)))
            (if Config.truthy ce then fst (Config.environments environ cfg)
             else snd (Config.environments environ cfg))))) /\
    (Config.has_option cfg ("watcher:" ++ n) "copy_path" = false ->
     dict_get "copy_path" w = Some (PBool false)) /\
    (forall l1 raw l2,
       Config.raw_items cfg ("watcher:" ++ n) = (l1 ++ ("copy_path", raw) :: l2)%list ->
       ~ In "copy_path" (map fst l2) ->
       exists b,
         Config.to_bool U (replace_gnu_args raw
           (dict_update (dict_of (fst (Config.environments environ cfg)))
              (Config.env_of (dict_get "env" w)))) = Some b /\
         dict_get "copy_path" w = Some (PBool b)).
Proof.
  intros Hnd Hin Hne Hnn H.
  destruct (get_config_watchers_at U environ cfg c H Hnd) as (st & Hc & Hws & Hall).
  assert (Hs : In ("watcher:" ++ n) (Config.watchers st)).
  { rewrite Hws. apply sort_by_field_in, filter_In. split; [exact Hin|].
    unfold startswith at 1. rewrite prefix_self_app. simpl.
    destruct (Config.empty_section_keys _) eqn:Ek; [|reflexivity].
    exfalso. refine (empty_watcher_section_blocks U environ cfg ("watcher:" ++ n) c _ Hin Ek H).
    apply prefix_self_app. }
  destruct (Hall _ Hs) as (ce & w0 & w & Hce & Hk & He & Hopts & Hm).
  assert (Hno : forall k, Config.has_option cfg ("watcher:" ++ n) k = false ->
                forall o x, In (o, x) (Config.raw_items cfg ("watcher:" ++ n)) ->
                String.eqb k o = false).
  { intros k Hk' o x Hx. exact (raw_items_no_opt _ _ k o x Hk' Hx). }
  assert (Henv : dict_get "env" w = dict_get "env" w0).
  { apply (mfold_apply_frame U _ _ w0 w "env" Hopts); try reflexivity. exact (Hno "env" Hne). }
  exists (map (fun s => PDict (Config.watcher_in (Config.watchers_map st) s)) (Config.watchers st)).
  exists w, ce. split; [exact Hc|]. split.
  { apply in_map_iff. exists ("watcher:" ++ n). split; [|exact Hs].
    unfold Config.watcher_in. rewrite Hm. reflexivity. }
  split.
  { rewrite (mfold_apply_frame U _ _ w0 w "name" Hopts); try reflexivity.
    - rewrite (Hk "name" eq_refl), watcher_name_split. reflexivity.
    - exact (Hno "name" Hnn). }
  split; [exact Hce|]. split.
  { rewrite Henv, He, watcher_name_split. reflexivity. }
  split.
  { intros Hncp. rewrite (mfold_apply_frame U _ _ w0 w "copy_path" Hopts); try reflexivity.
    - rewrite (Hk "copy_path" eq_refl). reflexivity.
    - exact (Hno "copy_path" Hncp). }
  intros l1 raw l2 Hraw Hl2. rewrite Henv. revert Hopts. rewrite Hraw. intros Hopts.
  rewrite mfold_left_app in Hopts. apply bind_ok in Hopts as (w1 & H1 & Hopts).
  cbn [mfold_left] in Hopts. apply bind_ok in Hopts as (w2 & H2 & Hopts).
  apply apply_opt_copy_path in H2 as (b & Hb & ->).
  exists b. split; [exact Hb|].
  rewrite (mfold_apply_frame U _ _ _ w "copy_path" Hopts); try reflexivity.
  - apply dict_get_set_eq.
  - intros o r Hx. apply String.eqb_neq. intros <-. apply Hl2.
    apply in_map_iff. exists ("copy_path", r). split; [reflexivity | exact Hx].
Qed.

Lemma get_config_watcher_env_witness :
  NoDup (Config.sections env_example_cfg) /\
  In ("watcher:" ++ "w") (Config.sections env_example_cfg) /\
  Config.has_option env_example_cfg ("watcher:" ++ "w") "env" = false /\
  Config.has_option env_example_cfg ("watcher:" ++ "w") "name" = false /\
  exists c, Config.get_config linux_util [("PATH", "/usr/bin")] env_example_cfg = Ok c /\
  exists ws w ce,
    dict_get "watchers" c = Some (PList ws) /\ In (PDict w) ws /\
    dict_get "name" w = Some (PStr "w") /\
    Config.dget linux_util env_example_cfg
      (fst (Config.environments [("PATH", "/usr/bin")] env_example_cfg)) ("watcher:" ++ "w")
      "copy_env" (PBool false) Config.TBool = Ok ce /\
    dict_get "env" w = Some (PDict
      (fold_left (fun e s =>
         if startswith "env:" s then
           fold_left (fun e p =>
             if Config.fnmatch linux_util "w" p
             then dict_update e (map (fun kv => (fst kv, PStr (snd kv)))
                                   (dict_of (Config.raw_items env_example_cfg s)))
             else e)
             (map strip (py_split "," (nth 1 (py_split1 "env:" s) ""))) e
         else e)
         (Config.sections env_example_cfg)
         (map (fun kv => (fst kv, PStr (snd kv)))
            (if Config.truthy ce
             then fst (Config.environments [("PATH", "/usr/bin")] env_example_cfg)
             else snd (Config.environments [("PATH", "/usr/bin")] env_example_cfg))))) /\
    (Config.has_option env_example_cfg ("watcher:" ++ "w") "copy_path" = false ->
     dict_get "copy_path" w = Some (PBool false)) /\
    (forall l1 raw l2,
       Config.raw_items env_example_cfg ("watcher:" ++ "w") = (l1 ++ ("copy_path", raw) :: l2)%list ->
       ~ In "copy_path" (map fst l2) ->
       exists b,
         Config.to_bool linux_util (replace_gnu_args raw
           (dict_update (dict_of (fst (Config.environments [("PATH", "/usr/bin")] env_example_cfg)))
              (Config.env_of (dict_get "env" w)))) = Some b /\
         dict_get "copy_path" w = Some (PBool b)).
Proof.
  split; [repeat constructor; simpl; intuition discriminate|].
  split; [simpl; tauto|]. split; [reflexivity|]. split; [reflexivity|].
  eexists. split; [vm_compute; reflexivity|].
  apply (get_config_watcher_env linux_util [("PATH", "/usr/bin")] env_example_cfg _ "w").
  - repeat constructor; simpl; intuition discriminate.
  - simpl. tauto.
  - reflexivity.
  - reflexivity.
  - vm_compute. reflexivity.
Defined.
